(** * creme.compose.pipeline: a shallow embedding of [Pipeline] and [Network]

    The development follows [creme/compose/pipeline.py].  Estimators are
    objects of other modules ([base], [union], [func]); the pipeline only
    calls their methods, tests their classes with [isinstance] and reads a
    few attributes.  An estimator is therefore a record of optional methods
    over an abstract heap, and every method call the pipeline issues is
    logged, in order, in a trace of events next to the heap.  A step may
    itself be a pipeline: its methods are the ones defined here, and the
    calls it issues to its own steps are logged in the same trace. *)

From Stdlib Require Import List String Ascii Bool Arith ZArith Lia Permutation.
From Stdlib Require Import DecimalString DecimalNat.
Import ListNotations.
Local Open Scope string_scope.
Local Open Scope list_scope.

Set Implicit Arguments.
Set Warnings "-register-all".

(** ** Python values the module relies on *)

Module Py.

(** Exceptions that can leave a pipeline call. *)
Inductive Exn : Type :=
| ValueError                      (* islice with a negative stop; list.index *)
| IndexError                      (* list(...)[-1] or a[-1] on an empty list *)
| KeyError                        (* OrderedDict.move_to_end of a missing key *)
| AttributeError (attr : string)  (* the object has no such method *)
| TypeError                       (* a required argument is missing *)
| RecursionError                  (* the nesting of calls passed its bound *)
| Raised (what : string).         (* anything raised inside an estimator *)

Inductive Result (A : Type) : Type :=
| Ok (a : A)
| Raise (e : Exn).
Arguments Ok {A} a.
Arguments Raise {A} e.

Definition is_ok {A} (r : Result A) : bool :=
  match r with Ok _ => true | Raise _ => false end.

Definition map_result {A B} (f : A -> B) (r : Result A) : Result B :=
  match r with Ok a => Ok (f a) | Raise e => Raise e end.

Definition and_then {A B} (r : Result A) (k : A -> Result B) : Result B :=
  match r with Ok a => k a | Raise e => Raise e end.

(** A loop whose body may raise: [for a in l: acc = body(a, acc)]. *)
Fixpoint for_fold {A S} (body : A -> S -> Result S) (l : list A) (acc : S)
    : Result S :=
  match l with
  | [] => Ok acc
  | a :: l' => and_then (body a acc) (for_fold body l')
  end.

(** [str(n)] for a non-negative integer. *)
Definition str_of_nat (n : nat) : string :=
  NilEmpty.string_of_uint (Nat.to_uint n).

(** [sep.join(l)] *)
Fixpoint join (sep : string) (l : list string) : string :=
  match l with
  | [] => EmptyString
  | [s] => s
  | s :: l' => (s ++ sep ++ join sep l')%string
  end.

(** [s * n] *)
Fixpoint str_mul (s : string) (n : nat) : string :=
  match n with
  | O => EmptyString
  | S n' => (s ++ str_mul s n')%string
  end.

Definition newline : string := String (ascii_of_nat 10) EmptyString.

Definition is_space (c : ascii) : bool :=
  let n := nat_of_ascii c in
  (((9 <=? n) && (n <=? 13)) || ((28 <=? n) && (n <=? 32)))%nat.

(** [s.rstrip()] on the characters of the ASCII range. *)
Fixpoint rstrip (s : string) : string :=
  match s with
  | EmptyString => EmptyString
  | String c s' =>
      match rstrip s' with
      | EmptyString => if is_space c then EmptyString else String c EmptyString
      | r => String c r
      end
  end.

(** *** [collections.OrderedDict] with string keys *)

Section OrderedDict.
Variable V : Type.

Definition odict : Type := list (string * V).

Definition keys (d : odict) : list string := map fst d.
Definition values (d : odict) : list V := map snd d.

(** [k in d] *)
Fixpoint contains (k : string) (d : odict) : bool :=
  match d with
  | [] => false
  | (k', _) :: d' => String.eqb k' k || contains k d'
  end.

(** [d[k]] *)
Fixpoint getitem (k : string) (d : odict) : option V :=
  match d with
  | [] => None
  | (k', v) :: d' => if String.eqb k' k then Some v else getitem k d'
  end.

(** [d[k] = v]: an existing key keeps its place, a new one goes last. *)
Fixpoint setitem (k : string) (v : V) (d : odict) : odict :=
  match d with
  | [] => [(k, v)]
  | (k', v') :: d' =>
      if String.eqb k' k then (k', v) :: d' else (k', v') :: setitem k v d'
  end.

Fixpoint delitem (k : string) (d : odict) : odict :=
  match d with
  | [] => []
  | (k', v') :: d' =>
      if String.eqb k' k then d' else (k', v') :: delitem k d'
  end.

(** [d.move_to_end(k, last=False)] *)
Definition move_to_front (k : string) (d : odict) : Result odict :=
  match getitem k d with
  | None => Raise KeyError
  | Some v => Ok ((k, v) :: delitem k d)
  end.

End OrderedDict.

End Py.
Import Py.

(** ** The objects of the other modules *)

(** What the embedding leaves abstract: the heap all estimators live in,
    floating-point numbers with their fixed-point formatting
    ['{:,.{prec}f}'.format], targets, keyword parameters, dictionary keys
    with their order and their [str], [repr] of a string, the order in
    which a [set] of index pairs is iterated, the target [None], and what
    [base.Estimator._is_supervised] returns for a class that does not
    override it. *)
Class Types : Type := {
  Heap : Type;
  Float : Type;
  format_float : nat -> Float -> string;
  Target : Type;
  Params : Type;
  no_params : Params;
  Key : Type;
  key_leb : Key -> Key -> bool;
  key_str : Key -> string;
  repr_str : string -> string;
  iter_set : list (nat * nat) -> list (nat * nat);
  None_target : Target;
  Estimator_is_supervised : bool
}.

Module Base.
Section Objects.
Context {T : Types}.

(** A feature value: a float, or any other object seen through
    [type(v).__name__] and [str(v)]. *)
Inductive Val : Type :=
| VFloat (f : Float)
| VOther (type_name : string) (text : string).

(** What flows through a pipeline: a dict of features, or a plain string
    (some transformers accept strings as input instead of dicts). *)
Inductive Features : Type :=
| FStr (s : string)
| FDict (items : list (Key * Val)).

(** A mini-batch: the rows of the dataframe; a series of targets. *)
Definition DataFrame : Type := list Features.
Definition Series : Type := list Target.

(** A method of an estimator: it reads and writes the heap and either
    returns or raises. *)
Definition Method (A : Type) : Type := Heap -> Result A * Heap.

(** An estimator object.  [None] for a method means the attribute is
    missing.  For [fit_one] and [fit_many] the target is [None] when the
    call passes no [y] keyword. *)
Record Estimator : Type := {
  oid : nat;
  type_name : string;
  str : string;
  isTransformer : bool;
  isSupervisedTransformer : bool;
  isClassifier : bool;
  _is_supervised : bool;
  m_transform_one : option (Features -> Method Features);
  m_fit_one : option (Features -> option Target -> Params -> Method unit);
  m_predict_one : option (Features -> Method Val);
  m_predict_proba_one : option (Features -> Method Features);
  m_score_one : option (Features -> Method Val);
  m_forecast : option (Z -> option (list Features) -> Method (list Val));
  m_debug_one : option (Features -> Method string);
  m_transform_many : option (DataFrame -> Method DataFrame);
  m_fit_many : option (DataFrame -> option Series -> Params -> Method unit);
  m_predict_many : option (DataFrame -> Method (list Val));
  m_predict_proba_many : option (DataFrame -> Method DataFrame)
}.

(** A plain Python function given as a step. *)
Record PyFunction : Type := {
  fn_name : string;
  fn_call : Features -> Method Features
}.

(** A step as the pipeline's [isinstance] tests see it.  A step that is
    itself a [Pipeline] is its identity and its own steps: its methods are
    those of this module. *)
Inductive Step : Type :=
| Leaf (e : Estimator)
| FuncTransformer (e : Estimator) (func : PyFunction)
| TransformerUnion (e : Estimator) (transformers : list (string * Step))
| SubPipeline (o : nat) (steps : list (string * Step))
| Wrapper (e : Estimator) (_wrapper_model : Step) (_labelloc : string).

(** [str(t)]; for a pipeline, [Pipeline.__str__]. *)
Fixpoint str_of (t : Step) : string :=
  match t with
  | SubPipeline _ sub =>
      join " | "
        ((fix strs (l : list (string * Step)) : list string :=
            match l with
            | [] => []
            | (_, s) :: l' => str_of s :: strs l'
            end) sub)
  | Leaf e | FuncTransformer e _ | TransformerUnion e _ | Wrapper e _ _ => str e
  end.

(** The attributes of a step.  [Pipeline] derives from [base.Estimator]
    alone, so a step that is a pipeline is no [Transformer], no
    [SupervisedTransformer] and no [Classifier]; the methods of such a step
    are not read from this record (see [Pipeline.call_transform_one] and
    the like). *)
Definition est (t : Step) : Estimator :=
  match t with
  | Leaf e | FuncTransformer e _ | TransformerUnion e _ | Wrapper e _ _ => e
  | SubPipeline o _ =>
      {| oid := o; type_name := "Pipeline"; str := str_of t;
         isTransformer := false; isSupervisedTransformer := false;
         isClassifier := false; _is_supervised := Estimator_is_supervised;
         m_transform_one := None; m_fit_one := None; m_predict_one := None;
         m_predict_proba_one := None; m_score_one := None;
         m_forecast := None; m_debug_one := None; m_transform_many := None;
         m_fit_many := None; m_predict_many := None;
         m_predict_proba_many := None |}
  end.

(** [isinstance(t, Pipeline)] *)
Definition is_pipeline (t : Step) : bool :=
  match t with SubPipeline _ _ => true | _ => false end.

(** An uninstantiated class given as a step: the name of its own class (its
    metaclass) and the instance [cls()] builds.  The record stands for a
    class whose call [cls()] returns; a class whose constructor needs
    arguments raises TypeError at that call and has no such record. *)
Record PyType : Type := {
  metaclass_name : string;
  instantiate : Step
}.

(** *** Calls and their log *)

Inductive Event : Type :=
| transform_one_ev (o : nat) (x : Features)
| fit_one_ev (o : nat) (x : Features) (y : option Target) (params : Params)
| predict_one_ev (o : nat) (x : Features)
| predict_proba_one_ev (o : nat) (x : Features)
| score_one_ev (o : nat) (x : Features)
| forecast_ev (o : nat) (horizon : Z) (xs : option (list Features))
| debug_one_ev (o : nat) (x : Features)
| transform_many_ev (o : nat) (X : DataFrame)
| fit_many_ev (o : nat) (X : DataFrame) (y : option Series) (params : Params)
| predict_many_ev (o : nat) (X : DataFrame)
| predict_proba_many_ev (o : nat) (X : DataFrame).

Definition is_fit (ev : Event) : bool :=
  match ev with
  | fit_one_ev _ _ _ _ | fit_many_ev _ _ _ _ => true
  | _ => false
  end.

Record State : Type := { heap : Heap; trace : list Event }.

(** Pipeline code: state passing over heap and trace; an exception leaves
    the state as it was when it was raised. *)
Definition M (A : Type) : Type := State -> Result A * State.

Definition ret {A} (a : A) : M A := fun s => (Ok a, s).

Definition raise {A} (e : Exn) : M A := fun s => (Raise e, s).

Definition bind {A B} (m : M A) (k : A -> M B) : M B :=
  fun s =>
    match m s with
    | (Ok a, s') => k a s'
    | (Raise e, s') => (Raise e, s')
    end.

(** A call on a step that is a pipeline is logged too. *)
Definition log (ev : Event) : M unit :=
  fun s => (Ok tt, {| heap := heap s; trace := trace s ++ [ev] |}).

(** [obj.attr(args)]: AttributeError when the attribute is missing,
    otherwise the call is logged and run on the heap. *)
Definition call {A} (attr : string) (ev : Event) (m : option (Method A)) : M A :=
  fun s =>
    match m with
    | None => (Raise (AttributeError attr), s)
    | Some f =>
        let (r, h) := f (heap s) in
        (r, {| heap := h; trace := trace s ++ [ev] |})
    end.

End Objects.
End Base.
Import Base.

Declare Scope py_scope.
Delimit Scope py_scope with py.
Notation "x <- m ;; k" := (bind m (fun x => k))
  (at level 61, m at next level, right associativity) : py_scope.
Notation "m ;;; k" := (bind m (fun _ => k))
  (at level 61, right associativity) : py_scope.
Notation "x <~ r ;; k" := (and_then r (fun x => k))
  (at level 61, r at next level, right associativity) : py_scope.

(** ** [class Network] *)

Module Network.
Section Methods.
Context {T : Types}.
Local Open Scope py_scope.

(** An item of a network: a string, or a network (its list [data], then the
    attributes [edges], [directed], [name] and [labelloc]). *)
Inductive Node : Type :=
| NStr (s : string)
| NNet (data : list Node) (edges : list (nat * nat)) (directed : bool)
       (name : option string) (labelloc : option string).

Record Network : Type := {
  data : list Node;
  edges : list (nat * nat);
  directed : bool;
  name : option string;
  labelloc : option string
}.

Definition as_node (n : Network) : Node :=
  NNet (data n) (edges n) (directed n) (name n) (labelloc n).

(** [a == b]: strings by value, [UserList]s by their [data], and a string
    never equals a list. *)
Fixpoint node_eqb (a b : Node) : bool :=
  match a, b with
  | NStr s, NStr s' => String.eqb s s'
  | NNet da _ _ _ _, NNet db _ _ _ _ =>
      (fix all2 (l l' : list Node) : bool :=
         match l, l' with
         | [], [] => true
         | x :: r, x' :: r' => node_eqb x x' && all2 r r'
         | _, _ => false
         end) da db
  | _, _ => false
  end.

(** [repr]: of a [UserList] it is the [repr] of its list. *)
Fixpoint repr (a : Node) : string :=
  match a with
  | NStr s => repr_str s
  | NNet da _ _ _ _ =>
      ("[" ++ join ", "
         ((fix reprs (l : list Node) : list string :=
             match l with
             | [] => []
             | x :: r => repr x :: reprs r
             end) da) ++ "]")%string
  end.

(** [a in self] *)
Definition contains_node (a : Node) (l : list Node) : bool :=
  existsb (fun x => node_eqb x a) l.

Definition append (self : Network) (a : Node) : Network :=
  if negb (contains_node a (data self)) then
    {| data := data self ++ [a]; edges := edges self;
       directed := directed self; name := name self;
       labelloc := labelloc self |}
  else self.

(** [self.index(a)], counting from [i]. *)
Fixpoint index_from (i : nat) (a : Node) (l : list Node) : Result nat :=
  match l with
  | [] => Raise ValueError
  | x :: l' => if node_eqb x a then Ok i else index_from (S i) a l'
  end.

Definition index (self : Network) (a : Node) : Result nat :=
  index_from 0 a (data self).

Definition pair_eqb (p q : nat * nat) : bool :=
  Nat.eqb (fst p) (fst q) && Nat.eqb (snd p) (snd q).

(** [s.add(p)] on a set kept as a list without repeats. *)
Definition set_add (p : nat * nat) (s : list (nat * nat)) : list (nat * nat) :=
  if existsb (pair_eqb p) s then s else s ++ [p].

Definition link (self : Network) (a b : Node) : Result Network :=
  let self := append self a in
  let self := append self b in
  i <~ index self a ;;
  j <~ index self b ;;
  Ok {| data := data self; edges := set_add (i, j) (edges self);
        directed := directed self; name := name self;
        labelloc := labelloc self |}.

Definition __init__ (nodes : list Node) (links : list (Node * Node))
    (directed : bool) (name labelloc : option string) : Result Network :=
  let self :=
    fold_left append nodes
      {| data := []; edges := []; directed := directed; name := name;
         labelloc := labelloc |} in
  for_fold (fun ab self => link self (fst ab) (snd ab)) links self.

(** *** [draw] *)

(** What a [graphviz.Digraph] has been told. *)
Inductive Stmt : Type :=
| node_stmt (a : string)
| edge_stmt (a b : string)
| attr_stmt (label : string) (labelloc : option string)
| subgraph_stmt (gname : option string) (body : list Stmt).

Record Digraph : Type := { gname : option string; body : list Stmt }.

(** The state of one [draw] call: the graph [G] and [drawn_subclusters]. *)
Record Drawing : Type := { G : list Stmt; drawn_subclusters : list string }.

Fixpoint draw_node (a : Node) (g : list Stmt) : list Stmt :=
  match a with
  | NStr s => g ++ [node_stmt s]
  | NNet da _ _ _ _ =>
      (fix parts (l : list Node) (g : list Stmt) : list Stmt :=
         match l with
         | [] => g
         | part :: r => parts r (draw_node part g)
         end) da g
  end.

(** [draw_link] and [draw] call each other; [fuel] bounds the nesting of
    these calls, and running out of it is a RecursionError. *)
Fixpoint draw_link (fuel : nat) (a b : Node) (st : Drawing) {struct fuel}
    : Result Drawing :=
  match fuel with
  | O => Raise RecursionError
  | S fuel' =>
      match a with
      | NNet da _ a_directed _ _ =>
          if a_directed then
            match rev da with
            | [] => Raise IndexError
            | a_last :: _ => draw_link fuel' a_last b st
            end
          else for_fold (fun part st => draw_link fuel' part b st) da st
      | NStr sa =>
          match b with
          | NNet db eb b_directed b_name b_labelloc =>
              if b_directed then
                st <~ (if negb (existsb (String.eqb (repr b))
                                  (drawn_subclusters st)) then
                         sub <~ draw fuel'
                                  {| data := db; edges := eb;
                                     directed := b_directed; name := b_name;
                                     labelloc := b_labelloc |} ;;
                         let sub :=
                           match b_name with
                           | Some nm =>
                               {| gname := Some ("cluster_" ++ nm)%string;
                                  body := body sub ++ [attr_stmt nm b_labelloc] |}
                           | None => sub
                           end in
                         Ok {| G := G st ++ [subgraph_stmt (gname sub) (body sub)];
                               drawn_subclusters :=
                                 drawn_subclusters st ++ [repr b] |}
                       else Ok st) ;;
                match db with
                | [] => Raise IndexError
                | b_first :: _ => draw_link fuel' a b_first st
                end
              else for_fold (fun part st => draw_link fuel' a part st) db st
          | NStr sb =>
              Ok {| G := G st ++ [edge_stmt sa sb];
                    drawn_subclusters := drawn_subclusters st |}
          end
      end
  end
with draw (fuel : nat) (self : Network) {struct fuel} : Result Digraph :=
  match fuel with
  | O => Raise RecursionError
  | S fuel' =>
      let g := fold_left (fun g a => draw_node a g) (data self) [] in
      st <~ for_fold (fun ab st =>
                match nth_error (data self) (fst ab),
                      nth_error (data self) (snd ab) with
                | Some a, Some b => draw_link fuel' a b st
                | _, _ => Raise IndexError
                end)
             (iter_set (edges self))
             {| G := g; drawn_subclusters := [] |} ;;
      Ok {| gname := None; body := G st |}
  end.

End Methods.
End Network.

(** ** [class Pipeline] *)

Module Pipeline.
Section Methods.
Context {T : Types}.
Local Open Scope py_scope.

(** [self.steps]: the ordered dictionary of named steps. *)
Record Pipeline : Type := { steps : odict Step }.

Definition __len__ (self : Pipeline) : nat := List.length (steps self).

(** [self.steps[key]]: a key that is not there is a KeyError. *)
Definition __getitem__ (self : Pipeline) (key : string) : Result Step :=
  match getitem key (steps self) with
  | Some step => Ok step
  | None => Raise KeyError
  end.

(** *** Method calls on one step *)

(** The methods of [Pipeline] itself, as a step that is a pipeline has
    them: each takes the steps of that pipeline. *)
Record Nested : Type := {
  n_transform_one : odict Step -> Features -> M Features;
  n_fit_one : odict Step -> Features -> Target -> Params -> M unit;
  n_predict_one : odict Step -> Features -> M Val;
  n_predict_proba_one : odict Step -> Features -> M Features;
  n_score_one : odict Step -> Features -> M Val;
  n_forecast : odict Step -> Z -> option (list Features) -> M (list Val);
  n_debug_one : odict Step -> Features -> bool -> nat -> M string;
  n_transform_many : odict Step -> DataFrame -> M DataFrame;
  n_fit_many : odict Step -> DataFrame -> Series -> Params -> M unit;
  n_predict_many : odict Step -> DataFrame -> M (list Val);
  n_predict_proba_many : odict Step -> DataFrame -> M DataFrame
}.

Variable nested : Nested.

Definition call_transform_one (t : Step) (x : Features) : M Features :=
  match t with
  | SubPipeline o sub =>
      log (transform_one_ev o x) ;;; n_transform_one nested sub x
  | _ =>
      call "transform_one" (transform_one_ev (oid (est t)) x)
           (option_map (fun f => f x) (m_transform_one (est t)))
  end.

(** [fit_one] of [Pipeline] has [y=None] as its default. *)
Definition call_fit_one (t : Step) (x : Features) (y : option Target)
    (params : Params) : M unit :=
  match t with
  | SubPipeline o sub =>
      log (fit_one_ev o x y params) ;;;
      n_fit_one nested sub x
        (match y with Some v => v | None => None_target end) params
  | _ =>
      call "fit_one" (fit_one_ev (oid (est t)) x y params)
           (option_map (fun f => f x y params) (m_fit_one (est t)))
  end.

Definition call_predict_one (t : Step) (x : Features) : M Val :=
  match t with
  | SubPipeline o sub =>
      log (predict_one_ev o x) ;;; n_predict_one nested sub x
  | _ =>
      call "predict_one" (predict_one_ev (oid (est t)) x)
           (option_map (fun f => f x) (m_predict_one (est t)))
  end.

Definition call_predict_proba_one (t : Step) (x : Features) : M Features :=
  match t with
  | SubPipeline o sub =>
      log (predict_proba_one_ev o x) ;;; n_predict_proba_one nested sub x
  | _ =>
      call "predict_proba_one" (predict_proba_one_ev (oid (est t)) x)
           (option_map (fun f => f x) (m_predict_proba_one (est t)))
  end.

Definition call_score_one (t : Step) (x : Features) : M Val :=
  match t with
  | SubPipeline o sub =>
      log (score_one_ev o x) ;;; n_score_one nested sub x
  | _ =>
      call "score_one" (score_one_ev (oid (est t)) x)
           (option_map (fun f => f x) (m_score_one (est t)))
  end.

Definition call_forecast (t : Step) (horizon : Z)
    (xs : option (list Features)) : M (list Val) :=
  match t with
  | SubPipeline o sub =>
      log (forecast_ev o horizon xs) ;;; n_forecast nested sub horizon xs
  | _ =>
      call "forecast" (forecast_ev (oid (est t)) horizon xs)
           (option_map (fun f => f horizon xs) (m_forecast (est t)))
  end.

(** [hasattr(t, 'debug_one')] *)
Definition has_debug_one (t : Step) : bool :=
  match t with
  | SubPipeline _ _ => true
  | _ => match m_debug_one (est t) with Some _ => true | None => false end
  end.

(** [t.debug_one(x)]: a pipeline takes its defaults, [show_types=True] and
    [n_decimals=5]. *)
Definition call_debug_one (t : Step) (x : Features) : M string :=
  match t with
  | SubPipeline o sub =>
      log (debug_one_ev o x) ;;; n_debug_one nested sub x true 5
  | _ =>
      call "debug_one" (debug_one_ev (oid (est t)) x)
           (option_map (fun f => f x) (m_debug_one (est t)))
  end.

Definition call_transform_many (t : Step) (X : DataFrame) : M DataFrame :=
  match t with
  | SubPipeline o sub =>
      log (transform_many_ev o X) ;;; n_transform_many nested sub X
  | _ =>
      call "transform_many" (transform_many_ev (oid (est t)) X)
           (option_map (fun f => f X) (m_transform_many (est t)))
  end.

(** [fit_many] of [Pipeline] has no default for [y]: without it the call
    is a TypeError. *)
Definition call_fit_many (t : Step) (X : DataFrame) (y : option Series)
    (params : Params) : M unit :=
  match t with
  | SubPipeline o sub =>
      match y with
      | Some y => log (fit_many_ev o X (Some y) params) ;;;
                  n_fit_many nested sub X y params
      | None => raise TypeError
      end
  | _ =>
      call "fit_many" (fit_many_ev (oid (est t)) X y params)
           (option_map (fun f => f X y params) (m_fit_many (est t)))
  end.

Definition call_predict_many (t : Step) (X : DataFrame) : M (list Val) :=
  match t with
  | SubPipeline o sub =>
      log (predict_many_ev o X) ;;; n_predict_many nested sub X
  | _ =>
      call "predict_many" (predict_many_ev (oid (est t)) X)
           (option_map (fun f => f X) (m_predict_many (est t)))
  end.

Definition call_predict_proba_many (t : Step) (X : DataFrame) : M DataFrame :=
  match t with
  | SubPipeline o sub =>
      log (predict_proba_many_ev o X) ;;; n_predict_proba_many nested sub X
  | _ =>
      call "predict_proba_many" (predict_proba_many_ev (oid (est t)) X)
           (option_map (fun f => f X) (m_predict_proba_many (est t)))
  end.

(** [for a in l: body(a)] *)
Fixpoint for_each {A} (l : list A) (body : A -> M unit) : M unit :=
  match l with
  | [] => ret tt
  | a :: l' => body a ;;; for_each l' body
  end.

(** [[f(a) for a in l]] *)
Fixpoint list_comp {A B} (f : A -> M B) (l : list A) : M (list B) :=
  match l with
  | [] => ret []
  | a :: l' => b <- f a ;; bs <- list_comp f l' ;; ret (b :: bs)
  end.

(** [steps = iter(self.steps.values())] read through
    [itertools.islice(steps, len(self.steps) - 1)] and then [next(steps)]:
    the first [n - 1] steps and the final one.  The stop of [islice] is
    [-1] on an empty pipeline, which raises ValueError. *)
Definition islice_and_next (self : Pipeline) : Result (list Step * Step) :=
  let vs := values (steps self) in
  match List.length vs with
  | O => Raise ValueError
  | S n =>
      match nth_error vs n with
      | Some final => Ok (firstn n vs, final)
      | None => Raise (Raised "StopIteration")
      end
  end.

(** *** [__str__] *)

Definition __str__ (self : Pipeline) : string :=
  join " | " (map str_of (values (steps self))).

(** *** [_add_step] *)

(** What [_add_step] accepts besides an optional name. *)
Inductive StepArg : Type :=
| AFunction (f : PyFunction)
| AType (c : PyType)
| AEstimator (s : Step).

(** [func.FuncTransformer(f)], a class of another module. *)
Variable new_FuncTransformer : PyFunction -> Estimator.

Definition wrap_function (a : StepArg) : Step + PyType :=
  match a with
  | AFunction f => inl (FuncTransformer (new_FuncTransformer f) f)
  | AType c => inr c
  | AEstimator s => inl s
  end.

Definition infer_name (estimator : Step + PyType) : string :=
  match estimator with
  | inl (FuncTransformer _ f) => fn_name f
  | inl s => type_name (est s)
  | inr c => metaclass_name c
  end.

(** [while f'{name}{counter}' in self.steps: counter += 1], at most [fuel]
    tests. *)
Fixpoint while_counter (fuel : nat) (name : string) (counter : nat)
    (d : odict Step) : option nat :=
  match fuel with
  | O => None
  | S fuel' =>
      if contains (name ++ str_of_nat counter)%string d
      then while_counter fuel' name (S counter) d
      else Some counter
  end.

Definition dedup_name (name : string) (d : odict Step) : option string :=
  if contains name d then
    match while_counter (S (List.length d)) name 1 d with
    | Some counter => Some (name ++ str_of_nat counter)%string
    | None => None
    end
  else Some name.

(** [None] stands for a loop that outlives its fuel or for the KeyError of
    [move_to_end]; [add_step_spec] below shows that neither happens. *)
Definition _add_step (self : Pipeline) (estimator : option string * StepArg)
    (at_start : bool) : option Pipeline :=
  let (name, arg) := estimator in
  let estimator := wrap_function arg in
  let name := match name with None => infer_name estimator | Some n => n end in
  match dedup_name name (steps self) with
  | None => None
  | Some name =>
      let estimator :=
        match estimator with inr c => instantiate c | inl s => s end in
      let d := setitem name estimator (steps self) in
      if at_start then
        match move_to_front name d with
        | Ok d' => Some {| steps := d' |}
        | Raise _ => None
        end
      else Some {| steps := d |}
  end.

Definition __or__ (self : Pipeline) (other : option string * StepArg) :=
  _add_step self other false.

Definition __ror__ (self : Pipeline) (other : option string * StepArg) :=
  _add_step self other true.

(** The constructor: [self |= step] for each step given, in order. *)
Fixpoint __init__from (self : Pipeline) (l : list (option string * StepArg))
    : option Pipeline :=
  match l with
  | [] => Some self
  | step :: l' =>
      match __or__ self step with
      | Some self' => __init__from self' l'
      | None => None
      end
  end.

Definition __init__ (l : list (option string * StepArg)) : option Pipeline :=
  __init__from {| steps := [] |} l.

(** *** [_get_params] and [_set_params] *)

(** [dict(self.steps.items())] *)
Definition _get_params (self : Pipeline) : odict Step := steps self.

(** A value of [new_params]: an estimator that replaces the step, or the
    parameters handed to the [_set_params] of the step. *)
Inductive ParamValue : Type :=
| PEstimator (e : Step)
| PParams (p : Params).

(** [step._set_params(p)], a method of [base.Estimator]: the estimator it
    builds from [step] and [p]. *)
Variable step_set_params : Step -> Params -> Step.

(** [_set_params(self, new_params=None)]: a new pipeline of named steps,
    [new_params.get(name, {})] being passed on where the value is no
    estimator. *)
Definition _set_params (self : Pipeline)
    (new_params : option (odict ParamValue)) : option Pipeline :=
  let new_params := match new_params with None => [] | Some d => d end in
  __init__
    (map (fun item : string * Step =>
            let (name, step) := item in
            match getitem name new_params with
            | Some (PEstimator e) => (Some name, AEstimator e)
            | Some (PParams p) =>
                (Some name, AEstimator (step_set_params step p))
            | None =>
                (Some name, AEstimator (step_set_params step no_params))
            end)
         (steps self)).

(** *** Single instance methods *)

(** The loop of [fit_one] over the first [n - 1] steps. *)
Fixpoint fit_one_loop (ts : list Step) (x : Features) (y : Target)
    : M Features :=
  match ts with
  | [] => ret x
  | t :: ts' =>
      let x_pre := x in
      x <- call_transform_one t x ;;
      match t with
      | TransformerUnion _ transformers =>
          for_each (values transformers) (fun sub_t =>
            if isSupervisedTransformer (est sub_t)
            then call_fit_one sub_t x_pre (Some y) no_params
            else ret tt)
      | _ =>
          if isSupervisedTransformer (est t)
          then call_fit_one t x_pre (Some y) no_params
          else ret tt
      end ;;;
      fit_one_loop ts' x y
  end.

(** [fit_one(self, x, y=None, **params)]; it returns [self]. *)
Definition fit_one (self : Pipeline) (x : Features) (y : Target)
    (params : Params) : M unit :=
  match islice_and_next self with
  | Raise e => raise e
  | Ok (ts, final) =>
      x <- fit_one_loop ts x y ;;
      if _is_supervised (est final)
      then call_fit_one final x (Some y) params
      else call_fit_one final x None params
  end.

(** The loop of [_transform_one]. *)
Fixpoint _transform_one_loop (ts : list Step) (x : Features) : M Features :=
  match ts with
  | [] => ret x
  | t :: ts' =>
      match t with
      | TransformerUnion _ transformers =>
          for_each (values transformers) (fun sub_t =>
            if negb (isSupervisedTransformer (est t))
            then call_fit_one sub_t x None no_params
            else ret tt)
      | _ =>
          if negb (isSupervisedTransformer (est t))
          then call_fit_one t x None no_params
          else ret tt
      end ;;;
      x <- call_transform_one t x ;;
      _transform_one_loop ts' x
  end.

Definition _transform_one (self : Pipeline) (x : Features)
    : M (Features * Step) :=
  match islice_and_next self with
  | Raise e => raise e
  | Ok (ts, final) =>
      x <- _transform_one_loop ts x ;;
      ret (x, final)
  end.

Definition transform_one (self : Pipeline) (x : Features) : M Features :=
  r <- _transform_one self x ;;
  let (x, final_step) := r in
  if isTransformer (est final_step)
  then call_transform_one final_step x
  else ret x.

Definition predict_one (self : Pipeline) (x : Features) : M Val :=
  r <- _transform_one self x ;;
  let (x, final_step) := r in
  call_predict_one final_step x.

Definition predict_proba_one (self : Pipeline) (x : Features) : M Features :=
  r <- _transform_one self x ;;
  let (x, final_step) := r in
  call_predict_proba_one final_step x.

Definition score_one (self : Pipeline) (x : Features) : M Val :=
  r <- _transform_one self x ;;
  let (x, final_step) := r in
  call_score_one final_step x.

(** [list(self.steps.values())[-1]] *)
Definition last_step (self : Pipeline) : M Step :=
  match rev (values (steps self)) with
  | [] => raise IndexError
  | final_step :: _ => ret final_step
  end.

Definition forecast (self : Pipeline) (horizon : Z)
    (xs : option (list Features)) : M (list Val) :=
  xs <- match xs with
        | Some l =>
            l' <- list_comp (fun x => r <- _transform_one self x ;; ret (fst r)) l ;;
            ret (Some l')
        | None => ret None
        end ;;
  final_step <- last_step self ;;
  call_forecast final_step horizon xs.

(** *** [debug_one] *)

Definition tab : string := str_mul " " 4.

(** [print(s, file=buffer)] *)
Definition _print (buffer s : string) : string :=
  (buffer ++ s ++ newline)%string.

Definition format_value (n_decimals : nat) (v : Val) : string :=
  match v with
  | VFloat f => format_float n_decimals f
  | VOther _ text => text
  end.

(** [type(v).__name__] *)
Definition type_of_val (v : Val) : string :=
  match v with
  | VFloat _ => "float"
  | VOther type_name _ => type_name
  end.

(** [sorted(x.items())]: the keys of a dict are distinct, so the order of
    the pairs is the order of their keys. *)
Fixpoint insert_item (kv : Key * Val) (l : list (Key * Val))
    : list (Key * Val) :=
  match l with
  | [] => [kv]
  | kv' :: l' =>
      if key_leb (fst kv) (fst kv') then kv :: l else kv' :: insert_item kv l'
  end.

Definition sorted (items : list (Key * Val)) : list (Key * Val) :=
  fold_right insert_item [] items.

Definition print_dict (n_decimals : nat) (buffer : string) (x : Features)
    (show_types indent space_after : bool) : string :=
  let buffer :=
    match x with
    | FStr s => _print buffer s
    | FDict items =>
        fold_left (fun buffer kv =>
          let type_str :=
            if show_types then (" (" ++ type_of_val (snd kv) ++ ")")%string
            else "" in
          _print buffer
            ((if indent then tab else "") ++ key_str (fst kv) ++ ": "
             ++ format_value n_decimals (snd kv) ++ type_str)%string)
          (sorted items) buffer
    end in
  if space_after then _print buffer "" else buffer.

Definition print_title (buffer title : string) (indent : bool) : string :=
  let buffer := _print buffer ((if indent then tab else "") ++ title)%string in
  _print buffer
    ((if indent then tab else "") ++ str_mul "-" (String.length title))%string.

(** The inner loop over the branches of a union, [j] counting from 0. *)
Fixpoint debug_union_loop (show_types : bool) (n_decimals : nat) (i j : nat)
    (branches : list (string * Step)) (x : Features) (buffer : string)
    : M string :=
  match branches with
  | [] => ret buffer
  | (name, sub_t) :: branches' =>
      let name :=
        match sub_t with SubPipeline _ _ => str_of sub_t | _ => name end in
      let buffer :=
        print_title buffer
          (str_of_nat (i + 1) ++ "." ++ str_of_nat j ++ " " ++ name)%string
          true in
      out <- call_transform_one sub_t x ;;
      let buffer := print_dict n_decimals buffer out show_types true true in
      debug_union_loop show_types n_decimals i (S j) branches' x buffer
  end.

(** The loop over the first [n - 1] steps, [i] counting from 0. *)
Fixpoint debug_one_loop (show_types : bool) (n_decimals : nat) (i : nat)
    (ts : list Step) (x : Features) (buffer : string)
    : M (Features * string) :=
  match ts with
  | [] => ret (x, buffer)
  | t :: ts' =>
      r <- match t with
           | TransformerUnion _ transformers =>
               let buffer :=
                 print_title buffer
                   (str_of_nat (i + 1) ++ ". Transformer union")%string false in
               buffer <- debug_union_loop show_types n_decimals i 0
                           transformers x buffer ;;
               x <- call_transform_one t x ;;
               ret (x, print_dict n_decimals buffer x show_types false true)
           | _ =>
               let buffer :=
                 print_title buffer
                   (str_of_nat (i + 1) ++ ". " ++ str_of t)%string false in
               x <- call_transform_one t x ;;
               ret (x, print_dict n_decimals buffer x show_types false true)
           end ;;
      debug_one_loop show_types n_decimals (S i) ts' (fst r) (snd r)
  end.

(** The text printed for the final estimator. *)
Definition debug_final (self : Pipeline) (n_decimals : nat) (final : Step)
    (x : Features) (buffer : string) : M string :=
  if negb (isTransformer (est final)) then
    let buffer :=
      print_title buffer
        (str_of_nat (__len__ self) ++ ". " ++ str_of final)%string false in
    buffer <- (if has_debug_one final
               then s <- call_debug_one final x ;; ret (_print buffer s)
               else ret buffer) ;;
    let buffer := _print buffer "" in
    if isClassifier (est final) then
      proba <- call_predict_proba_one final x ;;
      ret (print_dict n_decimals buffer proba false false false)
    else
      y_pred <- call_predict_one final x ;;
      ret (_print buffer ("Prediction: " ++ format_value n_decimals y_pred)%string)
  else ret buffer.

(** [debug_one(self, x, show_types=True, n_decimals=5)] *)
Definition debug_one (self : Pipeline) (x : Features) (show_types : bool)
    (n_decimals : nat) : M string :=
  let buffer := print_title "" "0. Input" false in
  let buffer := print_dict n_decimals buffer x show_types false true in
  match islice_and_next self with
  | Raise e => raise e
  | Ok (ts, final) =>
      r <- debug_one_loop show_types n_decimals 0 ts x buffer ;;
      buffer <- debug_final self n_decimals final (fst r) (snd r) ;;
      ret (rstrip buffer)
  end.

(** *** Mini-batch methods *)

(** The loop of [fit_many]; [X_pre] is assigned and not read. *)
Fixpoint fit_many_loop (ts : list Step) (X : DataFrame) : M DataFrame :=
  match ts with
  | [] => ret X
  | t :: ts' =>
      let X_pre := X in
      X <- call_transform_many t X ;;
      match t with
      | TransformerUnion _ transformers =>
          for_each (values transformers) (fun sub_t =>
            if isSupervisedTransformer (est sub_t)
            then call_fit_many sub_t X None no_params
            else ret tt)
      | _ =>
          if isSupervisedTransformer (est t)
          then call_fit_many t X None no_params
          else ret tt
      end ;;;
      fit_many_loop ts' X
  end.

(** [fit_many(self, X, y, **params)]; it returns [self]. *)
Definition fit_many (self : Pipeline) (X : DataFrame) (y : Series)
    (params : Params) : M unit :=
  match islice_and_next self with
  | Raise e => raise e
  | Ok (ts, final) =>
      X <- fit_many_loop ts X ;;
      if _is_supervised (est final)
      then call_fit_many final X (Some y) params
      else call_fit_many final X (Some y) params
  end.

(** The loop of [_transform_many]. *)
Fixpoint _transform_many_loop (ts : list Step) (X : DataFrame) : M DataFrame :=
  match ts with
  | [] => ret X
  | t :: ts' =>
      match t with
      | TransformerUnion _ transformers =>
          for_each (values transformers) (fun sub_t =>
            if negb (isSupervisedTransformer (est t))
            then call_fit_many sub_t X None no_params
            else ret tt)
      | _ =>
          if negb (isSupervisedTransformer (est t))
          then call_fit_many t X None no_params
          else ret tt
      end ;;;
      X <- call_transform_many t X ;;
      _transform_many_loop ts' X
  end.

Definition _transform_many (self : Pipeline) (X : DataFrame)
    : M (DataFrame * Step) :=
  match islice_and_next self with
  | Raise e => raise e
  | Ok (ts, final) =>
      X <- _transform_many_loop ts X ;;
      ret (X, final)
  end.

Definition transform_many (self : Pipeline) (X : DataFrame) : M DataFrame :=
  r <- _transform_many self X ;;
  let (X, final_step) := r in
  if isTransformer (est final_step)
  then call_transform_many final_step X
  else ret X.

Definition predict_many (self : Pipeline) (X : DataFrame) : M (list Val) :=
  r <- _transform_many self X ;;
  let (X, final_step) := r in
  call_predict_many final_step X.

Definition predict_proba_many (self : Pipeline) (X : DataFrame) : M DataFrame :=
  r <- _transform_many self X ;;
  let (X, final_step) := r in
  call_predict_proba_many final_step X.

(** *** [draw] *)

(** [networkify(step)].  [map] and [zip] are read once here: the function
    has no effect, so reading a step twice gives the same node. *)
Fixpoint networkify (step : Step) : Result Network.Node :=
  match step with
  | TransformerUnion _ transformers =>
      nodes <~ (fix each (l : list (string * Step)) : Result (list Network.Node) :=
                  match l with
                  | [] => Ok []
                  | (_, s) :: l' =>
                      n <~ networkify s ;; ns <~ each l' ;; Ok (n :: ns)
                  end) transformers ;;
      map_result Network.as_node (Network.__init__ nodes [] false None None)
  | SubPipeline _ sub =>
      nodes <~ (fix each (l : list (string * Step)) : Result (list Network.Node) :=
                  match l with
                  | [] => Ok []
                  | (_, s) :: l' =>
                      n <~ networkify s ;; ns <~ each l' ;; Ok (n :: ns)
                  end) sub ;;
      map_result Network.as_node
        (Network.__init__ [] (combine (removelast nodes) (tl nodes)) true
           None None)
  | Wrapper e _wrapper_model _labelloc =>
      n <~ networkify _wrapper_model ;;
      map_result Network.as_node
        (Network.__init__ [n] [] true (Some (type_name e)) (Some _labelloc))
  | _ => Ok (Network.NStr (str_of step))
  end.

(** The loop of [draw] over the steps: [(net, previous)] is its state. *)
Definition draw_step (step : Step) (st : Network.Network * Network.Node)
    : Result (Network.Network * Network.Node) :=
  current <~ networkify step ;;
  net <~ Network.link (fst st) (snd st) current ;;
  Ok (net, current).

Definition draw (fuel : nat) (self : Pipeline) : Result Network.Digraph :=
  net <~ Network.__init__ [Network.NStr "x"] [] true None None ;;
  st <~ for_fold draw_step (values (steps self)) (net, Network.NStr "x") ;;
  net <~ Network.link (fst st) (snd st) (Network.NStr "y") ;;
  Network.draw fuel net.

End Methods.

(** The methods of a step that is a pipeline are the methods above, run on
    its steps.  [depth] bounds how deep pipelines are entered; past it the
    call is a RecursionError. *)
Fixpoint nested_of {T : Types} (depth : nat) : Nested :=
  match depth with
  | O =>
      {| n_transform_one := fun _ _ => raise RecursionError;
         n_fit_one := fun _ _ _ _ => raise RecursionError;
         n_predict_one := fun _ _ => raise RecursionError;
         n_predict_proba_one := fun _ _ => raise RecursionError;
         n_score_one := fun _ _ => raise RecursionError;
         n_forecast := fun _ _ _ => raise RecursionError;
         n_debug_one := fun _ _ _ _ => raise RecursionError;
         n_transform_many := fun _ _ => raise RecursionError;
         n_fit_many := fun _ _ _ _ => raise RecursionError;
         n_predict_many := fun _ _ => raise RecursionError;
         n_predict_proba_many := fun _ _ => raise RecursionError |}
  | S depth' =>
      let inner := nested_of depth' in
      {| n_transform_one := fun sub => transform_one inner {| steps := sub |};
         n_fit_one := fun sub => fit_one inner {| steps := sub |};
         n_predict_one := fun sub => predict_one inner {| steps := sub |};
         n_predict_proba_one :=
           fun sub => predict_proba_one inner {| steps := sub |};
         n_score_one := fun sub => score_one inner {| steps := sub |};
         n_forecast := fun sub => forecast inner {| steps := sub |};
         n_debug_one := fun sub => debug_one inner {| steps := sub |};
         n_transform_many := fun sub => transform_many inner {| steps := sub |};
         n_fit_many := fun sub => fit_many inner {| steps := sub |};
         n_predict_many := fun sub => predict_many inner {| steps := sub |};
         n_predict_proba_many :=
           fun sub => predict_proba_many inner {| steps := sub |} |}
  end.

End Pipeline.

(** ** Concrete estimators, for running the definitions *)

Module Fixtures.

(** Every object keeps one integer in the heap, under its [oid]. *)
Definition store : Type := list (nat * Z).

Fixpoint peek (o : nat) (h : store) : Z :=
  match h with
  | [] => 0%Z
  | (o', v) :: h' => if Nat.eqb o' o then v else peek o h'
  end.

Definition poke (o : nat) (v : Z) (h : store) : store := (o, v) :: h.

Definition str_of_Z (z : Z) : string := NilZero.string_of_int (Z.to_int z).

(** Numbers are integers here; targets too, with 0 for [None]; keyword
    parameters are a list of names; keys are strings. *)
Definition test_types : Types := {|
  Heap := store;
  Float := Z;
  format_float := fun _ z => str_of_Z z;
  Target := Z;
  Params := list string;
  no_params := [];
  Key := string;
  key_leb := String.leb;
  key_str := fun k => k;
  repr_str := fun s => ("'" ++ s ++ "'")%string;
  iter_set := fun l => l;
  None_target := 0%Z;
  Estimator_is_supervised := true
|}.
#[local] Existing Instance test_types.

Definition num (z : Z) : Val := VFloat z.

Definition shift (d : Z) (x : Features) : Features :=
  match x with
  | FStr s => FStr s
  | FDict items =>
      FDict (map (fun kv =>
                    match snd kv with
                    | VFloat f => (fst kv, VFloat (f + d)%Z)
                    | v => (fst kv, v)
                    end) items)
  end.

(** An estimator without any method. *)
Definition bare (o : nat) (name : string) : Estimator := {|
  oid := o; type_name := name; str := name;
  isTransformer := false; isSupervisedTransformer := false;
  isClassifier := false; _is_supervised := false;
  m_transform_one := None; m_fit_one := None; m_predict_one := None;
  m_predict_proba_one := None; m_score_one := None; m_forecast := None;
  m_debug_one := None; m_transform_many := None; m_fit_many := None;
  m_predict_many := None; m_predict_proba_many := None
|}.

(** A transformer that adds its integer to every number; fitting adds the
    target to that integer, or one when no target is passed.  The batch
    methods treat the rows one after the other. *)
Definition adder_fit (o : nat) (y : option Z) : Method unit :=
  fun h => (Ok tt, poke o (peek o h + match y with Some v => v | None => 1 end)%Z h).

Definition adder_fit_rows (o : nat) (X : DataFrame) : Method unit :=
  fun h => (Ok tt, fold_left (fun h _ => poke o (peek o h + 1)%Z h) X h).

Definition adder (o : nat) (name : string) (supervised : bool) : Estimator := {|
  oid := o; type_name := name; str := name;
  isTransformer := true; isSupervisedTransformer := supervised;
  isClassifier := false; _is_supervised := supervised;
  m_transform_one := Some (fun x h => (Ok (shift (peek o h) x), h));
  m_fit_one := Some (fun _ y _ => adder_fit o y);
  m_predict_one := None; m_predict_proba_one := None; m_score_one := None;
  m_forecast := None; m_debug_one := None;
  m_transform_many := Some (fun X h => (Ok (map (shift (peek o h)) X), h));
  m_fit_many := Some (fun X _ _ => adder_fit_rows o X);
  m_predict_many := None; m_predict_proba_many := None
|}.

(** A model that counts its fits, predicts that count, forecasts a list
    of it, and may explain itself. *)
Definition model (o : nat) (name : string) (supervised with_debug : bool)
    : Estimator := {|
  oid := o; type_name := name; str := name;
  isTransformer := false; isSupervisedTransformer := false;
  isClassifier := false; _is_supervised := supervised;
  m_transform_one := None;
  m_fit_one := Some (fun _ _ _ h => (Ok tt, poke o (peek o h + 1)%Z h));
  m_predict_one := Some (fun _ h => (Ok (VFloat (peek o h)), h));
  m_predict_proba_one := None;
  m_score_one := Some (fun _ h => (Ok (VFloat (peek o h)), h));
  m_forecast :=
    Some (fun horizon _ h =>
            (Ok (repeat (VFloat (peek o h)) (Z.to_nat horizon)), h));
  m_debug_one := if with_debug then Some (fun _ h => (Ok "weights", h)) else None;
  m_transform_many := None;
  m_fit_many := Some (fun _ _ _ h => (Ok tt, poke o (peek o h + 1)%Z h));
  m_predict_many := Some (fun X h => (Ok (map (fun _ => VFloat (peek o h)) X), h));
  m_predict_proba_many := None
|}.

(** A union; its own transform returns the record as it is, which is
    enough to see what the pipeline calls. *)
Definition union_of (o : nat) (branches : list (string * Step)) : Step :=
  TransformerUnion
    {| oid := o; type_name := "TransformerUnion"; str := "TransformerUnion";
       isTransformer := true; isSupervisedTransformer := false;
       isClassifier := false; _is_supervised := false;
       m_transform_one := Some (fun x h => (Ok x, h));
       m_fit_one := Some (fun _ _ _ h => (Ok tt, h));
       m_predict_one := None; m_predict_proba_one := None;
       m_score_one := None; m_forecast := None; m_debug_one := None;
       m_transform_many := Some (fun X h => (Ok X, h));
       m_fit_many := Some (fun _ _ _ h => (Ok tt, h));
       m_predict_many := None; m_predict_proba_many := None |}
    branches.

Definition state (h : store) (tr : list Event) : State :=
  {| heap := h; trace := tr |}.

Definition start : State := state [] [].

Definition x1 : Features := FDict [("a", VFloat 1%Z); ("b", VFloat 2%Z)].

Definition pipe (l : list (string * Step)) : Pipeline.Pipeline :=
  {| Pipeline.steps := l |}.

End Fixtures.

(** ** Vocabulary of the statements *)

Section Vocabulary.
Context {T : Types}.
Variable new_FuncTransformer : PyFunction -> Estimator.

(** The candidates [name1 .. namen]. *)
Definition candidates (name : string) (first n : nat) : list string :=
  map (fun k => (name ++ str_of_nat k)%string) (seq first n).

(** The name under which [_add_step] looks for a free key. *)
Definition asked_name (estimator : option string * Pipeline.StepArg) : string :=
  match fst estimator with
  | Some n => n
  | None =>
      Pipeline.infer_name (Pipeline.wrap_function new_FuncTransformer (snd estimator))
  end.

(** The estimator [_add_step] stores. *)
Definition stored_step (estimator : option string * Pipeline.StepArg) : Step :=
  match Pipeline.wrap_function new_FuncTransformer (snd estimator) with
  | inr c => instantiate c
  | inl s => s
  end.

(** The key chosen for [asked]: [asked] itself when it is free, otherwise
    [asked] followed by the smallest positive counter that makes it free. *)
Definition chosen_key (asked key : string) (d : odict Step) : Prop :=
  (contains asked d = false /\ key = asked) \/
  (contains asked d = true /\
   exists c, 1 <= c /\ key = (asked ++ str_of_nat c)%string /\
             contains key d = false /\
             forall k, 1 <= k < c ->
                       contains (asked ++ str_of_nat k)%string d = true).

(** [isinstance(t, union.TransformerUnion)] *)
Definition is_union (t : Step) : bool :=
  match t with TransformerUnion _ _ => true | _ => false end.

(** The calls of a debug trace: [transform_one], [predict_one],
    [predict_proba_one], and [debug_one] of the final estimator. *)
Definition is_debug_call (ev : Event) : bool :=
  match ev with
  | transform_one_ev _ _ | predict_one_ev _ _ | predict_proba_one_ev _ _
  | debug_one_ev _ _ => true
  | _ => false
  end.

(** The same without [debug_one]. *)
Definition is_transform_or_predict (ev : Event) : bool :=
  match ev with
  | transform_one_ev _ _ | predict_one_ev _ _ | predict_proba_one_ev _ _ => true
  | _ => false
  end.

(** The batch methods of an estimator agree row-wise with its record
    methods: on a one-row batch, [transform_many] returns the one row
    [transform_one] returns and [fit_many] does what [fit_one] does, heap
    and exception included. *)
Definition rowwise (e : Estimator) : Prop :=
  (exists f g,
     m_transform_one e = Some f /\ m_transform_many e = Some g /\
     forall x h,
       g [x] h = (map_result (fun r => [r]) (fst (f x h)), snd (f x h))) /\
  (exists f g,
     m_fit_one e = Some f /\ m_fit_many e = Some g /\
     forall x h, g [x] None no_params h = f x None no_params h).

(** The same of a step and, for a union, of its branches. *)
Definition rowwise_step (t : Step) : Prop :=
  rowwise (est t) /\
  match t with
  | TransformerUnion _ transformers =>
      Forall (fun b => rowwise (est (snd b))) transformers
  | _ => True
  end.

(** Two computations that, started on one heap, end on one heap with
    results related by [f]. *)
Definition agree {A B} (f : A -> B) (m1 : M B) (m2 : M A) : Prop :=
  forall s1 s2, heap s1 = heap s2 ->
    fst (m1 s1) = map_result f (fst (m2 s2)) /\
    heap (snd (m1 s1)) = heap (snd (m2 s2)).

(** No step, and no branch of a union, is itself a pipeline. *)
Definition flat_step (t : Step) : bool :=
  match t with
  | SubPipeline _ _ => false
  | TransformerUnion _ transformers =>
      forallb (fun b => negb (is_pipeline (snd b))) transformers
  | _ => true
  end.

Definition flat (self : Pipeline.Pipeline) : bool :=
  forallb flat_step (values (Pipeline.steps self)).

(** What the events of a debug trace satisfy. *)
Definition debug_event (ev : Event) : Prop :=
  is_debug_call ev = true /\ is_fit ev = false.

(** The header of branch [j] of the union at step [i]. *)
Definition branch_title (i j : nat) (name : string) (sub_t : Step) : string :=
  (str_of_nat (i + 1) ++ "." ++ str_of_nat j ++ " " ++
   match sub_t with SubPipeline _ _ => str_of sub_t | _ => name end)%string.

(** A step that is no union, no pipeline and no wrapper: [networkify]
    turns it into its [str]. *)
Definition is_leaf (t : Step) : bool :=
  match t with Leaf _ | FuncTransformer _ _ => true | _ => false end.

(** The node and edge statements of a graph, in order. *)
Definition nodes_of (g : Network.Digraph) : list string :=
  flat_map (fun st => match st with Network.node_stmt a => [a] | _ => [] end)
           (Network.body g).

Definition edges_of (g : Network.Digraph) : list (string * string) :=
  flat_map (fun st => match st with Network.edge_stmt a b => [(a, b)] | _ => [] end)
           (Network.body g).

(** The network [draw] builds for three leaves named [s1], [s2], [s3]. *)
Definition chain3 (s1 s2 s3 : string) : Network.Network :=
  {| Network.data := map Network.NStr ["x"; s1; s2; s3; "y"];
     Network.edges := [(0, 1); (1, 2); (2, 3); (3, 4)];
     Network.directed := true;
     Network.name := None;
     Network.labelloc := None |}.

(** The branches of a union; another step has none. *)
Definition branches_of (t : Step) : list Step :=
  match t with
  | TransformerUnion _ transformers => values transformers
  | _ => []
  end.

(** What [fit_one] may log on the steps [ts] followed by [final]: a call
    that is no fit, the fit of [final] with the keyword parameters, or the
    fit of a step or branch that is a supervised transformer, with the
    target and without keyword parameters. *)
Definition fit_one_event (ts : list Step) (final : Step) (y : Target)
    (params : Params) (ev : Event) : Prop :=
  is_fit ev = false \/
  (exists x',
     ev = fit_one_ev (oid (est final)) x'
            (if _is_supervised (est final) then Some y else None) params) \/
  (exists t x0,
     In t (ts ++ flat_map branches_of ts) /\
     isSupervisedTransformer (est t) = true /\
     ev = fit_one_ev (oid (est t)) x0 (Some y) no_params).

(** What [fit_many] may log: a call that is no fit, the fit of [final]
    with the targets and the keyword parameters, or a [fit_many] without
    targets and without keyword parameters. *)
Definition fit_many_event (final : Step) (y : Series) (params : Params)
    (ev : Event) : Prop :=
  is_fit ev = false \/
  (exists X', ev = fit_many_ev (oid (est final)) X' (Some y) params) \/
  (exists o X0, ev = fit_many_ev o X0 None no_params).

(** The batch prediction of an estimator agrees row-wise with its record
    prediction. *)
Definition rowwise_predict (e : Estimator) : Prop :=
  exists f g,
    m_predict_one e = Some f /\ m_predict_many e = Some g /\
    forall x h,
      g [x] h = (map_result (fun r => [r]) (fst (f x h)), snd (f x h)).

(** The edges of a chain of [n + 1] nodes: each position to the next. *)
Definition chain_edges (n : nat) : list (nat * nat) :=
  map (fun k => (k, S k)) (seq 0 n).

(** The directed network whose nodes are the strings [labels], each
    linked to the next. *)
Definition chain_of (labels : list string) : Network.Network :=
  {| Network.data := map Network.NStr labels;
     Network.edges := chain_edges (List.length labels - 1);
     Network.directed := true;
     Network.name := None;
     Network.labelloc := None |}.

(** The network [draw] builds for a union of two leaves labelled [s1] and
    [s2] followed by a leaf labelled [m]. *)
Definition fan2 (s1 s2 m : string) : Network.Network :=
  {| Network.data :=
       [Network.NStr "x";
        Network.NNet [Network.NStr s1; Network.NStr s2] [] false None None;
        Network.NStr m; Network.NStr "y"];
     Network.edges := [(0, 1); (1, 2); (2, 3)];
     Network.directed := true;
     Network.name := None;
     Network.labelloc := None |}.

(** The edge statements that drawing one link of [fan2] adds. *)
Definition fan2_stmts (s1 s2 m : string) (ab : nat * nat)
    : list Network.Stmt :=
  match ab with
  | (0, 1) => [Network.edge_stmt "x" s1; Network.edge_stmt "x" s2]
  | (1, 2) => [Network.edge_stmt s1 m; Network.edge_stmt s2 m]
  | (2, 3) => [Network.edge_stmt m "y"]
  | _ => []
  end.

(** The network [draw] builds for a single step that is a pipeline of one
    step: that step leaves no node. *)
Definition lone_subpipeline : Network.Network :=
  {| Network.data :=
       [Network.NStr "x"; Network.NNet [] [] true None None; Network.NStr "y"];
     Network.edges := [(0, 1); (1, 2)];
     Network.directed := true;
     Network.name := None;
     Network.labelloc := None |}.

(** The network [net] stands for the labels [Lp] met so far: its nodes
    are the labels of [Lp] without repeats, and its edges join a label to
    the one that follows it in [Lp], all such pairs and no other. *)
Definition stands_for (net : Network.Network) (Lp : list string) : Prop :=
  exists D,
    Network.data net = map Network.NStr D /\
    NoDup D /\
    (forall a, In a D <-> In a Lp) /\
    (forall i j, In (i, j) (Network.edges net) ->
       exists a b, nth_error D i = Some a /\ nth_error D j = Some b /\
                   In (a, b) (combine Lp (tl Lp))) /\
    (forall a b, In (a, b) (combine Lp (tl Lp)) ->
       exists i j, In (i, j) (Network.edges net) /\
                   nth_error D i = Some a /\ nth_error D j = Some b).

(** Every edge of a network joins two positions of its list of nodes. *)
Definition edges_in_range (n : Network.Network) : Prop :=
  Forall (fun ab => fst ab < List.length (Network.data n) /\
                    snd ab < List.length (Network.data n))
         (Network.edges n).

(** No node of the list equals one that stands before it. *)
Definition nodes_apart (l : list Network.Node) : Prop :=
  ForallOrdPairs (fun a b => Network.node_eqb a b = false) l.

(** The text [s] begins with [p]. *)
Definition starts_with (p s : string) : Prop :=
  exists rest, s = (p ++ rest)%string.

(** The title of the first section of a debug report, as it is printed. *)
Definition input_header : string :=
  ("0. Input" ++ newline ++ "--------")%string.

(** A computation whose text, when it returns, begins with [p]. *)
Definition extends {A} (p : string) (text : A -> string) (m : M A) : Prop :=
  forall s a s', m s = (Ok a, s') -> starts_with p (text a).

(** [isinstance(estimator, type)]: the step is given as a class, which
    [_add_step] has to instantiate. *)
Definition is_class (a : Pipeline.StepArg) : bool :=
  match a with Pipeline.AType _ => true | _ => false end.

(** *** The text of a debug report, section by section *)








(** *** Records on their way to [forecast], as C7 is amended *)

(** One stage on one record: a stage that is no supervised transformer is
    first fitted on the record, without a target, and then the stage
    transforms the record.  The result is the new record, the heap, and
    the calls made in their order; [None] when a method is missing or
    raises. *)
Definition stage_on_record (t : Step) (x : Features) (h : Heap)
    : option (Features * Heap * list Event) :=
  match m_transform_one (est t) with
  | None => None
  | Some transform =>
      if isSupervisedTransformer (est t) then
        match transform x h with
        | (Ok x', h') => Some (x', h', [transform_one_ev (oid (est t)) x])
        | (Raise _, _) => None
        end
      else
        match m_fit_one (est t) with
        | None => None
        | Some fit =>
            match fit x None no_params h with
            | (Ok _, h1) =>
                match transform x h1 with
                | (Ok x', h2) =>
                    Some (x', h2,
                          [fit_one_ev (oid (est t)) x None no_params;
                           transform_one_ev (oid (est t)) x])
                | (Raise _, _) => None
                end
            | (Raise _, _) => None
            end
        end
  end.

(** One record through the stages, in order. *)
Fixpoint stages_on_record (ts : list Step) (x : Features) (h : Heap)
    : option (Features * Heap * list Event) :=
  match ts with
  | [] => Some (x, h, [])
  | t :: ts' =>
      match stage_on_record t x h with
      | None => None
      | Some (x1, h1, evs1) =>
          match stages_on_record ts' x1 h1 with
          | None => None
          | Some (x', h', evs) => Some (x', h', evs1 ++ evs)
          end
      end
  end.

(** The records one after the other, each through all the stages. *)
Fixpoint stages_on_records (ts : list Step) (xs : list Features) (h : Heap)
    : option (list Features * Heap * list Event) :=
  match xs with
  | [] => Some ([], h, [])
  | x :: xs' =>
      match stages_on_record ts x h with
      | None => None
      | Some (x', h1, evs1) =>
          match stages_on_records ts xs' h1 with
          | None => None
          | Some (outs, h', evs) => Some (x' :: outs, h', evs1 ++ evs)
          end
      end
  end.

(** A stage that is neither a union nor a pipeline. *)
Definition plain (t : Step) : bool := negb (is_union t) && negb (is_pipeline t).

(** No condition on an event. *)
Definition any_event (ev : Event) : Prop := True.

(** The step [_set_params] stores under [name] in place of [step]. *)
Definition reset_step (step_set_params : Step -> Params -> Step)
    (new_params : odict Pipeline.ParamValue) (name : string) (step : Step)
    : Step :=
  match getitem name new_params with
  | Some (Pipeline.PEstimator e) => e
  | Some (Pipeline.PParams p) => step_set_params step p
  | None => step_set_params step no_params
  end.

(** A computation whose new events all satisfy [P]. *)
Definition emits {A} (P : Event -> Prop) (m : M A) : Prop :=
  forall s, exists evs, trace (snd (m s)) = trace s ++ evs /\ Forall P evs.

End Vocabulary.

Unset Implicit Arguments.

(** ** Facts about the Python helpers *)

Section PyFacts.

Lemma str_of_nat_inj (n m : nat) : str_of_nat n = str_of_nat m -> n = m.
Proof.
  unfold str_of_nat. intros E.
  apply (f_equal NilEmpty.uint_of_string) in E.
  rewrite !NilEmpty.usu in E. injection E as E.
  apply (f_equal Nat.of_uint) in E.
  now rewrite !Unsigned.of_to in E.
Qed.

Lemma append_inv_head (p s s' : string) :
  (p ++ s)%string = (p ++ s')%string -> s = s'.
Proof.
  induction p as [|c p IH]; simpl; intros E; [exact E|].
  injection E as E. auto.
Qed.




Variable V : Type.
Implicit Types (d : odict V) (k : string) (v : V).

Lemma contains_In k d : contains k d = true <-> In k (keys d).
Proof.
  induction d as [|[k' v'] d IH]; simpl.
  - split; [discriminate|tauto].
  - rewrite orb_true_iff, String.eqb_eq, IH. tauto.
Qed.

Lemma contains_notin k d : contains k d = false <-> ~ In k (keys d).
Proof.
  rewrite <- contains_In. destruct (contains k d); split; congruence.
Qed.

Lemma setitem_fresh k v d :
  contains k d = false -> setitem k v d = d ++ [(k, v)].
Proof.
  induction d as [|[k' v'] d IH]; simpl; [reflexivity|].
  intros H. apply orb_false_elim in H as [H1 H2].
  rewrite H1, IH by assumption. reflexivity.
Qed.

Lemma getitem_last k v d :
  contains k d = false -> getitem k (d ++ [(k, v)]) = Some v.
Proof.
  induction d as [|[k' v'] d IH]; simpl.
  - now rewrite String.eqb_refl.
  - intros H. apply orb_false_elim in H as [H1 H2]. now rewrite H1, IH.
Qed.

Lemma delitem_last k v d :
  contains k d = false -> delitem k (d ++ [(k, v)]) = d.
Proof.
  induction d as [|[k' v'] d IH]; simpl.
  - now rewrite String.eqb_refl.
  - intros H. apply orb_false_elim in H as [H1 H2]. now rewrite H1, IH.
Qed.

Lemma move_to_front_last k v d :
  contains k d = false -> move_to_front k (d ++ [(k, v)]) = Ok ((k, v) :: d).
Proof.
  intros H. unfold move_to_front. now rewrite getitem_last, delitem_last.
Qed.

Lemma keys_app d d' : keys (d ++ d') = keys d ++ keys d'.
Proof. apply map_app. Qed.

Lemma NoDup_keys_snoc k v d :
  NoDup (keys d) -> contains k d = false -> NoDup (keys (d ++ [(k, v)])).
Proof.
  intros N H. rewrite keys_app. simpl.
  apply contains_notin in H.
  apply NoDup_app; [assumption|repeat constructor; simpl; tauto|].
  intros a Ha [<-|[]]. contradiction.
Qed.

End PyFacts.

(** ** The registry: [_add_step] *)

Section Registry.
Context {T : Types}.
Variable new_FuncTransformer : PyFunction -> Estimator.
Implicit Types (d : odict Step) (name : string).

Lemma candidates_NoDup name first n : NoDup (candidates name first n).
Proof.
  unfold candidates. apply Finite.Injective_map_NoDup.
  - intros a b E. apply append_inv_head in E. now apply str_of_nat_inj.
  - apply seq_NoDup.
Qed.

(** More candidates than keys: one of them is no key. *)
Lemma some_candidate_free name d :
  exists k, 1 <= k < 1 + S (List.length d) /\
            contains (name ++ str_of_nat k)%string d = false.
Proof.
  destruct (existsb (fun k => negb (contains (name ++ str_of_nat k)%string d))
                    (seq 1 (S (List.length d)))) eqn:A.
  - apply existsb_exists in A as (k & Hk & Fk).
    apply in_seq in Hk. apply negb_true_iff in Fk. eauto.
  - exfalso.
    assert (incl (candidates name 1 (S (List.length d))) (keys d)) as I.
    { intros s Hs. unfold candidates in Hs.
      apply in_map_iff in Hs as (k & <- & Hk). apply contains_In.
      destruct (contains (name ++ str_of_nat k)%string d) eqn:C; [reflexivity|].
      assert (existsb (fun k => negb (contains (name ++ str_of_nat k)%string d))
                      (seq 1 (S (List.length d))) = true) as B
        by (apply existsb_exists; exists k; now rewrite C).
      congruence. }
    apply NoDup_incl_length in I; [|apply candidates_NoDup].
    unfold candidates, keys in I. rewrite !length_map, length_seq in I. lia.
Qed.

(** The loop stops at the smallest free counter, given one within reach. *)
Lemma while_counter_least name d fuel : forall counter,
  (exists k, counter <= k < counter + fuel /\
             contains (name ++ str_of_nat k)%string d = false) ->
  exists c, Pipeline.while_counter fuel name counter d = Some c /\
            counter <= c /\
            contains (name ++ str_of_nat c)%string d = false /\
            forall k, counter <= k < c ->
                      contains (name ++ str_of_nat k)%string d = true.
Proof.
  induction fuel as [|fuel IH]; intros counter (k & Hk & Fk); [lia|].
  simpl. destruct (contains (name ++ str_of_nat counter)%string d) eqn:C.
  - destruct (IH (S counter)) as (c & E & L & F & B).
    { exists k. split; [|assumption].
      assert (k <> counter) by congruence. lia. }
    exists c. repeat split; [assumption|lia|assumption|].
    intros j Hj. destruct (Nat.eq_dec j counter) as [->|]; [assumption|].
    apply B. lia.
  - exists counter. repeat split; [lia|assumption|]. intros j Hj. lia.
Qed.

(** [dedup_name] always returns, and its name is free. *)
Lemma dedup_name_free name d :
  exists name', Pipeline.dedup_name name d = Some name' /\
                contains name' d = false.
Proof.
  unfold Pipeline.dedup_name. destruct (contains name d) eqn:C; [|eauto].
  pose proof (some_candidate_free name d) as Hf.
  apply while_counter_least in Hf. destruct Hf as (c & -> & _ & F & _).
  eauto.
Qed.

Lemma dedup_name_chosen name d :
  exists key, Pipeline.dedup_name name d = Some key /\ chosen_key name key d.
Proof.
  unfold Pipeline.dedup_name, chosen_key.
  destruct (contains name d) eqn:C; [|eauto].
  pose proof (some_candidate_free name d) as Hf.
  apply while_counter_least in Hf. destruct Hf as (c & -> & L & F & B).
  eexists. split; [reflexivity|]. right. split; [reflexivity|].
  exists c. auto.
Qed.

Lemma chosen_key_free asked key d : chosen_key asked key d -> contains key d = false.
Proof. intros [[H ->]|(_ & c & _ & _ & H & _)]; assumption. Qed.

Lemma add_step_spec (self : Pipeline.Pipeline) estimator (at_start : bool) :
  exists key,
    chosen_key (asked_name new_FuncTransformer estimator) key (Pipeline.steps self) /\
    Pipeline._add_step new_FuncTransformer self estimator at_start =
      Some {| Pipeline.steps :=
                if at_start
                then (key, stored_step new_FuncTransformer estimator) :: Pipeline.steps self
                else Pipeline.steps self ++ [(key, stored_step new_FuncTransformer estimator)] |}.
Proof.
  destruct estimator as [given arg].
  destruct (dedup_name_chosen (asked_name new_FuncTransformer (given, arg)) (Pipeline.steps self))
    as (key & E & C).
  exists key. split; [assumption|].
  unfold Pipeline._add_step. unfold asked_name in E. simpl in E. rewrite E.
  pose proof (chosen_key_free _ _ _ C) as F.
  unfold stored_step. simpl.
  rewrite setitem_fresh by exact F.
  destruct at_start; [|reflexivity].
  now rewrite move_to_front_last by exact F.
Qed.




End Registry.


(** ** The execution engine *)

Section Engine.
Context {T : Types}.
Variable nested : Pipeline.Nested.
Local Open Scope py_scope.

Lemma call_Some A attr ev (f : Method A) s :
  call attr ev (Some f) s =
  (fst (f (heap s)),
   {| heap := snd (f (heap s)); trace := trace s ++ [ev] |}).
Proof. unfold call. now destruct (f (heap s)). Qed.

Lemma call_None A attr ev s :
  call attr ev (@None (Method A)) s = (Raise (AttributeError attr), s).
Proof. reflexivity. Qed.

(** On a step that is no pipeline a call goes to the estimator. *)
Lemma external t :
  is_pipeline t = false ->
  (forall x, Pipeline.call_transform_one nested t x =
     call "transform_one" (transform_one_ev (oid (est t)) x)
          (option_map (fun f => f x) (m_transform_one (est t)))) /\
  (forall x y params, Pipeline.call_fit_one nested t x y params =
     call "fit_one" (fit_one_ev (oid (est t)) x y params)
          (option_map (fun f => f x y params) (m_fit_one (est t)))) /\
  (forall X, Pipeline.call_transform_many nested t X =
     call "transform_many" (transform_many_ev (oid (est t)) X)
          (option_map (fun f => f X) (m_transform_many (est t)))) /\
  (forall X y params, Pipeline.call_fit_many nested t X y params =
     call "fit_many" (fit_many_ev (oid (est t)) X y params)
          (option_map (fun f => f X y params) (m_fit_many (est t)))) /\
  (forall horizon xs, Pipeline.call_forecast nested t horizon xs =
     call "forecast" (forecast_ev (oid (est t)) horizon xs)
          (option_map (fun f => f horizon xs) (m_forecast (est t)))).
Proof. destruct t; (discriminate || (intros _; repeat split)). Qed.

Lemma transform_one_external t x :
  is_pipeline t = false ->
  Pipeline.call_transform_one nested t x =
  call "transform_one" (transform_one_ev (oid (est t)) x)
       (option_map (fun f => f x) (m_transform_one (est t))).
Proof. intros H. apply (external t H). Qed.

Lemma fit_one_external t x y params :
  is_pipeline t = false ->
  Pipeline.call_fit_one nested t x y params =
  call "fit_one" (fit_one_ev (oid (est t)) x y params)
       (option_map (fun f => f x y params) (m_fit_one (est t))).
Proof. intros H. apply (external t H). Qed.

Lemma transform_many_external t X :
  is_pipeline t = false ->
  Pipeline.call_transform_many nested t X =
  call "transform_many" (transform_many_ev (oid (est t)) X)
       (option_map (fun f => f X) (m_transform_many (est t))).
Proof. intros H. apply (external t H). Qed.

Lemma fit_many_external t X y params :
  is_pipeline t = false ->
  Pipeline.call_fit_many nested t X y params =
  call "fit_many" (fit_many_ev (oid (est t)) X y params)
       (option_map (fun f => f X y params) (m_fit_many (est t))).
Proof. intros H. apply (external t H). Qed.

Lemma forecast_external t horizon xs :
  is_pipeline t = false ->
  Pipeline.call_forecast nested t horizon xs =
  call "forecast" (forecast_ev (oid (est t)) horizon xs)
       (option_map (fun f => f horizon xs) (m_forecast (est t))).
Proof. intros H. apply (external t H). Qed.

(** An estimator record with a method is not that of a pipeline. *)
Lemma has_transform_one_external t f :
  m_transform_one (est t) = Some f -> is_pipeline t = false.
Proof. destruct t; simpl; congruence. Qed.

Lemma has_fit_one_external t f :
  m_fit_one (est t) = Some f -> is_pipeline t = false.
Proof. destruct t; simpl; congruence. Qed.

Lemma has_forecast_external t f :
  m_forecast (est t) = Some f -> is_pipeline t = false.
Proof. destruct t; simpl; congruence. Qed.

(** *** Events of a computation *)

Lemma emits_ret A P (a : A) : emits P (ret a).
Proof. intros s. exists []. simpl. now rewrite app_nil_r. Qed.

Lemma emits_raise A P e : emits P (@raise T A e).
Proof. intros s. exists []. simpl. now rewrite app_nil_r. Qed.

Lemma emits_bind A B P (m : M A) (k : A -> M B) :
  emits P m -> (forall a, emits P (k a)) -> emits P (bind m k).
Proof.
  intros Hm Hk s. unfold bind.
  destruct (Hm s) as (evs & E & F). destruct (m s) as [[a|e] s']; simpl in E.
  - destruct (Hk a s') as (evs' & E' & F'). exists (evs ++ evs').
    rewrite E', E, app_assoc. split; [reflexivity|]. now apply Forall_app.
  - exists evs. auto.
Qed.

Lemma emits_call A P attr ev (m : option (Method A)) :
  P ev -> emits P (call attr ev m).
Proof.
  intros H s. destruct m as [f|].
  - rewrite call_Some. exists [ev]. simpl. auto.
  - exists []. simpl. now rewrite app_nil_r.
Qed.

Lemma emits_for_each A P (body : A -> M unit) (l : list A) :
  (forall a, emits P (body a)) -> emits P (Pipeline.for_each l body).
Proof.
  intros H. induction l as [|a l IH]; simpl.
  - apply emits_ret.
  - apply emits_bind; auto.
Qed.

Lemma emits_list_comp A B P (f : A -> M B) (l : list A) :
  (forall a, emits P (f a)) -> emits P (Pipeline.list_comp f l).
Proof.
  intros H. induction l as [|a l IH]; simpl.
  - apply emits_ret.
  - apply emits_bind; [apply H|]. intros b.
    apply emits_bind; [apply IH|]. intros bs. apply emits_ret.
Qed.

(** *** Reading the steps *)

Lemma islice_and_next_snoc (self : Pipeline.Pipeline) init name final :
  Pipeline.steps self = init ++ [(name, final)] ->
  Pipeline.islice_and_next self = Ok (values init, final).
Proof.
  intros E. unfold Pipeline.islice_and_next, values. rewrite E, map_app.
  simpl. rewrite length_app. simpl. rewrite Nat.add_1_r.
  rewrite nth_error_app2, Nat.sub_diag by lia. simpl.
  rewrite firstn_app, Nat.sub_diag, firstn_all. simpl. now rewrite app_nil_r.
Qed.

Lemma last_step_snoc (self : Pipeline.Pipeline) init name final :
  Pipeline.steps self = init ++ [(name, final)] ->
  Pipeline.last_step self = ret final.
Proof.
  intros E. unfold Pipeline.last_step, values. rewrite E, map_app, rev_app_distr.
  reflexivity.
Qed.

Lemma islice_and_next_Forall (P : Step -> Prop) (self : Pipeline.Pipeline) ts final :
  Pipeline.islice_and_next self = Ok (ts, final) ->
  Forall P (values (Pipeline.steps self)) ->
  Forall P ts /\ P final.
Proof.
  unfold Pipeline.islice_and_next. intros E F.
  destruct (List.length (values (Pipeline.steps self))) as [|n]; [discriminate|].
  destruct (nth_error (values (Pipeline.steps self)) n) as [t|] eqn:N;
    [|discriminate].
  injection E as <- <-. split.
  - rewrite <- (firstn_skipn n (values (Pipeline.steps self))) in F.
    now apply Forall_app in F.
  - rewrite Forall_forall in F. apply F. eapply nth_error_In, N.
Qed.

(** *** [fit_one] *)

Lemma fit_one_loop_plain t ts x y :
  is_union t = false ->
  Pipeline.fit_one_loop nested (t :: ts) x y =
  (x' <- Pipeline.call_transform_one nested t x ;;
   (if isSupervisedTransformer (est t)
    then Pipeline.call_fit_one nested t x (Some y) no_params
    else ret tt) ;;;
   Pipeline.fit_one_loop nested ts x' y).
Proof. destruct t; (discriminate || reflexivity). Qed.

(** C1. In the pipeline [A | B] with [A] a supervised transformer, [fit_one]
    first calls [A.transform_one(x)] on the heap as the call finds it, then
    [A.fit_one(x, y)] with the record as it came in, and last the fit of
    [B] with the value the first call returned: that value is fixed before
    the target reaches [A]. *)
Theorem fit_one_forwards_prior_transform
    (nameA nameB : string) (A B : Step) (x : Features) (y : Target)
    (params : Params) (s : State)
    (trA : Features -> Method Features)
    (fitA fitB : Features -> option Target -> Params -> Method unit)
    (x' : Features) (h1 h2 : Heap) :
  is_union A = false ->
  isSupervisedTransformer (est A) = true ->
  m_transform_one (est A) = Some trA ->
  m_fit_one (est A) = Some fitA ->
  m_fit_one (est B) = Some fitB ->
  trA x (heap s) = (Ok x', h1) ->
  fitA x (Some y) no_params h1 = (Ok tt, h2) ->
  let yB := if _is_supervised (est B) then Some y else None in
  Pipeline.fit_one nested {| Pipeline.steps := [(nameA, A); (nameB, B)] |} x y params s =
  (fst (fitB x' yB params h2),
   {| heap := snd (fitB x' yB params h2);
      trace := trace s ++
               [transform_one_ev (oid (est A)) x;
                fit_one_ev (oid (est A)) x (Some y) no_params;
                fit_one_ev (oid (est B)) x' yB params] |}).
Proof.
  intros U Sup TrA FitA FitB R1 R2 yB.
  unfold Pipeline.fit_one. cbn [Pipeline.islice_and_next Pipeline.steps values
    map snd List.length nth_error firstn].
  rewrite (fit_one_loop_plain _ _ _ _ U), Sup.
  pose proof (has_transform_one_external _ _ TrA) as EA.
  pose proof (has_fit_one_external _ _ FitB) as EB.
  cbn [Pipeline.fit_one_loop]. unfold bind, ret.
  rewrite (transform_one_external A x EA), TrA. cbn [option_map].
  rewrite call_Some, R1. cbn [fst snd heap trace].
  rewrite (fit_one_external A x (Some y) no_params EA), FitA. cbn [option_map].
  rewrite call_Some. cbn [fst snd heap trace]. rewrite R2. cbn [fst snd].
  subst yB. destruct (_is_supervised (est B));
    rewrite (fit_one_external B _ _ _ EB), FitB; cbn [option_map];
    rewrite call_Some; cbn [fst snd heap trace];
    rewrite <- !app_assoc; reflexivity.
Qed.

(** *** Record path and batch path *)

Lemma agree_ret A B (f : A -> B) (a : A) : agree f (ret (f a)) (ret a).
Proof. intros s1 s2 H. simpl. auto. Qed.

Lemma agree_raise A B (f : A -> B) e : agree f (raise e) (raise e).
Proof. intros s1 s2 H. simpl. auto. Qed.

Lemma agree_bind A B A' B' (f : A -> B) (g : A' -> B')
    (m1 : M B) (m2 : M A) (k1 : B -> M B') (k2 : A -> M A') :
  agree f m1 m2 -> (forall a, agree g (k1 (f a)) (k2 a)) ->
  agree g (bind m1 k1) (bind m2 k2).
Proof.
  intros Hm Hk s1 s2 H. unfold bind.
  destruct (Hm s1 s2 H) as [R E].
  destruct (m1 s1) as [r1 s1'], (m2 s2) as [r2 s2']. simpl in R, E.
  destruct r2 as [a|e]; simpl in R; subst r1.
  - apply Hk, E.
  - simpl. auto.
Qed.

Lemma agree_transform t :
  rowwise (est t) ->
  forall x, agree (fun r => [r]) (Pipeline.call_transform_many nested t [x])
                  (Pipeline.call_transform_one nested t x).
Proof.
  intros [(f & g & Hf & Hg & E) _] x s1 s2 H.
  rewrite transform_many_external, transform_one_external
    by exact (has_transform_one_external _ _ Hf).
  rewrite Hf, Hg. simpl option_map. rewrite !call_Some. simpl.
  rewrite H, E. auto.
Qed.

Lemma agree_fit t :
  rowwise (est t) ->
  forall x, agree (fun u : unit => u)
                  (Pipeline.call_fit_many nested t [x] None no_params)
                  (Pipeline.call_fit_one nested t x None no_params).
Proof.
  intros [_ (f & g & Hf & Hg & E)] x s1 s2 H.
  rewrite fit_many_external, fit_one_external
    by exact (has_fit_one_external _ _ Hf).
  rewrite Hf, Hg. simpl option_map. rewrite !call_Some. simpl.
  rewrite H, E. destruct (fst (f x None no_params (heap s2))); auto.
Qed.

Lemma agree_for_each A (l : list A) (body1 body2 : A -> M unit) :
  Forall (fun a => agree (fun u : unit => u) (body1 a) (body2 a)) l ->
  agree (fun u : unit => u) (Pipeline.for_each l body1) (Pipeline.for_each l body2).
Proof.
  induction 1 as [|a l Ha Hl IH]; simpl.
  - apply (agree_ret _ _ (fun u : unit => u)).
  - apply agree_bind with (f := fun u : unit => u); [exact Ha|]. intros _. exact IH.
Qed.

Lemma agree_transform_loop ts :
  Forall rowwise_step ts ->
  forall x, agree (fun r => [r]) (Pipeline._transform_many_loop nested ts [x])
                  (Pipeline._transform_one_loop nested ts x).
Proof.
  induction 1 as [|t ts [Ht Hb] Hts IH]; intros x.
  - apply (agree_ret _ _ (fun r : Features => [r])).
  - assert (agree (fun r => [r])
              (X <- Pipeline.call_transform_many nested t [x] ;;
               Pipeline._transform_many_loop nested ts X)
              (x' <- Pipeline.call_transform_one nested t x ;;
               Pipeline._transform_one_loop nested ts x')) as Tail.
    { apply agree_bind with (f := fun r : Features => [r]);
        [now apply agree_transform|]. intros a. apply IH. }
    assert (agree (fun u : unit => u)
              (if negb (isSupervisedTransformer (est t))
               then Pipeline.call_fit_many nested t [x] None no_params else ret tt)
              (if negb (isSupervisedTransformer (est t))
               then Pipeline.call_fit_one nested t x None no_params else ret tt)) as Own.
    { destruct (negb _); [now apply agree_fit|].
      apply (agree_ret _ _ (fun u : unit => u)). }
    destruct t; simpl;
      try (apply agree_bind with (f := fun u : unit => u);
           [exact Own|intros _; exact Tail]).
    apply agree_bind with (f := fun u : unit => u); [|intros _; exact Tail].
    apply agree_for_each. unfold values. apply Forall_map.
    simpl in Hb. revert Hb. apply Forall_impl. intros b Rb.
    destruct (negb _); [now apply agree_fit|].
    apply (agree_ret _ _ (fun u : unit => u)).
Qed.


(** *** What the loops do on a union, and [fit_many] on its final step *)

(** The test of [_transform_one] is on the union [t], never on [sub_t]:
    when the union is no supervised transformer, every branch is fitted. *)
Lemma _transform_one_loop_union e transformers ts x :
  isSupervisedTransformer e = false ->
  Pipeline._transform_one_loop nested (TransformerUnion e transformers :: ts) x =
  (Pipeline.for_each (values transformers)
     (fun sub_t => Pipeline.call_fit_one nested sub_t x None no_params) ;;;
   x' <- Pipeline.call_transform_one nested (TransformerUnion e transformers) x ;;
   Pipeline._transform_one_loop nested ts x').
Proof. intros H. simpl. now rewrite H. Qed.

(** Both branches of the test on [final._is_supervised] pass [y]. *)
Lemma fit_many_final_gets_y (self : Pipeline.Pipeline) X y params ts final :
  Pipeline.islice_and_next self = Ok (ts, final) ->
  Pipeline.fit_many nested self X y params =
  (X' <- Pipeline.fit_many_loop nested ts X ;;
   Pipeline.call_fit_many nested final X' (Some y) params).
Proof.
  intros E. unfold Pipeline.fit_many. rewrite E.
  now destruct (_is_supervised (est final)).
Qed.

(** *** [debug_one] on the branches of a union *)

Lemma debug_union_loop_app show_types n_decimals i pre post x :
  forall j buffer s,
    Pipeline.debug_union_loop nested show_types n_decimals i j (pre ++ post) x buffer s =
    (buffer' <- Pipeline.debug_union_loop nested show_types n_decimals i j pre x buffer ;;
     Pipeline.debug_union_loop nested show_types n_decimals i (j + List.length pre)
       post x buffer') s.
Proof.
  induction pre as [|[name sub_t] pre IH]; intros j buffer s.
  - cbn [app List.length Pipeline.debug_union_loop]. unfold bind, ret.
    now rewrite Nat.add_0_r.
  - cbn [app List.length Pipeline.debug_union_loop]. unfold bind at 1 2 3.
    destruct (Pipeline.call_transform_one nested sub_t x s) as [[out|e] s'];
      [|reflexivity].
    rewrite IH. now rewrite (Nat.add_succ_r j (List.length pre)).
Qed.

Lemma call_transform_one_trace t x s out s' :
  is_pipeline t = false ->
  Pipeline.call_transform_one nested t x s = (Ok out, s') ->
  trace s' = trace s ++ [transform_one_ev (oid (est t)) x].
Proof.
  intros E C. rewrite (transform_one_external t x E) in C. unfold call in C.
  destruct (option_map _ _) as [f|]; [|discriminate].
  destruct (f (heap s)) as [r h]. now injection C as _ <-.
Qed.

Lemma debug_union_loop_trace show_types n_decimals i branches x :
  forallb (fun b => negb (is_pipeline (snd b))) branches = true ->
  forall j buffer s buffer' s',
    Pipeline.debug_union_loop nested show_types n_decimals i j branches x buffer s
      = (Ok buffer', s') ->
    trace s' =
    trace s ++ map (fun b => transform_one_ev (oid (est (snd b))) x) branches.
Proof.
  induction branches as [|[name sub_t] branches IH];
    intros F j buffer s buffer' s' H; cbn [Pipeline.debug_union_loop] in H.
  - injection H as _ <-. simpl. now rewrite app_nil_r.
  - cbn [forallb snd] in F. apply andb_prop in F as [F1 F2].
    apply negb_true_iff in F1. unfold bind in H.
    destruct (Pipeline.call_transform_one nested sub_t x s) as [[out|e] s1] eqn:C;
      [|discriminate].
    apply (IH F2) in H. rewrite H. cbn [map snd].
    rewrite (call_transform_one_trace _ _ _ _ _ F1 C).
    now rewrite <- app_assoc.
Qed.

(** At a union, the loop of [debug_one] calls [transform_one] of every
    branch on the record [x] that reached the union, the same for all of
    them; what it prints under the header of a branch is the [print_dict]
    of what that call returned.  The record only becomes the output of the
    union after the last branch.  (The list of events is given for
    branches that are no pipelines: a pipeline logs the calls of its own
    steps as well.) *)
Theorem debug_one_prints_branch_on_pre_union_record
    (show_types : bool) (n_decimals i : nat) (e : Estimator)
    (pre post : list (string * Step)) (name : string) (sub_t : Step)
    (ts : list Step) (x : Features) (buffer buffer1 : string)
    (s s1 s2 : State) (out : Features) :
  let t := TransformerUnion e (pre ++ (name, sub_t) :: post) in
  let title := (str_of_nat (i + 1) ++ ". Transformer union")%string in
  Pipeline.debug_union_loop nested show_types n_decimals i 0 pre x
    (Pipeline.print_title buffer title false) s = (Ok buffer1, s1) ->
  Pipeline.call_transform_one nested sub_t x s1 = (Ok out, s2) ->
  Pipeline.debug_one_loop nested show_types n_decimals i (t :: ts) x buffer s =
  (buffer' <- Pipeline.debug_union_loop nested show_types n_decimals i
                (S (List.length pre)) post x
                (Pipeline.print_dict n_decimals
                   (Pipeline.print_title buffer1
                      (branch_title i (List.length pre) name sub_t) true)
                   out show_types true true) ;;
   x' <- Pipeline.call_transform_one nested t x ;;
   Pipeline.debug_one_loop nested show_types n_decimals (S i) ts x'
     (Pipeline.print_dict n_decimals buffer' x' show_types false true)) s2 /\
  (forallb (fun b => negb (is_pipeline (snd b))) (pre ++ [(name, sub_t)]) = true ->
   trace s2 =
     trace s ++ map (fun b => transform_one_ev (oid (est (snd b))) x)
                    (pre ++ [(name, sub_t)])).
Proof.
  intros t title Pre Call. split.
  - subst t. cbn [Pipeline.debug_one_loop]. fold title.
    unfold bind at 1 2. rewrite debug_union_loop_app.
    unfold bind at 1. rewrite Pre. cbn [Pipeline.debug_union_loop Nat.add].
    unfold bind at 1. rewrite Call. unfold branch_title.
    unfold bind. rewrite Nat.add_1_r.
    destruct (Pipeline.debug_union_loop nested _ _ _ _ post _ _ s2) as [[b|err] s3];
      [|reflexivity].
    destruct (Pipeline.call_transform_one nested _ x s3) as [[x'|err] s4]; reflexivity.
  - intros F. rewrite forallb_app in F. apply andb_prop in F as [F1 F2].
    cbn [forallb snd] in F2. rewrite andb_true_r in F2.
    apply negb_true_iff in F2.
    rewrite map_app, app_assoc.
    rewrite <- (debug_union_loop_trace _ _ _ _ _ F1 _ _ _ _ _ Pre).
    exact (call_transform_one_trace _ _ _ _ _ F2 Call).
Qed.

(** *** [debug_one] issues no fit *)

Ltac emits_auto :=
  repeat first
    [ apply emits_ret
    | apply emits_raise
    | apply emits_call; split; reflexivity
    | apply emits_bind; [|intros ?]
    | match goal with
      | |- emits _ (if ?b then _ else _) => destruct b
      | |- emits _ (match ?o with Some _ => _ | None => _ end) => destruct o
      end ].

Lemma debug_union_loop_emits show_types n_decimals i branches :
  forallb (fun b => negb (is_pipeline (snd b))) branches = true ->
  forall j x buffer,
    emits debug_event
      (Pipeline.debug_union_loop nested show_types n_decimals i j branches x buffer).
Proof.
  induction branches as [|[name sub_t] branches IH]; intros F j x buffer.
  - apply emits_ret.
  - cbn [forallb snd] in F. apply andb_prop in F as [F1 F2].
    apply negb_true_iff in F1. cbn [Pipeline.debug_union_loop].
    apply emits_bind; [|intros out; now apply IH].
    destruct sub_t; try discriminate; apply emits_call; split; reflexivity.
Qed.

Lemma debug_one_loop_emits show_types n_decimals ts :
  forallb flat_step ts = true ->
  forall i x buffer,
    emits debug_event
      (Pipeline.debug_one_loop nested show_types n_decimals i ts x buffer).
Proof.
  induction ts as [|t ts IH]; intros F i x buffer.
  - apply emits_ret.
  - cbn [forallb] in F. apply andb_prop in F as [F1 F2].
    cbn [Pipeline.debug_one_loop].
    apply emits_bind; [|intros r; now apply IH].
    destruct t; try discriminate; cbn [Pipeline.call_transform_one];
      emits_auto.
    now apply debug_union_loop_emits.
Qed.

Lemma debug_final_emits self n_decimals final x buffer :
  is_pipeline final = false ->
  emits debug_event (Pipeline.debug_final nested self n_decimals final x buffer).
Proof.
  intros F. unfold Pipeline.debug_final.
  destruct final; try discriminate;
    cbn [Pipeline.call_debug_one Pipeline.call_predict_one
         Pipeline.call_predict_proba_one];
    emits_auto.
Qed.

Lemma debug_one_emits self x show_types n_decimals :
  flat self = true ->
  emits debug_event (Pipeline.debug_one nested self x show_types n_decimals).
Proof.
  intros F. unfold Pipeline.debug_one.
  destruct (Pipeline.islice_and_next self) as [[ts final]|e] eqn:E;
    [|apply emits_raise].
  unfold flat in F. rewrite forallb_forall in F.
  destruct (islice_and_next_Forall (fun t => flat_step t = true) self ts final E)
    as [Fts Ffinal]; [now apply Forall_forall|].
  apply emits_bind.
  - apply debug_one_loop_emits. apply forallb_forall.
    now apply Forall_forall.
  - intros r. apply emits_bind; [|intros b; apply emits_ret].
    apply debug_final_emits. now destruct final.
Qed.

(** C10, as amended.  On a pipeline none of whose steps or union branches
    is itself a pipeline, the calls [debug_one] issues are [transform_one],
    [predict_one] and [predict_proba_one] calls and the [debug_one] of the
    final estimator; none of them is a fit. *)
Theorem debug_one_never_fits (self : Pipeline.Pipeline) (x : Features)
    (show_types : bool) (n_decimals : nat) (s : State) :
  flat self = true ->
  exists evs,
    trace (snd (Pipeline.debug_one nested self x show_types n_decimals s))
      = trace s ++ evs /\
    Forall (fun ev => is_debug_call ev = true /\ is_fit ev = false) evs.
Proof. intros F. now apply debug_one_emits. Qed.

(** *** [forecast] *)

Lemma list_comp_ext A B (f g : A -> M B) :
  (forall a s, f a s = g a s) ->
  forall l s, Pipeline.list_comp f l s = Pipeline.list_comp g l s.
Proof.
  intros H l. induction l as [|a l IH]; intros s; simpl; [reflexivity|].
  unfold bind. rewrite H. destruct (g a s) as [[b|e] s']; [|reflexivity].
  now rewrite IH.
Qed.

Lemma _transform_one_fst (self : Pipeline.Pipeline) init name final x s :
  Pipeline.steps self = init ++ [(name, final)] ->
  (r <- Pipeline._transform_one nested self x ;; ret (fst r)) s =
  Pipeline._transform_one_loop nested (values init) x s.
Proof.
  intros E. unfold Pipeline._transform_one.
  erewrite islice_and_next_snoc by exact E. unfold bind, ret.
  now destruct (Pipeline._transform_one_loop nested (values init) x s) as [[x'|e] s'].
Qed.

Lemma stage_on_record_run t ts x s x' h' evs :
  plain t = true ->
  stage_on_record t x (heap s) = Some (x', h', evs) ->
  Pipeline._transform_one_loop nested (t :: ts) x s =
  Pipeline._transform_one_loop nested ts x'
    {| heap := h'; trace := trace s ++ evs |}.
Proof.
  intros Pl H. apply andb_prop in Pl as [U E].
  apply negb_true_iff in U, E. unfold stage_on_record in H.
  destruct (m_transform_one (est t)) as [transform|] eqn:Tr; [|discriminate].
  assert (Pipeline._transform_one_loop nested (t :: ts) x =
          ((if negb (isSupervisedTransformer (est t))
            then Pipeline.call_fit_one nested t x None no_params else ret tt) ;;;
           x0 <- Pipeline.call_transform_one nested t x ;;
           Pipeline._transform_one_loop nested ts x0)%py) as ->
    by (destruct t; (discriminate || reflexivity)).
  rewrite (transform_one_external t x E), Tr. cbn [option_map].
  destruct (isSupervisedTransformer (est t)); cbn [negb].
  - destruct (transform x (heap s)) as [[x0|err] h0] eqn:R; [|discriminate].
    injection H as <- <- <-. unfold bind, ret. rewrite call_Some, R.
    reflexivity.
  - destruct (m_fit_one (est t)) as [fit|] eqn:Fit; [|discriminate].
    destruct (fit x None no_params (heap s)) as [[u|err] h1] eqn:R1;
      [|discriminate].
    destruct (transform x h1) as [[x0|err] h2] eqn:R2; [|discriminate].
    injection H as <- <- <-.
    rewrite (fit_one_external t x None no_params E), Fit. cbn [option_map].
    unfold bind. rewrite call_Some, R1. cbn [fst snd].
    rewrite call_Some. cbn [heap trace]. rewrite R2. cbn [fst snd].
    now rewrite <- app_assoc.
Qed.

Lemma stages_on_record_run ts : forall x s x' h' evs,
  forallb plain ts = true ->
  stages_on_record ts x (heap s) = Some (x', h', evs) ->
  Pipeline._transform_one_loop nested ts x s =
  (Ok x', {| heap := h'; trace := trace s ++ evs |}).
Proof.
  induction ts as [|t ts IH]; intros x s x' h' evs Pl H.
  - injection H as <- <- <-. cbn. rewrite app_nil_r. now destruct s.
  - cbn [forallb] in Pl. apply andb_prop in Pl as [Pt Pts].
    cbn [stages_on_record] in H.
    destruct (stage_on_record t x (heap s)) as [[[x1 h1] evs1]|] eqn:H1;
      [|discriminate].
    destruct (stages_on_record ts x1 h1) as [[[x2 h2] evs2]|] eqn:H2;
      [|discriminate].
    injection H as <- <- <-.
    rewrite (stage_on_record_run t ts x s x1 h1 evs1 Pt H1).
    rewrite (IH x1 {| heap := h1; trace := trace s ++ evs1 |} x2 h2 evs2 Pts H2).
    cbn [trace]. now rewrite app_assoc.
Qed.

Lemma stages_on_records_run ts xs : forall s outs h' evs,
  forallb plain ts = true ->
  stages_on_records ts xs (heap s) = Some (outs, h', evs) ->
  Pipeline.list_comp (Pipeline._transform_one_loop nested ts) xs s =
  (Ok outs, {| heap := h'; trace := trace s ++ evs |}).
Proof.
  induction xs as [|x xs IH]; intros s outs h' evs Pl H.
  - injection H as <- <- <-. cbn. rewrite app_nil_r. now destruct s.
  - cbn [stages_on_records] in H.
    destruct (stages_on_record ts x (heap s)) as [[[x1 h1] evs1]|] eqn:H1;
      [|discriminate].
    destruct (stages_on_records ts xs h1) as [[[outs2 h2] evs2]|] eqn:H2;
      [|discriminate].
    injection H as <- <- <-.
    cbn [Pipeline.list_comp]. unfold bind at 1.
    rewrite (stages_on_record_run ts x s x1 h1 evs1 Pl H1).
    unfold bind at 1.
    rewrite (IH {| heap := h1; trace := trace s ++ evs1 |} outs2 h2 evs2 Pl H2).
    cbn [ret trace]. now rewrite app_assoc.
Qed.

(** C7, as amended.  On a pipeline whose final step is [final]:
    without records, [forecast] is the [forecast] call of the final step
    with the records absent, result and heap as that call leaves them.
    With records, each record goes in turn through the loop of
    [_transform_one], and the list of outputs is handed to the [forecast]
    of the final step; when no step before the final one is a union or a
    pipeline, that is: for each record in turn and each such step in
    order, [fit_one(record)] without a target unless the step is a
    supervised transformer, and then [transform_one(record)], the calls
    logged in that order and the heap passed from one call to the next;
    the final step then gets the transformed records.  A final step
    without [forecast] makes the call fail. *)
Theorem forecast_delegates (self : Pipeline.Pipeline)
    (init : odict Step) (name : string) (final : Step) (horizon : Z) (s : State) :
  Pipeline.steps self = init ++ [(name, final)] ->
  Pipeline.forecast nested self horizon None s
    = Pipeline.call_forecast nested final horizon None s /\
  (forall f, m_forecast (est final) = Some f ->
     Pipeline.forecast nested self horizon None s =
     (fst (f horizon None (heap s)),
      {| heap := snd (f horizon None (heap s));
         trace := trace s ++ [forecast_ev (oid (est final)) horizon None] |})) /\
  (forall xs,
     Pipeline.forecast nested self horizon (Some xs) s =
     (xs' <- Pipeline.list_comp (Pipeline._transform_one_loop nested (values init)) xs ;;
      Pipeline.call_forecast nested final horizon (Some xs')) s) /\
  (forall xs outs h' evs f,
     forallb plain (values init) = true ->
     stages_on_records (values init) xs (heap s) = Some (outs, h', evs) ->
     m_forecast (est final) = Some f ->
     Pipeline.forecast nested self horizon (Some xs) s =
     (fst (f horizon (Some outs) h'),
      {| heap := snd (f horizon (Some outs) h');
         trace := trace s ++ evs ++
                  [forecast_ev (oid (est final)) horizon (Some outs)] |})) /\
  (is_pipeline final = false -> m_forecast (est final) = None ->
     Pipeline.forecast nested self horizon None s
       = (Raise (AttributeError "forecast"), s) /\
     forall xs,
       is_ok (fst (Pipeline.forecast nested self horizon (Some xs) s)) = false).
Proof.
  intros E.
  assert (forall xs,
     Pipeline.forecast nested self horizon (Some xs) s =
     (xs' <- Pipeline.list_comp (Pipeline._transform_one_loop nested (values init)) xs ;;
      Pipeline.call_forecast nested final horizon (Some xs')) s) as Records.
  { intros xs. unfold Pipeline.forecast. erewrite last_step_snoc by exact E.
    unfold bind.
    erewrite list_comp_ext
      by (intros x s0; apply _transform_one_fst with (1 := E)).
    destruct (Pipeline.list_comp _ xs s) as [[l|e] s']; reflexivity. }
  assert (Pipeline.forecast nested self horizon None s
          = Pipeline.call_forecast nested final horizon None s) as Absent.
  { unfold Pipeline.forecast. erewrite last_step_snoc by exact E. reflexivity. }
  split; [exact Absent|]. split; [|split; [exact Records|split]].
  - intros f Hf. rewrite Absent.
    rewrite forecast_external by exact (has_forecast_external _ _ Hf).
    rewrite Hf. cbn [option_map]. apply call_Some.
  - intros xs outs h' evs f Pl Run Hf. rewrite Records. unfold bind.
    rewrite (stages_on_records_run (values init) xs s outs h' evs Pl Run).
    rewrite forecast_external by exact (has_forecast_external _ _ Hf).
    rewrite Hf. cbn [option_map]. rewrite call_Some. cbn [heap trace].
    now rewrite <- app_assoc.
  - intros Ext Lacks. split.
    + rewrite Absent, forecast_external by exact Ext. now rewrite Lacks.
    + intros xs. rewrite Records. unfold bind.
      destruct (Pipeline.list_comp _ xs s) as [[l|e] s']; [|reflexivity].
      rewrite forecast_external by exact Ext. now rewrite Lacks.
Qed.

End Engine.

(** ** [draw] *)

Section Drawing.
Context {T : Types}.
Local Open Scope py_scope.
#[local] Arguments String.eqb : simpl never.

Lemma networkify_leaf (t : Step) :
  is_leaf t = true -> Pipeline.networkify t = Ok (Network.NStr (str (est t))).
Proof. destruct t; (discriminate || reflexivity). Qed.

Lemma eqb_false_of_NoDup (l : list string) :
  NoDup l ->
  forall i j a b, nth_error l i = Some a -> nth_error l j = Some b -> i <> j ->
                  String.eqb a b = false.
Proof.
  intros N i j a b Hi Hj D. apply String.eqb_neq. intros ->.
  apply D. eapply NoDup_nth_error; eauto.
  - apply nth_error_Some. congruence.
  - congruence.
Qed.

Lemma links_of_three_leaves (self : Pipeline.Pipeline) n1 n2 n3 t1 t2 t3 :
  Pipeline.steps self = [(n1, t1); (n2, t2); (n3, t3)] ->
  is_leaf t1 = true -> is_leaf t2 = true -> is_leaf t3 = true ->
  NoDup ["x"; str (est t1); str (est t2); str (est t3); "y"] ->
  forall fuel,
    Pipeline.draw fuel self =
    Network.draw fuel (chain3 (str (est t1)) (str (est t2)) (str (est t3))).
Proof.
  intros E L1 L2 L3 N fuel.
  pose proof (eqb_false_of_NoDup _ N) as D.
  assert (forall i j a b,
            nth_error ["x"; str (est t1); str (est t2); str (est t3); "y"] i = Some a ->
            nth_error ["x"; str (est t1); str (est t2); str (est t3); "y"] j = Some b ->
            Nat.eqb i j = false -> String.eqb a b = false) as D'.
  { intros i j a b Hi Hj Hij. apply (D i j); auto. now apply Nat.eqb_neq. }
  pose proof (D' 0 1 _ _ eq_refl eq_refl eq_refl) as X1.
  pose proof (D' 0 2 _ _ eq_refl eq_refl eq_refl) as X2.
  pose proof (D' 0 3 _ _ eq_refl eq_refl eq_refl) as X3.
  pose proof (D' 0 4 _ _ eq_refl eq_refl eq_refl) as X4.
  pose proof (D' 1 2 _ _ eq_refl eq_refl eq_refl) as A2.
  pose proof (D' 1 3 _ _ eq_refl eq_refl eq_refl) as A3.
  pose proof (D' 1 4 _ _ eq_refl eq_refl eq_refl) as A4.
  pose proof (D' 2 3 _ _ eq_refl eq_refl eq_refl) as B3.
  pose proof (D' 2 4 _ _ eq_refl eq_refl eq_refl) as B4.
  pose proof (D' 3 4 _ _ eq_refl eq_refl eq_refl) as C4.
  pose proof (D' 2 1 _ _ eq_refl eq_refl eq_refl) as B1.
  pose proof (D' 3 1 _ _ eq_refl eq_refl eq_refl) as C1.
  pose proof (D' 3 2 _ _ eq_refl eq_refl eq_refl) as C2.
  clear D D'.
  unfold Pipeline.draw, Pipeline.draw_step. rewrite E.
  cbn [values map snd for_fold].
  rewrite !networkify_leaf by assumption.
  unfold Network.__init__, Network.link, Network.append, Network.index,
    Network.contains_node, Network.set_add, Network.pair_eqb.
  repeat (progress (cbn;
            rewrite ?String.eqb_refl, ?X1, ?X2, ?X3, ?X4, ?A2, ?A3, ?A4,
              ?B3, ?B4, ?C4, ?B1, ?C1, ?C2)).
  reflexivity.
Qed.

(** Drawing the links of the chain, in whatever order they come. *)
Lemma draw_chain_links (fuel : nat) (s1 s2 s3 : string) (l : list (nat * nat)) :
  Forall (fun ab => In ab [(0, 1); (1, 2); (2, 3); (3, 4)]) l ->
  forall st,
    for_fold (fun ab st =>
                match nth_error (Network.data (chain3 s1 s2 s3)) (fst ab),
                      nth_error (Network.data (chain3 s1 s2 s3)) (snd ab) with
                | Some a, Some b => Network.draw_link (S fuel) a b st
                | _, _ => Raise IndexError
                end) l st =
    Ok {| Network.G :=
            Network.G st ++
            map (fun ab => Network.edge_stmt
                             (nth (fst ab) ["x"; s1; s2; s3; "y"] "")
                             (nth (snd ab) ["x"; s1; s2; s3; "y"] "")) l;
          Network.drawn_subclusters := Network.drawn_subclusters st |}.
Proof.
  induction 1 as [|ab l Hab Hl IH]; intros st.
  - simpl. rewrite app_nil_r. now destruct st.
  - cbn [for_fold map].
    assert (match nth_error (Network.data (chain3 s1 s2 s3)) (fst ab),
                  nth_error (Network.data (chain3 s1 s2 s3)) (snd ab) with
            | Some a, Some b => Network.draw_link (S fuel) a b st
            | _, _ => Raise IndexError
            end =
            Ok {| Network.G :=
                    Network.G st ++
                    [Network.edge_stmt (nth (fst ab) ["x"; s1; s2; s3; "y"] "")
                                       (nth (snd ab) ["x"; s1; s2; s3; "y"] "")];
                  Network.drawn_subclusters := Network.drawn_subclusters st |})
      as ->.
    { simpl in Hab.
      destruct Hab as [<-|[<-|[<-|[<-|[]]]]]; reflexivity. }
    cbn [and_then]. rewrite IH. cbn [Network.G Network.drawn_subclusters].
    now rewrite <- app_assoc.
Qed.

(** C9.  For three leaf steps in sequence whose labels differ from one
    another and from the labels [x] and [y] of the two end points, [draw]
    returns a graph with the five nodes [x], [s1], [s2], [s3], [y] and the
    four edges of the chain from [x] through the steps to [y], whatever the
    order in which the set of edges is read. *)
Theorem draw_three_leaves_is_a_chain (self : Pipeline.Pipeline)
    (n1 n2 n3 : string) (t1 t2 t3 : Step) (fuel : nat) :
  Pipeline.steps self = [(n1, t1); (n2, t2); (n3, t3)] ->
  is_leaf t1 = true -> is_leaf t2 = true -> is_leaf t3 = true ->
  NoDup ["x"; str (est t1); str (est t2); str (est t3); "y"] ->
  (forall l, Permutation (iter_set l) l) ->
  exists g,
    Pipeline.draw (S (S fuel)) self = Ok g /\
    nodes_of g = ["x"; str (est t1); str (est t2); str (est t3); "y"] /\
    Permutation (edges_of g)
      [("x", str (est t1)); (str (est t1), str (est t2));
       (str (est t2), str (est t3)); (str (est t3), "y")] /\
    List.length (nodes_of g) = 5 /\
    List.length (edges_of g) = 4 /\
    List.length (Network.body g) = 9.
Proof.
  intros E L1 L2 L3 N P.
  rewrite (links_of_three_leaves self n1 n2 n3 t1 t2 t3 E L1 L2 L3 N).
  set (s1 := str (est t1)). set (s2 := str (est t2)). set (s3 := str (est t3)).
  cbn [Network.draw].
  assert (Forall (fun ab => In ab [(0, 1); (1, 2); (2, 3); (3, 4)])
                 (iter_set (Network.edges (chain3 s1 s2 s3)))) as F.
  { apply Forall_forall. intros ab Hab.
    eapply Permutation_in; [apply P|exact Hab]. }
  rewrite (draw_chain_links fuel s1 s2 s3 _ F). cbn [and_then Network.G].
  eexists. split; [reflexivity|].
  set (ns := ["x"; s1; s2; s3; "y"]).
  set (es := map (fun ab : nat * nat => (nth (fst ab) ns "", nth (snd ab) ns ""))
                 (iter_set (Network.edges (chain3 s1 s2 s3)))).
  assert (Permutation es [("x", s1); (s1, s2); (s2, s3); (s3, "y")]) as Pes.
  { apply (Permutation_map
             (fun ab : nat * nat => (nth (fst ab) ns "", nth (snd ab) ns "")))
      with (l' := [(0, 1); (1, 2); (2, 3); (3, 4)]).
    apply P. }
  assert (forall l : list (nat * nat),
            flat_map (fun st => match st with Network.node_stmt a => [a] | _ => [] end)
              (map (fun ab => Network.edge_stmt (nth (fst ab) ns "")
                                                (nth (snd ab) ns "")) l)
            = []) as NoNodes
    by (induction l as [|ab l IHl]; cbn [flat_map map app]; auto).
  assert (forall l : list (nat * nat),
            flat_map (fun st => match st with
                                | Network.edge_stmt a b => [(a, b)] | _ => [] end)
              (map (fun ab => Network.edge_stmt (nth (fst ab) ns "")
                                                (nth (snd ab) ns "")) l)
            = map (fun ab : nat * nat => (nth (fst ab) ns "", nth (snd ab) ns "")) l)
    as Edges
    by (induction l as [|ab l IHl]; cbn [flat_map map app];
        [reflexivity|now rewrite IHl]).
  unfold nodes_of, edges_of. cbn [Network.body].
  rewrite !flat_map_app, NoNodes, Edges. fold es.
  cbn [chain3 Network.data map fold_left Network.draw_node app flat_map].
  split; [reflexivity|]. split; [exact Pes|]. split; [reflexivity|].
  split; [now rewrite (Permutation_length Pes)|].
  cbn [List.length]. rewrite length_map.
  rewrite (Permutation_length (P _)). reflexivity.
Qed.

End Drawing.

(** The theorem at work: a union of two adders before a model. *)
Lemma debug_one_never_fits_witness :
  let U :=
    Fixtures.union_of 9 [("A", Leaf (Fixtures.adder 1 "A" false));
                         ("B", Leaf (Fixtures.adder 3 "B" true))] in
  let self := Fixtures.pipe [("U", U); ("M", Leaf (Fixtures.model 2 "M" true true))] in
  flat self = true /\
  exists evs,
    trace (snd (Pipeline.debug_one (Pipeline.nested_of 2) self Fixtures.x1 true 5
                  Fixtures.start)) = trace Fixtures.start ++ evs /\
    Forall (fun ev => is_debug_call ev = true /\ is_fit ev = false) evs.
Proof.
  intros U self. split; [reflexivity|].
  exact (@debug_one_never_fits Fixtures.test_types (Pipeline.nested_of 2) self
           Fixtures.x1 true 5 Fixtures.start eq_refl).
Defined.

(** C10 without its amendment fails twice.  On a final estimator with a [debug_one] of
    its own, that method is called, and it is none of the three calls the
    statement lists.  And when a branch of a union is itself a pipeline (as
    in the example of the docstring), [debug_one] calls its
    [transform_one], which is [Pipeline.transform_one] and fits the scaler
    inside: twice here, once for the branch and once through the union (the
    union of the fixtures transforms nothing, so only the first shows). *)
Lemma debug_one_calls_final_debug_and_fits_nested :
  let M := Leaf (Fixtures.model 2 "M" true true) in
  let inner :=
    SubPipeline 7 [("Scaler", Leaf (Fixtures.adder 1 "Scaler" false));
                   ("Renamer", Leaf (Fixtures.adder 4 "Renamer" false))] in
  forallb (@is_transform_or_predict Fixtures.test_types)
    (trace (snd (Pipeline.debug_one (Pipeline.nested_of 2)
                   (Fixtures.pipe [("M", M)]) Fixtures.x1 true 5 Fixtures.start)))
    = false /\
  trace (snd (Pipeline.debug_one (Pipeline.nested_of 2)
                (Fixtures.pipe [("U", Fixtures.union_of 9 [("tfidf", inner)]);
                                ("M", M)])
                Fixtures.x1 true 5 Fixtures.start))
    = [transform_one_ev 7 Fixtures.x1;
       fit_one_ev 1 Fixtures.x1 None [];
       transform_one_ev 1 Fixtures.x1;
       transform_one_ev 4 (Fixtures.shift 1 Fixtures.x1);
       transform_one_ev 9 Fixtures.x1;
       debug_one_ev 2 Fixtures.x1;
       predict_one_ev 2 Fixtures.x1] /\
  existsb (@is_fit Fixtures.test_types)
    (trace (snd (Pipeline.debug_one (Pipeline.nested_of 2)
                   (Fixtures.pipe [("U", Fixtures.union_of 9 [("tfidf", inner)]);
                                   ("M", M)])
                   Fixtures.x1 true 5 Fixtures.start)))
    = true.
Proof. repeat split; reflexivity. Qed.

(** The theorem at work on a scaler followed by a forecaster. *)
Lemma forecast_delegates_witness :
  let T1 := Leaf (Fixtures.adder 1 "T" false) in
  let S1 := Leaf (Fixtures.adder 3 "S" true) in
  let F := Leaf (Fixtures.model 2 "F" true false) in
  let self := Fixtures.pipe [("T", T1); ("S", S1); ("F", F)] in
  let x2 := Fixtures.shift 4 Fixtures.x1 in
  Pipeline.steps self = [("T", T1); ("S", S1)] ++ [("F", F)] /\
  forallb plain [T1; S1] = true /\
  Pipeline.forecast (Pipeline.nested_of 2) self 2 None Fixtures.start
    = (Ok [Fixtures.num 0; Fixtures.num 0],
       Fixtures.state [] [forecast_ev 2 2%Z None]) /\
  Pipeline.forecast (Pipeline.nested_of 2) self 2 (Some [Fixtures.x1; x2])
    Fixtures.start
    = (Ok [Fixtures.num 0; Fixtures.num 0],
       Fixtures.state [(1, 2%Z); (1, 1%Z)]
         [fit_one_ev 1 Fixtures.x1 None [];
          transform_one_ev 1 Fixtures.x1;
          transform_one_ev 3 (Fixtures.shift 1 Fixtures.x1);
          fit_one_ev 1 x2 None [];
          transform_one_ev 1 x2;
          transform_one_ev 3 (Fixtures.shift 2 x2);
          forecast_ev 2 2%Z
            (Some [Fixtures.shift 1 Fixtures.x1; Fixtures.shift 2 x2])]).
Proof.
  intros T1 S1 F self x2. split; [reflexivity|]. split; [reflexivity|].
  destruct (@forecast_delegates Fixtures.test_types (Pipeline.nested_of 2) self
              [("T", T1); ("S", S1)] "F" F 2 Fixtures.start eq_refl)
    as (_ & Absent & _ & Records & _).
  split; [exact (Absent _ eq_refl)|].
  exact (Records [Fixtures.x1; x2] _ _ _ _ eq_refl eq_refl eq_refl).
Defined.

(** C7 without its amendment fails: with records supplied, the scaler
    before the forecaster is fitted on each record. *)
Lemma forecast_fits_on_records :
  let self :=
    Fixtures.pipe [("T", Leaf (Fixtures.adder 1 "T" false));
                   ("F", Leaf (Fixtures.model 2 "F" true false))] in
  trace (snd (Pipeline.forecast (Pipeline.nested_of 2) self 2 (Some [Fixtures.x1]) Fixtures.start))
    = [fit_one_ev 1 Fixtures.x1 None [];
       transform_one_ev 1 Fixtures.x1;
       forecast_ev 2 2%Z (Some [Fixtures.shift 1 Fixtures.x1])] /\
  existsb (@is_fit Fixtures.test_types)
    (trace (snd (Pipeline.forecast (Pipeline.nested_of 2) self 2 (Some [Fixtures.x1]) Fixtures.start)))
    = true.
Proof. split; reflexivity. Qed.

(** The theorem at work: the adder [A] holds 10 when the call starts, so
    [B] is fitted on the record shifted by 10, and only then does [A] move
    to 13. *)
Lemma fit_one_forwards_witness :
  let A := Leaf (Fixtures.adder 1 "A" true) in
  let B := Leaf (Fixtures.model 2 "B" true false) in
  let s := Fixtures.state [(1, 10%Z)] [] in
  is_union A = false /\
  isSupervisedTransformer (est A) = true /\
  Pipeline.fit_one (Pipeline.nested_of 2) (Fixtures.pipe [("A", A); ("B", B)]) Fixtures.x1 3%Z [] s =
  (Ok tt,
   Fixtures.state [(2, 1%Z); (1, 13%Z); (1, 10%Z)]
     [transform_one_ev 1 Fixtures.x1;
      fit_one_ev 1 Fixtures.x1 (Some 3%Z) [];
      fit_one_ev 2 (Fixtures.shift 10 Fixtures.x1) (Some 3%Z) []]).
Proof.
  intros A B s. split; [reflexivity|]. split; [reflexivity|].
  exact (@fit_one_forwards_prior_transform Fixtures.test_types (Pipeline.nested_of 2) "A" "B" A B
           Fixtures.x1 3%Z [] s _ _ _ _ _ _
           eq_refl eq_refl eq_refl eq_refl eq_refl eq_refl eq_refl).
Defined.

Lemma rowwise_adder (o : nat) (name : string) (supervised : bool) :
  @rowwise Fixtures.test_types (Fixtures.adder o name supervised).
Proof.
  split; do 2 eexists; (split; [reflexivity|]); (split; [reflexivity|]);
    intros x h; reflexivity.
Qed.



(** C2, where the code departs from it.  The union holds a scaler and a
    supervised branch; [transform_one] and [predict_one] call [fit_one(x)]
    on both before the transform of the union, where C2 has the supervised
    branch (object 3) left alone. *)
Lemma transform_one_fits_supervised_branch :
  let U :=
    Fixtures.union_of 9 [("Scaler", Leaf (Fixtures.adder 1 "Scaler" false));
                         ("TargetAgg", Leaf (Fixtures.adder 3 "TargetAgg" true))] in
  let self := Fixtures.pipe [("U", U); ("M", Leaf (Fixtures.model 2 "M" true false))] in
  trace (snd (Pipeline.transform_one (Pipeline.nested_of 2) self Fixtures.x1 Fixtures.start))
    = [fit_one_ev 1 Fixtures.x1 None [];
       fit_one_ev 3 Fixtures.x1 None [];
       transform_one_ev 9 Fixtures.x1] /\
  trace (snd (Pipeline.predict_one (Pipeline.nested_of 2) self Fixtures.x1 Fixtures.start))
    = [fit_one_ev 1 Fixtures.x1 None [];
       fit_one_ev 3 Fixtures.x1 None [];
       transform_one_ev 9 Fixtures.x1;
       predict_one_ev 2 Fixtures.x1].
Proof. split; reflexivity. Qed.

(** C3, where the code departs from it.  The supervised adder holds 5, so
    the batch it returns differs from the batch it was given; [fit_many]
    then calls its [fit_many] with the returned batch and without [y],
    where C3 has it called with the batch as it came in and with [y]. *)
Lemma fit_many_updates_with_transformed_batch :
  let self :=
    Fixtures.pipe [("S", Leaf (Fixtures.adder 1 "S" true));
                   ("M", Leaf (Fixtures.model 2 "M" true false))] in
  trace (snd (Pipeline.fit_many (Pipeline.nested_of 2) self [Fixtures.x1] [3%Z] []
                (Fixtures.state [(1, 5%Z)] [])))
    = [transform_many_ev 1 [Fixtures.x1];
       fit_many_ev 1 [Fixtures.shift 5 Fixtures.x1] None [];
       fit_many_ev 2 [Fixtures.shift 5 Fixtures.x1] (Some [3%Z]) []].
Proof. reflexivity. Qed.

(** C4, where the code departs from it.  The final step is not
    supervised, and [fit_many] still passes it [y], exactly as it does to a
    supervised one, where C4 has it called without the label. *)
Lemma fit_many_passes_y_to_unsupervised_final :
  let final sup := Leaf (Fixtures.model 2 "M" sup false) in
  _is_supervised (est (final false)) = false /\
  trace (snd (Pipeline.fit_many (Pipeline.nested_of 2) (Fixtures.pipe [("M", final false)])
                [Fixtures.x1] [3%Z] [] Fixtures.start))
    = [fit_many_ev 2 [Fixtures.x1] (Some [3%Z]) []] /\
  trace (snd (Pipeline.fit_many (Pipeline.nested_of 2) (Fixtures.pipe [("M", final true)])
                [Fixtures.x1] [3%Z] [] Fixtures.start))
    = [fit_many_ev 2 [Fixtures.x1] (Some [3%Z]) []].
Proof. repeat split; reflexivity. Qed.

(** The theorem at work: a scaler, a feature extender and a regression. *)
Lemma draw_three_leaves_witness :
  let t1 := Leaf (Fixtures.adder 1 "StandardScaler" false) in
  let t2 := Leaf (Fixtures.adder 2 "PolynomialExtender" false) in
  let t3 := Leaf (Fixtures.model 3 "LinearRegression" true false) in
  let self :=
    Fixtures.pipe [("StandardScaler", t1); ("PolynomialExtender", t2);
                   ("LinearRegression", t3)] in
  NoDup ["x"; str (est t1); str (est t2); str (est t3); "y"] /\
  (forall l, Permutation (@iter_set Fixtures.test_types l) l) /\
  exists g,
    Pipeline.draw 2 self = Ok g /\
    nodes_of g = ["x"; "StandardScaler"; "PolynomialExtender"; "LinearRegression"; "y"] /\
    Permutation (edges_of g)
      [("x", "StandardScaler"); ("StandardScaler", "PolynomialExtender");
       ("PolynomialExtender", "LinearRegression"); ("LinearRegression", "y")] /\
    List.length (nodes_of g) = 5 /\
    List.length (edges_of g) = 4 /\
    List.length (Network.body g) = 9.
Proof.
  intros t1 t2 t3 self.
  assert (NoDup ["x"; str (est t1); str (est t2); str (est t3); "y"]) as N.
  { repeat constructor; simpl; intuition discriminate. }
  assert (forall l, Permutation (@iter_set Fixtures.test_types l) l) as P
    by (intros l; apply Permutation_refl).
  split; [exact N|]. split; [exact P|].
  exact (@draw_three_leaves_is_a_chain Fixtures.test_types self
           "StandardScaler" "PolynomialExtender" "LinearRegression"
           t1 t2 t3 0 eq_refl eq_refl eq_refl eq_refl N P).
Defined.

(** ** More of the execution engine *)

Section Failures.
Context {T : Types}.
Variable nested : Pipeline.Nested.
Local Open Scope py_scope.

(** X1.  On a pipeline without steps every method that walks the steps
    raises the ValueError of [islice], [forecast] the IndexError of
    [[-1]] (or the ValueError, once a record has to be transformed); no
    method is called and the state is left as it was. *)
Theorem empty_pipeline_raises (x : Features) (y : Target) (params : Params)
    (X : DataFrame) (ys : Series) (show_types : bool) (n_decimals : nat)
    (horizon : Z) (s : State) :
  let self := {| Pipeline.steps := [] |} in
  Pipeline.fit_one nested self x y params s = (Raise ValueError, s) /\
  Pipeline.transform_one nested self x s = (Raise ValueError, s) /\
  Pipeline.predict_one nested self x s = (Raise ValueError, s) /\
  Pipeline.predict_proba_one nested self x s = (Raise ValueError, s) /\
  Pipeline.score_one nested self x s = (Raise ValueError, s) /\
  Pipeline.debug_one nested self x show_types n_decimals s = (Raise ValueError, s) /\
  Pipeline.fit_many nested self X ys params s = (Raise ValueError, s) /\
  Pipeline.transform_many nested self X s = (Raise ValueError, s) /\
  Pipeline.predict_many nested self X s = (Raise ValueError, s) /\
  Pipeline.predict_proba_many nested self X s = (Raise ValueError, s) /\
  Pipeline.forecast nested self horizon None s = (Raise IndexError, s) /\
  Pipeline.forecast nested self horizon (Some []) s = (Raise IndexError, s) /\
  (forall x0 xs,
     Pipeline.forecast nested self horizon (Some (x0 :: xs)) s
       = (Raise ValueError, s)).
Proof. repeat split. Qed.

(** *** The loops over a concatenation *)

Lemma bind_assoc {A B C} (m : M A) (f : A -> M B) (g : B -> M C) s :
  bind (bind m f) g s = bind m (fun a => bind (f a) g) s.
Proof. unfold bind. destruct (m s) as [[a|e] s']; reflexivity. Qed.

Lemma bind_ext {A B} (m : M A) (f g : A -> M B) :
  (forall a s, f a s = g a s) -> forall s, bind m f s = bind m g s.
Proof.
  intros H s. unfold bind. destruct (m s) as [[a|e] s']; [apply H|reflexivity].
Qed.

Lemma fit_one_loop_app pre post y :
  forall x s,
    Pipeline.fit_one_loop nested (pre ++ post) x y s =
    (x' <- Pipeline.fit_one_loop nested pre x y ;;
     Pipeline.fit_one_loop nested post x' y) s.
Proof.
  induction pre as [|t pre IH]; intros x s; [reflexivity|].
  cbn [app Pipeline.fit_one_loop]. rewrite bind_assoc.
  apply bind_ext; intros x' s1. rewrite bind_assoc.
  apply bind_ext; intros _ s2. apply IH.
Qed.

Lemma _transform_one_loop_app pre post :
  forall x s,
    Pipeline._transform_one_loop nested (pre ++ post) x s =
    (x' <- Pipeline._transform_one_loop nested pre x ;;
     Pipeline._transform_one_loop nested post x') s.
Proof.
  induction pre as [|t pre IH]; intros x s; [reflexivity|].
  cbn [app Pipeline._transform_one_loop]. rewrite bind_assoc.
  apply bind_ext; intros _ s1. rewrite bind_assoc.
  apply bind_ext; intros x' s2. apply IH.
Qed.

(** [values] of the steps is enough to know what the loops read. *)
Lemma islice_and_next_values (self : Pipeline.Pipeline) ts final :
  values (Pipeline.steps self) = ts ++ [final] ->
  Pipeline.islice_and_next self = Ok (ts, final).
Proof.
  intros E. unfold Pipeline.islice_and_next. rewrite E, length_app.
  simpl. rewrite Nat.add_1_r.
  rewrite nth_error_app2, Nat.sub_diag by lia. simpl.
  rewrite firstn_app, Nat.sub_diag, firstn_all. simpl. now rewrite app_nil_r.
Qed.

(** X2.  [fit_one] has no roll-back.  When the [transform_one] of a step
    before the final one raises, [fit_one] raises the same exception and
    the state is the one the failing call left: the steps before it have
    been transformed and, if supervised, fitted; the failing step is not
    fitted, and no later step, the final one included, is called. *)
Theorem fit_one_stops_at_failing_step (self : Pipeline.Pipeline)
    (pre post : list Step) (t final : Step) (x x' : Features) (y : Target)
    (params : Params) (s s1 s2 : State) (e : Exn) :
  values (Pipeline.steps self) = pre ++ t :: post ++ [final] ->
  Pipeline.fit_one_loop nested pre x y s = (Ok x', s1) ->
  Pipeline.call_transform_one nested t x' s1 = (Raise e, s2) ->
  Pipeline.fit_one nested self x y params s = (Raise e, s2).
Proof.
  intros E L C. unfold Pipeline.fit_one.
  rewrite (islice_and_next_values self (pre ++ t :: post) final)
    by (rewrite E, <- app_assoc; reflexivity).
  unfold bind at 1. rewrite fit_one_loop_app. unfold bind at 1. rewrite L.
  cbn [Pipeline.fit_one_loop]. unfold bind at 1. now rewrite C.
Qed.

(** X3.  A final step without the method asked for fails late.  When the
    final step is no pipeline and has no [predict_one] (or
    [predict_proba_one], or [score_one]), the call raises AttributeError
    only after the loop over the earlier steps has run: the state is the
    one that loop left, with its fits done. *)
Theorem predict_without_method_fails_late (self : Pipeline.Pipeline)
    (ts : list Step) (final : Step) (x x' : Features) (s s' : State) :
  values (Pipeline.steps self) = ts ++ [final] ->
  is_pipeline final = false ->
  Pipeline._transform_one_loop nested ts x s = (Ok x', s') ->
  (m_predict_one (est final) = None ->
   Pipeline.predict_one nested self x s
     = (Raise (AttributeError "predict_one"), s')) /\
  (m_predict_proba_one (est final) = None ->
   Pipeline.predict_proba_one nested self x s
     = (Raise (AttributeError "predict_proba_one"), s')) /\
  (m_score_one (est final) = None ->
   Pipeline.score_one nested self x s
     = (Raise (AttributeError "score_one"), s')).
Proof.
  intros E F L.
  unfold Pipeline.predict_one, Pipeline.predict_proba_one, Pipeline.score_one,
    Pipeline._transform_one.
  rewrite (islice_and_next_values self ts final E).
  unfold bind, ret. rewrite L.
  destruct final; try discriminate F;
    (repeat split; intros H;
     cbn [Pipeline.call_predict_one Pipeline.call_predict_proba_one
          Pipeline.call_score_one];
     rewrite H; reflexivity).
Qed.

(** *** Which fits a call makes *)

Lemma emits_for_each_in A P (body : A -> M unit) (l : list A) :
  (forall a, In a l -> emits P (body a)) -> emits P (Pipeline.for_each l body).
Proof.
  induction l as [|a l IH]; intros H; simpl.
  - apply emits_ret.
  - apply emits_bind; [apply H; now left|]. intros _. apply IH.
    intros b Hb. apply H. now right.
Qed.

Lemma fit_one_event_weaken ts ts' final y params ev :
  incl ts' ts ->
  fit_one_event ts' final y params ev -> fit_one_event ts final y params ev.
Proof.
  intros I [H|[H|(t & x0 & Ht & S & E)]]; [now left|right; now left|].
  right; right. exists t, x0. split; [|auto].
  apply in_app_or in Ht as [Ht|Ht]; apply in_or_app; [left; auto|right].
  apply in_flat_map in Ht as (u & Hu & Hb). apply in_flat_map. eauto.
Qed.

Lemma fit_one_loop_emits ts final y params :
  Forall (fun t => is_pipeline t = false) ts ->
  forall x,
    emits (fit_one_event ts final y params) (Pipeline.fit_one_loop nested ts x y).
Proof.
  induction 1 as [|t ts Ht Hts IH]; intros x.
  - apply emits_ret.
  - assert (forall ev, fit_one_event ts final y params ev ->
                       fit_one_event (t :: ts) final y params ev) as W
      by (intros ev; apply fit_one_event_weaken; intros u; simpl; auto).
    cbn [Pipeline.fit_one_loop]. apply emits_bind.
    { rewrite (transform_one_external nested t x Ht). apply emits_call. now left. }
    intros x'. apply emits_bind.
    2:{ intros _ s. destruct (IH x' s) as (evs & E & F). exists evs.
        split; [exact E|]. revert F. apply Forall_impl. exact W. }
    assert (isSupervisedTransformer (est t) = true ->
            emits (fit_one_event (t :: ts) final y params)
                  (Pipeline.call_fit_one nested t x (Some y) no_params)) as Own.
    { intros S. rewrite (fit_one_external nested t x (Some y) no_params Ht).
      apply emits_call. right; right. exists t, x. simpl. auto. }
    destruct t as [e|e f|e transformers|o sub|e w l]; try discriminate Ht.
    1,2,4: (cbn [est] in *; destruct (isSupervisedTransformer e) eqn:S;
            [apply Own; reflexivity|apply emits_ret]).
    apply emits_for_each_in. intros sub_t Hin.
    destruct (isSupervisedTransformer (est sub_t)) eqn:S; [|apply emits_ret].
    assert (is_pipeline sub_t = false) as Hsub
      by (destruct sub_t; (reflexivity || discriminate S)).
    rewrite (fit_one_external nested sub_t x (Some y) no_params Hsub).
    apply emits_call. right; right. exists sub_t, x.
    split; [|auto]. apply in_or_app. right. cbn [flat_map branches_of].
    apply in_or_app. now left.
Qed.

(** X4.  On a pipeline whose steps are no pipelines, [fit_one] fits the
    final step, with the keyword parameters and with the target only if it
    is supervised, and besides it only supervised transformers (steps
    before the final one, or branches of a union), each with the target
    and without keyword parameters.  A transformer that is not supervised
    is never fitted by [fit_one], and no batch fit is made. *)
Theorem fit_one_fits_supervised_only (self : Pipeline.Pipeline)
    (ts : list Step) (final : Step) (x : Features) (y : Target)
    (params : Params) :
  values (Pipeline.steps self) = ts ++ [final] ->
  Forall (fun t => is_pipeline t = false) (ts ++ [final]) ->
  emits (fit_one_event ts final y params)
        (Pipeline.fit_one nested self x y params).
Proof.
  intros E F. apply Forall_app in F as [Fts Ffinal].
  apply Forall_inv in Ffinal.
  unfold Pipeline.fit_one. rewrite (islice_and_next_values self ts final E).
  apply emits_bind; [now apply fit_one_loop_emits|]. intros x'.
  destruct (_is_supervised (est final)) eqn:S;
    rewrite (fit_one_external nested final x' _ params Ffinal);
    apply emits_call; right; left; exists x'; now rewrite S.
Qed.

(** A batch fit without targets logs nothing else. *)
Lemma fit_many_without_y_emits final y params t X :
  emits (fit_many_event final y params)
        (Pipeline.call_fit_many nested t X None no_params).
Proof.
  destruct t; try (apply emits_call; right; right; eauto).
  apply emits_raise.
Qed.

Lemma fit_many_loop_emits final y params ts :
  Forall (fun t => is_pipeline t = false) ts ->
  forall X,
    emits (fit_many_event final y params) (Pipeline.fit_many_loop nested ts X).
Proof.
  induction 1 as [|t ts Ht Hts IH]; intros X.
  - apply emits_ret.
  - cbn [Pipeline.fit_many_loop]. apply emits_bind.
    { rewrite (transform_many_external nested t X Ht). apply emits_call. now left. }
    intros X'. apply emits_bind; [|intros _; apply IH].
    destruct t as [e|e f|e transformers|o sub|e w l];
      try (destruct (isSupervisedTransformer _);
           [apply fit_many_without_y_emits|apply emits_ret]).
    apply emits_for_each. intros sub_t.
    destruct (isSupervisedTransformer _);
      [apply fit_many_without_y_emits|apply emits_ret].
Qed.

(** X5.  On a pipeline whose steps are no pipelines, the targets [y] that
    [fit_many] is given reach the final step and no other: every other fit
    it makes is a [fit_many] without targets and without keyword
    parameters, and it makes no record fit. *)
Theorem fit_many_gives_targets_to_final_only (self : Pipeline.Pipeline)
    (ts : list Step) (final : Step) (X : DataFrame) (y : Series)
    (params : Params) :
  values (Pipeline.steps self) = ts ++ [final] ->
  Forall (fun t => is_pipeline t = false) (ts ++ [final]) ->
  emits (fit_many_event final y params)
        (Pipeline.fit_many nested self X y params).
Proof.
  intros E F. apply Forall_app in F as [Fts Ffinal].
  apply Forall_inv in Ffinal.
  rewrite (fit_many_final_gets_y nested self X y params ts final
             (islice_and_next_values self ts final E)).
  apply emits_bind; [now apply fit_many_loop_emits|]. intros X'.
  rewrite (fit_many_external nested final X' _ params Ffinal).
  apply emits_call. right; left. now exists X'.
Qed.

(** *** Prediction on records and on batches *)

(** X6.  When no step and no branch of a union is itself a pipeline,
    the batch methods of the steps before the final one agree row-wise
    with their record methods, and the batch prediction of the final step
    with its record prediction, [predict_many] on the one-row batch of [x]
    returns the one prediction [predict_one] returns on [x] (or raises as
    it raises), and leaves the heap as it leaves it.  (With a pipeline
    among the earlier steps or the branches, [predict_many] raises
    TypeError where [predict_one] returns: see
    [predict_many_raises_on_pipeline_step].) *)
Theorem predict_one_is_predict_many_row (self : Pipeline.Pipeline)
    (ts : list Step) (final : Step) (x : Features) (s : State) :
  flat self = true ->
  values (Pipeline.steps self) = ts ++ [final] ->
  Forall rowwise_step ts ->
  rowwise_predict (est final) ->
  fst (Pipeline.predict_many nested self [x] s)
    = map_result (fun r => [r]) (fst (Pipeline.predict_one nested self x s)) /\
  heap (snd (Pipeline.predict_many nested self [x] s))
    = heap (snd (Pipeline.predict_one nested self x s)).
Proof.
  intros _ E Rw (f & g & Hf & Hg & Row).
  unfold Pipeline.predict_many, Pipeline.predict_one,
    Pipeline._transform_many, Pipeline._transform_one.
  rewrite (islice_and_next_values self ts final E).
  destruct (agree_transform_loop nested ts Rw x s s eq_refl) as [R H].
  unfold bind, ret.
  destruct (Pipeline._transform_many_loop nested ts [x] s) as [r1 s1],
           (Pipeline._transform_one_loop nested ts x s) as [r2 s2].
  simpl in R, H. destruct r2 as [a|e]; simpl in R; subst r1; [|simpl; auto].
  destruct final as [e|e fn|e transformers|o sub|e w l];
    try discriminate Hf;
    cbn [Pipeline.call_predict_many Pipeline.call_predict_one est] in *;
    rewrite Hf, Hg; cbn [option_map]; rewrite !call_Some; cbn [fst snd heap];
    rewrite H, Row; auto.
Qed.

(** X7.  [predict_one] is no pure read.  In the pipeline [A | B] with [A]
    a transformer that is neither a union nor supervised, it first calls
    [A.fit_one(x)] without a target, then [A.transform_one(x)] on the heap
    that fit left, and last [B.predict_one] on the value returned: the
    record is learned from before it is transformed. *)
Theorem predict_one_fits_before_transforming
    (nameA nameB : string) (A B : Step) (x x' : Features) (s : State)
    (trA : Features -> Method Features)
    (fitA : Features -> option Target -> Params -> Method unit)
    (predB : Features -> Method Val) (h1 h2 : Heap) :
  is_union A = false ->
  isSupervisedTransformer (est A) = false ->
  m_fit_one (est A) = Some fitA ->
  m_transform_one (est A) = Some trA ->
  m_predict_one (est B) = Some predB ->
  fitA x None no_params (heap s) = (Ok tt, h1) ->
  trA x h1 = (Ok x', h2) ->
  Pipeline.predict_one nested {| Pipeline.steps := [(nameA, A); (nameB, B)] |} x s =
  (fst (predB x' h2),
   {| heap := snd (predB x' h2);
      trace := trace s ++
               [fit_one_ev (oid (est A)) x None no_params;
                transform_one_ev (oid (est A)) x;
                predict_one_ev (oid (est B)) x'] |}).
Proof.
  intros U Sup FitA TrA PredB R1 R2.
  pose proof (has_transform_one_external _ _ TrA) as EA.
  unfold Pipeline.predict_one, Pipeline._transform_one.
  cbn [Pipeline.islice_and_next Pipeline.steps values map snd List.length
       nth_error firstn].
  assert (Pipeline._transform_one_loop nested [A] x =
          (Pipeline.call_fit_one nested A x None no_params ;;;
           x0 <- Pipeline.call_transform_one nested A x ;; ret x0)%py) as ->.
  { destruct A; try discriminate U; try discriminate EA;
      cbn [Pipeline._transform_one_loop]; rewrite Sup; reflexivity. }
  unfold bind, ret.
  rewrite (fit_one_external nested A x None no_params EA), FitA.
  cbn [option_map]. rewrite call_Some, R1. cbn [fst snd heap trace].
  rewrite (transform_one_external nested A x EA), TrA. cbn [option_map].
  rewrite call_Some. cbn [fst snd heap trace]. rewrite R2. cbn [fst snd].
  destruct B as [e|e fn|e transformers|o sub|e w l]; try discriminate PredB;
    cbn [Pipeline.call_predict_one est] in *; rewrite PredB; cbn [option_map];
    rewrite call_Some; cbn [fst snd heap trace];
    rewrite <- !app_assoc; reflexivity.
Qed.

(** *** The calls on the final step, once the steps are known *)

Lemma transform_one_values (self : Pipeline.Pipeline) ts final x s :
  values (Pipeline.steps self) = ts ++ [final] ->
  Pipeline.transform_one nested self x s =
  (x' <- Pipeline._transform_one_loop nested ts x ;;
   if isTransformer (est final)
   then Pipeline.call_transform_one nested final x'
   else ret x') s.
Proof.
  intros E. unfold Pipeline.transform_one, Pipeline._transform_one.
  rewrite (islice_and_next_values self ts final E). unfold bind, ret.
  now destruct (Pipeline._transform_one_loop nested ts x s) as [[x'|e] s'].
Qed.

Lemma predict_one_values (self : Pipeline.Pipeline) ts final x s :
  values (Pipeline.steps self) = ts ++ [final] ->
  Pipeline.predict_one nested self x s =
  (x' <- Pipeline._transform_one_loop nested ts x ;;
   Pipeline.call_predict_one nested final x') s.
Proof.
  intros E. unfold Pipeline.predict_one, Pipeline._transform_one.
  rewrite (islice_and_next_values self ts final E). unfold bind, ret.
  now destruct (Pipeline._transform_one_loop nested ts x s) as [[x'|e] s'].
Qed.

End Failures.

(** ** Steps that are pipelines *)

Section Nesting.
Context {T : Types}.
Local Open Scope py_scope.

Lemma trace_prefix A B (m : M A) (k : A -> M B) evs s :
  (exists rest, trace (snd (m s)) = trace s ++ evs ++ rest) ->
  (forall a, emits any_event (k a)) ->
  exists rest, trace (snd (bind m k s)) = trace s ++ evs ++ rest.
Proof.
  intros (rest & E) K. unfold bind. destruct (m s) as [[a|e] s1]; simpl in E.
  - destruct (K a s1) as (evs' & E' & _). exists (rest ++ evs').
    rewrite E', E. now rewrite <- !app_assoc.
  - exists rest. exact E.
Qed.

Lemma log_emits P ev : P ev -> emits P (log ev).
Proof. intros H s. exists [ev]. simpl. auto. Qed.

(** One level down: the methods of a step that is a pipeline. *)
Lemma call_fit_one_nested depth o sub x y params :
  Pipeline.call_fit_one (Pipeline.nested_of (S depth)) (SubPipeline o sub) x y params =
  (log (fit_one_ev o x y params) ;;;
   Pipeline.fit_one (Pipeline.nested_of depth) {| Pipeline.steps := sub |} x
     (match y with Some v => v | None => None_target end) params).
Proof. reflexivity. Qed.

Lemma call_transform_one_nested depth o sub x :
  Pipeline.call_transform_one (Pipeline.nested_of (S depth)) (SubPipeline o sub) x =
  (log (transform_one_ev o x) ;;;
   Pipeline.transform_one (Pipeline.nested_of depth) {| Pipeline.steps := sub |} x).
Proof. reflexivity. Qed.

(** X8.  A step that is a pipeline is no supervised transformer, so
    [predict_one] calls its [fit_one] without a target, as it does for any
    other unsupervised step.  For the inner pipeline [A | M] that call is
    [Pipeline.fit_one(x, y=None)]: it transforms with [A] and then fits the
    inner estimator [M], with [y=None] if [M] is supervised.  A prediction
    thus trains the estimator inside a nested pipeline on an absent
    target. *)
Theorem predict_one_fits_nested_pipeline (depth o : nat)
    (nameP nameB n1 n2 : string) (A M B : Step) (x x1 : Features) (s : State)
    (trA : Features -> Method Features)
    (fitM : Features -> option Target -> Params -> Method unit) (h1 : Heap) :
  is_union A = false ->
  isSupervisedTransformer (est A) = false ->
  m_transform_one (est A) = Some trA ->
  m_fit_one (est M) = Some fitM ->
  is_pipeline B = false ->
  trA x (heap s) = (Ok x1, h1) ->
  let P := SubPipeline o [(n1, A); (n2, M)] in
  let yM := if _is_supervised (est M) then Some None_target else None in
  exists rest,
    trace (snd (Pipeline.predict_one (Pipeline.nested_of (S depth))
                  {| Pipeline.steps := [(nameP, P); (nameB, B)] |} x s)) =
    trace s ++
    [fit_one_ev o x None no_params;
     transform_one_ev (oid (est A)) x;
     fit_one_ev (oid (est M)) x1 yM no_params] ++ rest.
Proof.
  intros U Sup TrA FitM EB R P yM.
  pose proof (has_transform_one_external _ _ TrA) as EA.
  pose proof (has_fit_one_external _ _ FitM) as EM.
  rewrite (predict_one_values (Pipeline.nested_of (S depth))
             {| Pipeline.steps := [(nameP, P); (nameB, B)] |} [P] B x s eq_refl).
  unfold P. clear P.
  cbn [Pipeline._transform_one_loop est isSupervisedTransformer negb].
  rewrite call_fit_one_nested, call_transform_one_nested.
  set (inner := Pipeline.nested_of depth).
  apply trace_prefix.
  2:{ intros x'. destruct B; try discriminate EB; apply emits_call; exact I. }
  apply trace_prefix.
  2:{ intros _. apply emits_bind; [|intros; apply emits_ret].
      apply emits_bind; [apply log_emits; exact I|]. intros _ s0.
      rewrite (transform_one_values inner
                 {| Pipeline.steps := [(n1, A); (n2, M)] |} [A] M x s0 eq_refl).
      revert s0. change (emits any_event
        (x' <- Pipeline._transform_one_loop inner [A] x ;;
         if isTransformer (est M)
         then Pipeline.call_transform_one inner M x' else ret x')).
      assert (forall t y, is_pipeline t = false ->
                emits any_event (Pipeline.call_fit_one inner t x y no_params)) as Fit
        by (intros t y Ht; rewrite (fit_one_external inner t x y no_params Ht);
            apply emits_call; exact I).
      assert (forall t x', is_pipeline t = false ->
                emits any_event (Pipeline.call_transform_one inner t x')) as Tr
        by (intros t x' Ht; rewrite (transform_one_external inner t x' Ht);
            apply emits_call; exact I).
      apply emits_bind.
      - destruct A; try discriminate U; try discriminate EA;
          cbn [Pipeline._transform_one_loop];
          (apply emits_bind;
           [destruct (negb _); [now apply Fit|apply emits_ret]|
            intros _; apply emits_bind; [now apply Tr|intros; apply emits_ret]]).
      - intros x'. destruct (isTransformer (est M)); [now apply Tr|apply emits_ret]. }
  exists [].
  unfold Pipeline.fit_one.
  cbn [Pipeline.islice_and_next Pipeline.steps values map snd List.length
       nth_error firstn].
  rewrite (fit_one_loop_plain inner A [] x None_target U), Sup.
  cbn [Pipeline.fit_one_loop]. unfold bind, ret, log.
  rewrite (transform_one_external inner A x EA), TrA. cbn [option_map].
  rewrite call_Some. cbn [fst snd heap trace]. rewrite R. cbn [fst snd].
  subst yM. destruct (_is_supervised (est M));
    rewrite (fit_one_external inner M _ _ _ EM), FitM; cbn [option_map];
    rewrite call_Some; cbn [fst snd heap trace];
    rewrite app_nil_r, <- !app_assoc; reflexivity.
Qed.

End Nesting.

(** ** Looking steps up, and building a pipeline from a list *)

Section Lookup.
Context {T : Types}.
Variable new_FuncTransformer : PyFunction -> Estimator.
Implicit Types (d : odict Step).

Lemma getitem_app_fresh d k (v : Step) k' :
  contains k d = false ->
  getitem k' (d ++ [(k, v)]) =
  if String.eqb k k' then Some v else getitem k' d.
Proof.
  induction d as [|[k0 v0] d IH]; simpl; intros F.
  - reflexivity.
  - apply orb_false_elim in F as [F1 F2].
    destruct (String.eqb k0 k') eqn:E.
    + apply String.eqb_eq in E. subst k'. rewrite String.eqb_sym in F1.
      now rewrite F1.
    + now apply IH.
Qed.

Lemma getitem_contains d k : contains k d = false -> getitem k d = None.
Proof.
  induction d as [|[k0 v0] d IH]; simpl; [reflexivity|]. intros F.
  apply orb_false_elim in F as [F1 F2]. rewrite F1. auto.
Qed.

(** X9.  Adding a step and looking it up.  For a step given as a
    function or as an estimator (a class is instantiated first, and its
    constructor may raise), [_add_step] succeeds; afterwards the pipeline
    is one step longer, the key it chose leads to the step it stored,
    every other key leads to what it led to before (a KeyError included),
    at either end. *)
Theorem add_step_then_getitem (self : Pipeline.Pipeline)
    (estimator : option string * Pipeline.StepArg) (at_start : bool) :
  is_class (snd estimator) = false ->
  exists key self',
    Pipeline._add_step new_FuncTransformer self estimator at_start = Some self' /\
    Pipeline.__getitem__ self key = Raise KeyError /\
    Pipeline.__getitem__ self' key = Ok (stored_step new_FuncTransformer estimator) /\
    (forall k, k <> key ->
       Pipeline.__getitem__ self' k = Pipeline.__getitem__ self k) /\
    Pipeline.__len__ self' = S (Pipeline.__len__ self).
Proof.
  intros _.
  destruct (add_step_spec new_FuncTransformer self estimator at_start)
    as (key & C & R).
  pose proof (chosen_key_free _ _ _ C) as F.
  exists key. eexists. split; [exact R|].
  unfold Pipeline.__getitem__, Pipeline.__len__. cbn [Pipeline.steps].
  rewrite (getitem_contains _ _ F).
  split; [reflexivity|]. destruct at_start.
  - cbn [getitem List.length]. rewrite String.eqb_refl.
    split; [reflexivity|]. split; [|reflexivity].
    intros k Hk. apply not_eq_sym, String.eqb_neq in Hk. now rewrite Hk.
  - rewrite !(getitem_app_fresh _ _ _ _ F), String.eqb_refl.
    split; [reflexivity|]. split.
    + intros k Hk. rewrite (getitem_app_fresh _ _ _ _ F).
      apply not_eq_sym, String.eqb_neq in Hk. now rewrite Hk.
    + rewrite length_app. simpl. lia.
Qed.

Lemma init_from_spec (l : list (option string * Pipeline.StepArg)) :
  forall self,
    NoDup (keys (Pipeline.steps self)) ->
    exists added,
      Pipeline.__init__from new_FuncTransformer self l
        = Some {| Pipeline.steps := Pipeline.steps self ++ added |} /\
      values added = map (stored_step new_FuncTransformer) l /\
      NoDup (keys (Pipeline.steps self ++ added)) /\
      (NoDup (map (asked_name new_FuncTransformer) l) ->
       (forall n, In n (map (asked_name new_FuncTransformer) l) ->
                  contains n (Pipeline.steps self) = false) ->
       keys added = map (asked_name new_FuncTransformer) l).
Proof.
  induction l as [|step l IH]; intros self N.
  - exists []. cbn. rewrite app_nil_r. destruct self. auto.
  - cbn [Pipeline.__init__from]. unfold Pipeline.__or__.
    destruct (add_step_spec new_FuncTransformer self step false) as (key & C & ->).
    pose proof (chosen_key_free _ _ _ C) as F.
    destruct (IH {| Pipeline.steps :=
                      Pipeline.steps self ++ [(key, stored_step new_FuncTransformer step)] |})
      as (added & E & V & N' & K).
    { cbn [Pipeline.steps]. now apply NoDup_keys_snoc. }
    cbn [Pipeline.steps] in *.
    exists ((key, stored_step new_FuncTransformer step) :: added).
    rewrite E. rewrite <- app_assoc in *. cbn [app] in *.
    split; [reflexivity|]. split; [cbn; now rewrite <- V|].
    split; [exact N'|].
    intros ND Free. cbn [map] in ND, Free. inversion ND as [|a l' Ha ND']. subst.
    assert (key = asked_name new_FuncTransformer step) as ->.
    { destruct C as [[_ ->]|[C _]]; [reflexivity|].
      rewrite Free in C by now left. discriminate C. }
    cbn [keys map fst]. f_equal. apply K; [exact ND'|].
    intros n Hn. 
    assert (contains n (Pipeline.steps self) = false) as Fn by (apply Free; now right).
    clear - Fn Hn Ha.
    induction (Pipeline.steps self) as [|[k0 v0] d IHd]; simpl in *.
    + rewrite orb_false_r. apply String.eqb_neq. intros <-. contradiction.
    + apply orb_false_elim in Fn as [F1 F2]. rewrite F1. auto.
Qed.

(** X10.  The constructor on steps that need no instantiation.  Given
    any list of steps, named or not, each a function or an estimator (a
    class is instantiated first, and its constructor may raise), the
    constructor returns a pipeline that has one step for each, in the
    order given, under names that differ from one another. *)
Theorem init_registers_every_step (l : list (option string * Pipeline.StepArg)) :
  Forall (fun a => is_class (snd a) = false) l ->
  exists self,
    Pipeline.__init__ new_FuncTransformer l = Some self /\
    values (Pipeline.steps self) = map (stored_step new_FuncTransformer) l /\
    NoDup (keys (Pipeline.steps self)) /\
    Pipeline.__len__ self = List.length l.
Proof.
  intros _.
  destruct (init_from_spec l {| Pipeline.steps := [] |}) as (added & E & V & N & _).
  { constructor. }
  cbn [Pipeline.steps app] in *. eexists. split; [exact E|].
  cbn [Pipeline.steps]. split; [exact V|]. split; [exact N|].
  unfold Pipeline.__len__. cbn [Pipeline.steps].
  rewrite <- (length_map snd added). fold (values added).
  now rewrite V, length_map.
Qed.

(** X11.  Names are changed only to keep them apart: when the names asked
    for (given, or inferred from the step) differ from one another, the
    constructor stores every step under the very name asked for. *)
Theorem init_keeps_distinct_names (l : list (option string * Pipeline.StepArg)) :
  NoDup (map (asked_name new_FuncTransformer) l) ->
  exists self,
    Pipeline.__init__ new_FuncTransformer l = Some self /\
    keys (Pipeline.steps self) = map (asked_name new_FuncTransformer) l.
Proof.
  intros ND.
  destruct (init_from_spec l {| Pipeline.steps := [] |}) as (added & E & _ & _ & K).
  { constructor. }
  cbn [Pipeline.steps app] in *. eexists. split; [exact E|].
  cbn [Pipeline.steps]. apply K; [exact ND|reflexivity].
Qed.

Lemma append_assoc (a b c : string) : ((a ++ b) ++ c = a ++ (b ++ c))%string.
Proof. induction a as [|ch a IH]; simpl; [reflexivity|now rewrite IH]. Qed.

Lemma join_snoc sep (l : list string) (a : string) :
  l <> [] -> join sep (l ++ [a]) = (join sep l ++ sep ++ a)%string.
Proof.
  induction l as [|s0 l IH]; intros H; [contradiction|].
  destruct l as [|s1 l]; [reflexivity|].
  change (join sep ((s0 :: s1 :: l) ++ [a]))
    with (s0 ++ sep ++ join sep ((s1 :: l) ++ [a]))%string.
  rewrite IH by discriminate.
  change (join sep (s0 :: s1 :: l)) with (s0 ++ sep ++ join sep (s1 :: l))%string.
  now rewrite !append_assoc.
Qed.

(** X13.  The text of a pipeline follows its steps: after a step is added
    to a pipeline that has steps already, [str] of the pipeline is its
    former text and the text of the stored step, joined by [" | "] in the
    order of the steps; on an empty pipeline it is the text of that step
    alone. *)
Theorem str_after_add_step (self : Pipeline.Pipeline)
    (estimator : option string * Pipeline.StepArg) (at_start : bool) :
  exists self',
    Pipeline._add_step new_FuncTransformer self estimator at_start = Some self' /\
    Pipeline.__str__ self' =
      let text := str_of (stored_step new_FuncTransformer estimator) in
      match Pipeline.steps self with
      | [] => text
      | _ :: _ =>
          if at_start then (text ++ " | " ++ Pipeline.__str__ self)%string
          else (Pipeline.__str__ self ++ " | " ++ text)%string
      end.
Proof.
  destruct (add_step_spec new_FuncTransformer self estimator at_start)
    as (key & _ & R).
  eexists. split; [exact R|]. unfold Pipeline.__str__. cbn [Pipeline.steps].
  destruct (Pipeline.steps self) as [|[k v] d] eqn:E.
  - now destruct at_start.
  - destruct at_start; [reflexivity|].
    unfold values. rewrite !map_app. cbn [map snd].
    apply join_snoc. discriminate.
Qed.

Variable step_set_params : Step -> Params -> Step.

(** X12.  [_set_params] keeps the pipeline's shape.  On a pipeline whose
    step names differ from one another (as the keys of a dictionary do)
    it returns a pipeline with the same names in the same order; under
    each name stands the estimator given for it in [new_params], or else
    what the [_set_params] of the old step returns. *)
Theorem set_params_keeps_names (self : Pipeline.Pipeline)
    (new_params : option (odict Pipeline.ParamValue)) :
  NoDup (keys (Pipeline.steps self)) ->
  exists self',
    Pipeline._set_params new_FuncTransformer step_set_params self new_params
      = Some self' /\
    Pipeline.steps self' =
      map (fun item =>
             (fst item,
              reset_step step_set_params
                (match new_params with None => [] | Some d => d end)
                (fst item) (snd item)))
          (Pipeline._get_params self).
Proof.
  intros N. unfold Pipeline._set_params, Pipeline._get_params, Pipeline.__init__.
  set (np := match new_params with None => [] | Some d => d end).
  set (args := map _ (Pipeline.steps self)).
  assert (map (asked_name new_FuncTransformer) args = keys (Pipeline.steps self)) as A.
  { subst args. unfold keys. rewrite map_map. apply map_ext.
    intros [name step]. cbn [fst]. now destruct (getitem name np) as [[e|q]|]. }
  assert (map (stored_step new_FuncTransformer) args =
          map (fun item => reset_step step_set_params np (fst item) (snd item))
              (Pipeline.steps self)) as V.
  { subst args. rewrite map_map. apply map_ext.
    intros [name step]. unfold reset_step. cbn [fst snd].
    now destruct (getitem name np) as [[e|q]|]. }
  destruct (init_from_spec args {| Pipeline.steps := [] |})
    as (added & E & Va & _ & K).
  { constructor. }
  cbn [Pipeline.steps app] in *. eexists. split; [exact E|].
  cbn [Pipeline.steps].
  specialize (K ltac:(rewrite A; exact N) ltac:(reflexivity)).
  rewrite A in K. rewrite V in Va. clear - K Va.
  revert added K Va. unfold keys, values.
  induction (Pipeline.steps self) as [|[k v] d IH]; intros [|[k' v'] added];
    cbn; intros K Va; try discriminate; [reflexivity|].
  injection K as -> K. injection Va as -> Va. f_equal. now apply IH.
Qed.

End Lookup.

(** ** [class Network] *)

Section Networks.
Context {T : Types}.
Implicit Types (self : Network.Network) (a b : Network.Node).

Lemma node_eqb_refl : forall a, Network.node_eqb a a = true.
Proof.
  fix IH 1. intros [s|da ea d n l].
  - apply String.eqb_refl.
  - simpl. induction da as [|x r IHr]; [reflexivity|].
    rewrite IH. exact IHr.
Qed.

Lemma contains_node_app a l l' :
  Network.contains_node a (l ++ l') =
  Network.contains_node a l || Network.contains_node a l'.
Proof. apply existsb_app. Qed.

Lemma append_data self a :
  Network.data (Network.append self a) =
  Network.data self ++
  (if Network.contains_node a (Network.data self) then [] else [a]).
Proof.
  unfold Network.append.
  destruct (Network.contains_node a (Network.data self)); simpl;
    [now rewrite app_nil_r|reflexivity].
Qed.

Lemma append_edges self a :
  Network.edges (Network.append self a) = Network.edges self.
Proof.
  unfold Network.append.
  now destruct (Network.contains_node a (Network.data self)).
Qed.

Lemma append_contains self a :
  Network.contains_node a (Network.data (Network.append self a)) = true.
Proof.
  rewrite append_data, contains_node_app.
  destruct (Network.contains_node a (Network.data self)) eqn:C; [reflexivity|].
  simpl. now rewrite node_eqb_refl.
Qed.

Lemma nodes_apart_snoc l a :
  nodes_apart l -> Network.contains_node a l = false -> nodes_apart (l ++ [a]).
Proof.
  unfold nodes_apart. induction 1 as [|x l Hx Hl IH]; intros C.
  - repeat constructor.
  - simpl in C. apply orb_false_elim in C as [C1 C2].
    simpl. constructor; [|auto].
    apply Forall_app. split; [exact Hx|]. repeat constructor. exact C1.
Qed.

Lemma append_apart self a :
  nodes_apart (Network.data self) ->
  nodes_apart (Network.data (Network.append self a)).
Proof.
  intros H. rewrite append_data.
  destruct (Network.contains_node a (Network.data self)) eqn:C.
  - now rewrite app_nil_r.
  - now apply nodes_apart_snoc.
Qed.

(** [index] finds what [in] finds. *)
Lemma index_from_found a l : forall k,
  Network.contains_node a l = true ->
  exists i a',
    Network.index_from k a l = Ok (k + i) /\
    nth_error l i = Some a' /\ Network.node_eqb a' a = true.
Proof.
  induction l as [|x l IH]; intros k C; [discriminate|].
  simpl in C. simpl. destruct (Network.node_eqb x a) eqn:E.
  - exists 0, x. rewrite Nat.add_0_r. auto.
  - simpl in C. destruct (IH (S k) C) as (i & a' & I & N & Q).
    exists (S i), a'. rewrite I. split; [f_equal; lia|]. auto.
Qed.

Lemma set_add_spec p (s : list (nat * nat)) :
  In p (Network.set_add p s) /\ incl s (Network.set_add p s) /\
  incl (Network.set_add p s) (p :: s).
Proof.
  unfold Network.set_add. destruct (existsb (Network.pair_eqb p) s) eqn:E.
  - apply existsb_exists in E as (q & Hq & Eq).
    unfold Network.pair_eqb in Eq. apply andb_prop in Eq as [E1 E2].
    apply Nat.eqb_eq in E1, E2. destruct p, q. simpl in *. subst.
    split; [exact Hq|]. split; [apply incl_refl|apply incl_tl, incl_refl].
  - split; [apply in_or_app; right; now left|].
    split; [apply incl_appl, incl_refl|].
    intros q Hq. apply in_app_or in Hq as [Hq|[<-|[]]]; [now right|now left].
Qed.

Lemma link_spec self a b :
  exists net i j a' b',
    Network.link self a b = Ok net /\
    Network.data net = Network.data (Network.append (Network.append self a) b) /\
    In (i, j) (Network.edges net) /\
    incl (Network.edges self) (Network.edges net) /\
    incl (Network.edges net) ((i, j) :: Network.edges self) /\
    nth_error (Network.data net) i = Some a' /\ Network.node_eqb a' a = true /\
    nth_error (Network.data net) j = Some b' /\ Network.node_eqb b' b = true /\
    Network.directed net = Network.directed self /\
    Network.name net = Network.name self /\
    Network.labelloc net = Network.labelloc self.
Proof.
  unfold Network.link, Network.index.
  set (n1 := Network.append self a). set (n2 := Network.append n1 b).
  assert (Network.contains_node a (Network.data n2) = true) as Ca.
  { subst n2. rewrite append_data, contains_node_app.
    subst n1. now rewrite append_contains. }
  assert (Network.contains_node b (Network.data n2) = true) as Cb
    by apply append_contains.
  destruct (index_from_found a _ 0 Ca) as (i & a' & Ia & Na & Qa).
  destruct (index_from_found b _ 0 Cb) as (j & b' & Ib & Nb & Qb).
  rewrite Ia, Ib. cbn [and_then Nat.add].
  destruct (set_add_spec (i, j) (Network.edges n2)) as (S1 & S2 & S3).
  assert (Network.edges n2 = Network.edges self) as Ee
    by (subst n2 n1; now rewrite !append_edges).
  rewrite Ee in S1, S2, S3.
  do 5 eexists. split; [reflexivity|]. cbn [Network.data Network.edges
    Network.directed Network.name Network.labelloc]. rewrite Ee.
  split; [reflexivity|]. split; [exact S1|]. split; [exact S2|].
  split; [exact S3|]. split; [exact Na|]. split; [exact Qa|].
  split; [exact Nb|]. split; [exact Qb|].
  subst n2 n1. unfold Network.append.
  repeat match goal with |- context [if ?c then _ else _] => destruct c end;
    auto.
Qed.

(** X14.  [link] never raises, although it reads [self.index]: both ends
    are appended first unless an equal node is there.  The nodes that
    were in the network stay where they were, new ones come last; the
    edges that were there stay, and the new edge joins the positions of
    the first nodes equal to [a] and to [b]. *)
Theorem link_joins_its_ends self a b :
  exists net i j a' b' extra,
    Network.link self a b = Ok net /\
    Network.data net = Network.data self ++ extra /\
    incl extra [a; b] /\
    incl (Network.edges self) (Network.edges net) /\
    incl (Network.edges net) ((i, j) :: Network.edges self) /\
    In (i, j) (Network.edges net) /\
    nth_error (Network.data net) i = Some a' /\ Network.node_eqb a' a = true /\
    nth_error (Network.data net) j = Some b' /\ Network.node_eqb b' b = true.
Proof.
  destruct (link_spec self a b)
    as (net & i & j & a' & b' & L & D & I & S1 & S2 & Na & Qa & Nb & Qb & _).
  exists net, i, j, a', b'. eexists. split; [exact L|].
  split; [rewrite D, !append_data, <- app_assoc; reflexivity|].
  split.
  { intros n Hn. apply in_app_or in Hn as [Hn|Hn];
      repeat match type of Hn with
             | In _ (if ?c then _ else _) => destruct c
             end; simpl in *; tauto. }
  auto 10.
Qed.

Lemma link_keeps_invariants self a b net :
  Network.link self a b = Ok net ->
  edges_in_range self -> nodes_apart (Network.data self) ->
  edges_in_range net /\ nodes_apart (Network.data net).
Proof.
  intros L R A.
  destruct (link_spec self a b)
    as (net' & i & j & a' & b' & L' & D & I & S1 & S2 & Na & Qa & Nb & Qb & _).
  rewrite L in L'. injection L' as <-. split.
  - unfold edges_in_range in *. apply Forall_forall. intros p Hp.
    apply S2 in Hp as [<-|Hp].
    + cbn [fst snd]. split; apply nth_error_Some; congruence.
    + rewrite Forall_forall in R. specialize (R p Hp).
      rewrite D, !append_data, !length_app. lia.
  - rewrite D. now apply append_apart, append_apart.
Qed.

Lemma fold_append_invariants nodes : forall self,
  edges_in_range self -> nodes_apart (Network.data self) ->
  edges_in_range (fold_left Network.append nodes self) /\
  nodes_apart (Network.data (fold_left Network.append nodes self)) /\
  Network.directed (fold_left Network.append nodes self) = Network.directed self /\
  Network.name (fold_left Network.append nodes self) = Network.name self /\
  Network.labelloc (fold_left Network.append nodes self) = Network.labelloc self.
Proof.
  induction nodes as [|a nodes IH]; intros self R A; [auto|].
  cbn [fold_left].
  destruct (IH (Network.append self a)) as (R' & A' & D & N & L).
  - unfold edges_in_range in *. rewrite append_edges, append_data, length_app.
    revert R. apply Forall_impl. intros p. lia.
  - now apply append_apart.
  - split; [exact R'|]. split; [exact A'|]. rewrite D, N, L.
    unfold Network.append.
    now destruct (negb (Network.contains_node a (Network.data self))).
Qed.

Lemma network_init_ok (nodes : list Network.Node)
    (links : list (Network.Node * Network.Node)) (directed : bool)
    (name labelloc : option string) :
  exists net, Network.__init__ nodes links directed name labelloc = Ok net.
Proof.
  unfold Network.__init__. generalize (fold_left Network.append nodes
    {| Network.data := []; Network.edges := []; Network.directed := directed;
       Network.name := name; Network.labelloc := labelloc |}).
  induction links as [|[a b] links IH]; intros self.
  - now exists self.
  - cbn [for_fold fst snd].
    destruct (link_spec self a b) as (net & i & j & a' & b' & -> & _).
    apply IH.
Qed.

(** X15.  The constructor of [Network] never raises, whatever nodes and
    links it is given.  In the network it builds no node equals an
    earlier one, every edge joins two positions of the list of nodes (so
    that [self[a]] and [self[b]] exist when the edges are drawn), and
    [directed], [name] and [labelloc] are as given. *)
Theorem network_init_is_well_formed (nodes : list Network.Node)
    (links : list (Network.Node * Network.Node)) (directed : bool)
    (name labelloc : option string) :
  exists net,
    Network.__init__ nodes links directed name labelloc = Ok net /\
    nodes_apart (Network.data net) /\
    edges_in_range net /\
    Network.directed net = directed /\
    Network.name net = name /\
    Network.labelloc net = labelloc.
Proof.
  unfold Network.__init__.
  set (empty := {| Network.data := []; Network.edges := [];
                   Network.directed := directed; Network.name := name;
                   Network.labelloc := labelloc |}).
  destruct (fold_append_invariants nodes empty) as (R & A & D & N & L);
    [constructor|constructor|].
  cbn [empty Network.directed Network.name Network.labelloc] in D, N, L.
  revert R A D N L. generalize (fold_left Network.append nodes empty).
  induction links as [|[a b] links IH]; intros self R A D N L.
  - exists self. cbn. auto 10.
  - cbn [for_fold fst snd].
    destruct (link_spec self a b)
      as (net & i & j & a' & b' & Lk & _ & _ & _ & _ & _ & _ & _ & _ & D' & N' & L').
    rewrite Lk. cbn [and_then].
    destruct (link_keeps_invariants self a b net Lk R A) as [R' A'].
    apply IH; congruence.
Qed.

End Networks.

(** ** Drawing a pipeline of any length *)

Section Chains.
Context {T : Types}.
Local Open Scope py_scope.
#[local] Arguments String.eqb : simpl never.

Lemma contains_NStr (c : string) (l : list string) :
  Network.contains_node (Network.NStr c) (map Network.NStr l) =
  existsb (fun x => String.eqb x c) l.
Proof.
  unfold Network.contains_node. induction l as [|x l IH]; [reflexivity|].
  cbn [map existsb Network.node_eqb]. now rewrite IH.
Qed.

Lemma contains_NStr_in (c : string) (l : list string) :
  In c l -> Network.contains_node (Network.NStr c) (map Network.NStr l) = true.
Proof.
  intros H. rewrite contains_NStr. apply existsb_exists. exists c.
  split; [exact H|apply String.eqb_refl].
Qed.

Lemma contains_NStr_notin (c : string) (l : list string) :
  ~ In c l -> Network.contains_node (Network.NStr c) (map Network.NStr l) = false.
Proof.
  intros H. rewrite contains_NStr.
  destruct (existsb (fun x => String.eqb x c) l) eqn:E; [|reflexivity].
  apply existsb_exists in E as (x & Hx & E). apply String.eqb_eq in E.
  subst x. contradiction.
Qed.

Lemma index_from_NStr (c : string) (l1 l2 : list string) : forall k,
  ~ In c l1 ->
  Network.index_from k (Network.NStr c) (map Network.NStr (l1 ++ c :: l2))
    = Ok (k + List.length l1).
Proof.
  induction l1 as [|x l1 IH]; intros k H.
  - cbn. rewrite String.eqb_refl. f_equal. lia.
  - cbn [app map Network.index_from Network.node_eqb List.length].
    assert (String.eqb x c = false) as ->
      by (apply String.eqb_neq; intros ->; apply H; now left).
    rewrite IH by (intros Hc; apply H; now right). f_equal. lia.
Qed.

Lemma chain_edges_S n : chain_edges (S n) = chain_edges n ++ [(n, S n)].
Proof. unfold chain_edges. now rewrite seq_S, map_app. Qed.

Lemma chain_edges_new n :
  existsb (Network.pair_eqb (n, S n)) (chain_edges n) = false.
Proof.
  destruct (existsb _ _) eqn:E; [|reflexivity].
  apply existsb_exists in E as (q & Hq & E). unfold chain_edges in Hq.
  apply in_map_iff in Hq as (k & <- & Hk). apply in_seq in Hk.
  unfold Network.pair_eqb in E. cbn [fst snd] in E.
  apply andb_prop in E as [E _]. apply Nat.eqb_eq in E. lia.
Qed.

(** Linking the last node of a chain to a new string makes the chain one
    longer. *)
Lemma link_chain (l : list string) (p c : string) :
  NoDup (l ++ [p; c]) ->
  Network.link (chain_of (l ++ [p])) (Network.NStr p) (Network.NStr c)
    = Ok (chain_of ((l ++ [p]) ++ [c])).
Proof.
  intros N.
  assert (~ In p l) as Hp.
  { apply NoDup_remove_2 in N. intros H. apply N. apply in_or_app. now left. }
  assert (~ In c (l ++ [p])) as Hc.
  { replace (l ++ [p; c]) with ((l ++ [p]) ++ c :: []) in N
      by (now rewrite <- app_assoc).
    apply NoDup_remove_2 in N. now rewrite app_nil_r in N. }
  unfold Network.link, Network.append, Network.index.
  cbn [chain_of Network.data Network.edges Network.directed Network.name
       Network.labelloc].
  rewrite (contains_NStr_in p (l ++ [p])) by (apply in_or_app; right; now left).
  cbn [negb chain_of Network.data Network.edges Network.directed Network.name
       Network.labelloc].
  rewrite (contains_NStr_notin c (l ++ [p]) Hc).
  cbn [negb chain_of Network.data Network.edges Network.directed Network.name
       Network.labelloc].
  replace (map Network.NStr (l ++ [p]) ++ [Network.NStr c])
    with (map Network.NStr ((l ++ [p]) ++ [c])) by (now rewrite !map_app).
  assert (Network.index_from 0 (Network.NStr p)
            (map Network.NStr ((l ++ [p]) ++ [c])) = Ok (List.length l)) as ->.
  { rewrite <- app_assoc. cbn [app]. now rewrite index_from_NStr. }
  assert (Network.index_from 0 (Network.NStr c)
            (map Network.NStr ((l ++ [p]) ++ [c])) = Ok (S (List.length l))) as ->.
  { rewrite index_from_NStr by exact Hc. rewrite length_app. cbn. f_equal. lia. }
  cbn [and_then]. unfold Network.set_add.
  rewrite !length_app. cbn [List.length].
  replace (List.length l + 1 - 1) with (List.length l) by lia.
  replace (List.length l + 1 + 1 - 1) with (S (List.length l)) by lia.
  rewrite chain_edges_new, <- chain_edges_S. unfold chain_of.
  rewrite !length_app. cbn [List.length].
  replace (List.length l + 1 + 1 - 1) with (S (List.length l)) by lia.
  reflexivity.
Qed.

Lemma draw_steps_chain (ts : list Step) : forall (l : list string) (p : string),
  Forall (fun t => is_leaf t = true) ts ->
  NoDup (l ++ p :: map (fun t => str (est t)) ts) ->
  exists l' p',
    l ++ p :: map (fun t => str (est t)) ts = l' ++ [p'] /\
    for_fold Pipeline.draw_step ts (chain_of (l ++ [p]), Network.NStr p)
      = Ok (chain_of (l' ++ [p']), Network.NStr p').
Proof.
  induction ts as [|t ts IH]; intros l p L N.
  - exists l, p. split; reflexivity.
  - inversion L as [|t' ts' Lt Lts]. subst. cbn [map] in N.
    cbn [for_fold]. unfold Pipeline.draw_step at 1.
    rewrite networkify_leaf by exact Lt. cbn [and_then fst snd].
    rewrite link_chain.
    2:{ replace (l ++ p :: str (est t) :: map (fun t0 => str (est t0)) ts)
          with ((l ++ [p; str (est t)]) ++ map (fun t0 => str (est t0)) ts) in N
          by (now rewrite <- app_assoc).
        now apply NoDup_app_remove_r in N. }
    cbn [and_then].
    destruct (IH (l ++ [p]) (str (est t)) Lts) as (l' & p' & E & F).
    { now rewrite <- app_assoc. }
    exists l', p'. split; [|exact F].
    rewrite <- E, <- app_assoc. reflexivity.
Qed.

Lemma draw_nodes_NStr (L : list string) : forall g,
  fold_left (fun g a => Network.draw_node a g) (map Network.NStr L) g
    = g ++ map Network.node_stmt L.
Proof.
  induction L as [|a L IH]; intros g; cbn [map fold_left].
  - now rewrite app_nil_r.
  - rewrite IH. cbn [Network.draw_node]. now rewrite <- app_assoc.
Qed.

Lemma draw_links_NStr (fuel : nat) (L : list string) (es : list (nat * nat)) :
  Forall (fun ab => fst ab < List.length L /\ snd ab < List.length L) es ->
  forall st,
    for_fold (fun ab st =>
                match nth_error (map Network.NStr L) (fst ab),
                      nth_error (map Network.NStr L) (snd ab) with
                | Some a, Some b => Network.draw_link (S fuel) a b st
                | _, _ => Raise IndexError
                end) es st =
    Ok {| Network.G :=
            Network.G st ++
            map (fun ab => Network.edge_stmt (nth (fst ab) L "") (nth (snd ab) L ""))
                es;
          Network.drawn_subclusters := Network.drawn_subclusters st |}.
Proof.
  induction 1 as [|ab es [Ha Hb] Hes IH]; intros st.
  - cbn. rewrite app_nil_r. now destruct st.
  - cbn [for_fold map].
    rewrite !nth_error_map.
    rewrite (nth_error_nth' L "" Ha), (nth_error_nth' L "" Hb).
    cbn [option_map Network.draw_link and_then]. rewrite IH.
    cbn [Network.G Network.drawn_subclusters]. now rewrite <- app_assoc.
Qed.

Lemma chain_pairs (L : list string) :
  map (fun ab : nat * nat => (nth (fst ab) L "", nth (snd ab) L ""))
      (chain_edges (List.length L - 1))
  = combine L (tl L).
Proof.
  unfold chain_edges. rewrite map_map. cbn [fst snd].
  induction L as [|a L IH]; [reflexivity|].
  destruct L as [|b L]; [reflexivity|].
  cbn [List.length Nat.sub tl] in *. rewrite Nat.sub_0_r in *.
  cbn [seq map nth combine]. f_equal.
  rewrite <- seq_shift, map_map. exact IH.
Qed.

Lemma combine_longer (A B : Type) (l l' : list A) (r : list B) :
  List.length r <= List.length l -> combine (l ++ l') r = combine l r.
Proof.
  revert r. induction l as [|a l IH]; intros [|b r] H; simpl in *;
    try reflexivity; try lia.
  - now destruct l'.
  - f_equal. apply IH. lia.
Qed.

(** X16.  A pipeline of leaf steps is drawn as one chain, whatever its
    length.  When the labels of the steps differ from one another and from
    the labels [x] and [y] of the end points, [draw] returns a graph whose
    nodes are [x], the steps in order, and [y], and whose edges join each
    of them to the next, whatever the order in which the set of edges is
    read.  A pipeline without steps is not refused here: its graph is the
    edge from [x] to [y]. *)
Theorem draw_leaves_is_a_chain (self : Pipeline.Pipeline) (fuel : nat) :
  let labels := map (fun t => str (est t)) (values (Pipeline.steps self)) in
  Forall (fun t => is_leaf t = true) (values (Pipeline.steps self)) ->
  NoDup ("x" :: labels ++ ["y"]) ->
  (forall l, Permutation (iter_set l) l) ->
  exists g,
    Pipeline.draw (S (S fuel)) self = Ok g /\
    nodes_of g = "x" :: labels ++ ["y"] /\
    Permutation (edges_of g) (combine ("x" :: labels) (labels ++ ["y"])).
Proof.
  intros labels Lf N P.
  unfold Pipeline.draw.
  change (Network.__init__ [Network.NStr "x"] [] true None None)
    with (Ok (chain_of ([] ++ ["x"]))).
  cbn [and_then].
  destruct (draw_steps_chain (values (Pipeline.steps self)) [] "x" Lf)
    as (l' & p' & E & ->).
  { cbn [app]. fold labels.
    replace ("x" :: labels ++ ["y"]) with (("x" :: labels) ++ ["y"]) in N
      by reflexivity.
    now apply NoDup_app_remove_r in N. }
  cbn [app] in E. fold labels in E. cbn [and_then fst snd].
  rewrite link_chain.
  2:{ replace (l' ++ [p'; "y"]) with ((l' ++ [p']) ++ ["y"])
        by (now rewrite <- app_assoc).
      now rewrite <- E. }
  cbn [and_then]. rewrite <- E.
  set (L := ("x" :: labels) ++ ["y"]).
  cbn [Network.draw chain_of Network.data Network.edges].
  rewrite draw_nodes_NStr. cbn [app].
  assert (Forall (fun ab => fst ab < List.length L /\ snd ab < List.length L)
                 (iter_set (chain_edges (List.length L - 1)))) as R.
  { apply Forall_forall. intros ab Hab.
    apply (Permutation_in _ (P _)) in Hab. unfold chain_edges in Hab.
    apply in_map_iff in Hab as (k & <- & Hk). apply in_seq in Hk.
    cbn [fst snd]. lia. }
  rewrite (draw_links_NStr fuel L _ R). cbn [and_then Network.G].
  eexists. split; [reflexivity|].
  unfold nodes_of, edges_of. cbn [Network.body]. rewrite !flat_map_app.
  assert (forall l : list string,
            flat_map (fun st => match st with Network.node_stmt a => [a] | _ => [] end)
                     (map Network.node_stmt l) = l) as Nn
    by (induction l as [|a l IHl]; cbn [flat_map map app]; [reflexivity|now rewrite IHl]).
  assert (forall l : list string,
            flat_map (fun st => match st with
                                | Network.edge_stmt a b => [(a, b)] | _ => [] end)
                     (map Network.node_stmt l) = []) as Ne
    by (induction l as [|a l IHl]; cbn [flat_map map app]; auto).
  assert (forall es : list (nat * nat),
            flat_map (fun st => match st with Network.node_stmt a => [a] | _ => [] end)
              (map (fun ab => Network.edge_stmt (nth (fst ab) L "") (nth (snd ab) L ""))
                   es) = []) as En
    by (induction es as [|ab es IHes]; cbn [flat_map map app]; auto).
  assert (forall es : list (nat * nat),
            flat_map (fun st => match st with
                                | Network.edge_stmt a b => [(a, b)] | _ => [] end)
              (map (fun ab => Network.edge_stmt (nth (fst ab) L "") (nth (snd ab) L ""))
                   es)
            = map (fun ab : nat * nat => (nth (fst ab) L "", nth (snd ab) L "")) es)
    as Ee
    by (induction es as [|ab es IHes]; cbn [flat_map map app];
        [reflexivity|now rewrite IHes]).
  rewrite Nn, Ne, En, Ee, app_nil_r. cbn [app]. split; [reflexivity|].
  eapply Permutation_trans; [apply Permutation_map, P|].
  rewrite chain_pairs. subst L. cbn [tl app].
  change ("x" :: labels ++ ["y"]) with (("x" :: labels) ++ ["y"]).
  rewrite combine_longer; [reflexivity|].
  rewrite length_app. cbn. lia.
Qed.

(** *** Steps with equal labels *)

Lemma combine_tl_snoc (l : list string) (p c : string) :
  combine ((l ++ [p]) ++ [c]) (tl ((l ++ [p]) ++ [c]))
  = combine (l ++ [p]) (tl (l ++ [p])) ++ [(p, c)].
Proof.
  induction l as [|a l IH]; [reflexivity|].
  cbn [app tl] in *.
  destruct (l ++ [p]) as [|b r] eqn:E; [now destruct l|].
  cbn [app combine tl] in *. now rewrite IH.
Qed.

Lemma nth_error_NStr (D : list string) i a' :
  nth_error (map Network.NStr D) i = Some a' ->
  exists a, a' = Network.NStr a /\ nth_error D i = Some a.
Proof.
  rewrite nth_error_map. destruct (nth_error D i) as [a|]; [|discriminate].
  intros [= <-]. eauto.
Qed.

Lemma node_eqb_NStr (a b : string) :
  Network.node_eqb (Network.NStr a) (Network.NStr b) = true -> a = b.
Proof. apply String.eqb_eq. Qed.

Lemma link_stands_for (net : Network.Network) (l : list string) (p c : string) :
  stands_for net (l ++ [p]) ->
  exists net',
    Network.link net (Network.NStr p) (Network.NStr c) = Ok net' /\
    stands_for net' ((l ++ [p]) ++ [c]).
Proof.
  intros (D & Dd & ND & Mem & E1 & E2).
  destruct (link_spec net (Network.NStr p) (Network.NStr c))
    as (net' & i & j & a' & b' & L & Dd' & I & S1 & S2 & Na & Qa & Nb & Qb & _).
  exists net'. split; [exact L|].
  assert (In p D) as Hp by (apply Mem, in_or_app; right; now left).
  rewrite !append_data, Dd, (contains_NStr_in p D Hp), app_nil_r in Dd'.
  set (D' := if existsb (fun x => String.eqb x c) D then D else D ++ [c]).
  assert (Network.data net' = map Network.NStr D') as DD.
  { rewrite Dd', contains_NStr. subst D'.
    destruct (existsb (fun x => String.eqb x c) D);
      [now rewrite app_nil_r|now rewrite map_app]. }
  assert (exists extra, D' = D ++ extra /\ (forall a, In a D' <-> In a D \/ a = c)
                        /\ NoDup D') as (extra & Ex & Mem' & ND').
  { subst D'. destruct (existsb (fun x => String.eqb x c) D) eqn:C.
    - exists []. rewrite app_nil_r. split; [reflexivity|]. split; [|exact ND].
      apply existsb_exists in C as (x & Hx & Ex). apply String.eqb_eq in Ex.
      subst x. intros a. split; [tauto|]. intros [H| ->]; assumption.
    - exists [c]. split; [reflexivity|]. split.
      + intros a. rewrite in_app_iff. simpl. intuition congruence.
      + apply NoDup_app; [exact ND|repeat constructor; simpl; tauto|].
        intros a Ha [<-|[]].
        assert (existsb (fun x => String.eqb x c) D = true) as B
          by (apply existsb_exists; exists c; split;
              [exact Ha|apply String.eqb_refl]).
        congruence. }
  rewrite DD in Na, Nb.
  apply nth_error_NStr in Na as (a0 & -> & Na).
  apply nth_error_NStr in Nb as (b0 & -> & Nb).
  apply node_eqb_NStr in Qa, Qb. subst a0 b0.
  assert (forall k a, nth_error D k = Some a -> nth_error D' k = Some a) as Keep.
  { intros k a H. rewrite Ex. rewrite nth_error_app1; [exact H|].
    apply nth_error_Some. congruence. }
  exists D'. split; [exact DD|]. split; [exact ND'|]. rewrite combine_tl_snoc.
  split; [|split].
  - intros a. rewrite Mem', Mem, !in_app_iff. simpl. intuition congruence.
  - intros i0 j0 H. apply S2 in H as [H|H].
    + injection H as <- <-. exists p, c. repeat split; try assumption.
      apply in_or_app. right. now left.
    + destruct (E1 i0 j0 H) as (a & b & Ha & Hb & Hab).
      exists a, b. repeat split; auto. apply in_or_app. now left.
  - intros a b H. apply in_app_or in H as [H|[H|[]]].
    + destruct (E2 a b H) as (i0 & j0 & Hi & Ha & Hb).
      exists i0, j0. auto.
    + injection H as <- <-. exists i, j. auto.
Qed.

Lemma draw_steps_stands_for (ts : list Step) :
  forall (net : Network.Network) (l : list string) (p : string),
    Forall (fun t => is_leaf t = true) ts ->
    stands_for net (l ++ [p]) ->
    exists net' l' p',
      l ++ p :: map (fun t => str (est t)) ts = l' ++ [p'] /\
      for_fold Pipeline.draw_step ts (net, Network.NStr p)
        = Ok (net', Network.NStr p') /\
      stands_for net' (l' ++ [p']).
Proof.
  induction ts as [|t ts IH]; intros net l p L S.
  - exists net, l, p. auto.
  - inversion L as [|t' ts' Lt Lts]. subst.
    cbn [for_fold map]. unfold Pipeline.draw_step at 1.
    rewrite networkify_leaf by exact Lt. cbn [and_then fst snd].
    destruct (link_stands_for net l p (str (est t)) S) as (net1 & -> & S1).
    cbn [and_then].
    destruct (IH net1 (l ++ [p]) (str (est t)) Lts S1) as (net' & l' & p' & E & F & S').
    exists net', l', p'. split; [|auto].
    rewrite <- E, <- app_assoc. reflexivity.
Qed.

(** X17.  Leaf steps with equal labels are drawn as one node.  For a
    pipeline of leaf steps, whatever their labels, [draw] returns a graph
    in which every label among [x], the steps and [y] is one node, and
    whose edges join a label to another exactly when the second follows
    the first somewhere in that sequence: two steps after each other with
    one label make an edge from that node to itself. *)
Theorem draw_merges_equal_labels (self : Pipeline.Pipeline) (fuel : nat) :
  let labels := map (fun t => str (est t)) (values (Pipeline.steps self)) in
  let L := "x" :: labels ++ ["y"] in
  Forall (fun t => is_leaf t = true) (values (Pipeline.steps self)) ->
  (forall l, Permutation (iter_set l) l) ->
  exists g,
    Pipeline.draw (S (S fuel)) self = Ok g /\
    NoDup (nodes_of g) /\
    (forall a, In a (nodes_of g) <-> In a L) /\
    (forall a b, In (a, b) (edges_of g) <-> In (a, b) (combine L (tl L))).
Proof.
  intros labels L Lf P.
  unfold Pipeline.draw.
  change (Network.__init__ [Network.NStr "x"] [] true None None)
    with (Ok (chain_of ([] ++ ["x"]))).
  cbn [and_then].
  assert (stands_for (chain_of ([] ++ ["x"])) ([] ++ ["x"])) as S0.
  { exists ["x"]. split; [reflexivity|]. split; [repeat constructor; simpl; tauto|].
    split; [tauto|]. split; intros ? ? []. }
  destruct (draw_steps_stands_for _ _ [] "x" Lf S0) as (net & l' & p' & E & -> & S).
  cbn [app] in E. fold labels in E. cbn [and_then fst snd].
  destruct (link_stands_for net l' p' "y" S) as (net' & -> & S').
  rewrite <- E in S'. change (("x" :: labels) ++ ["y"]) with L in S'.
  cbn [and_then]. clear - S' P.
  destruct S' as (D & Dd & ND & Mem & E1 & E2).
  destruct net' as [data edges directed name labelloc].
  cbn [Network.data Network.edges] in *. subst data.
  cbn [Network.draw Network.data Network.edges].
  rewrite draw_nodes_NStr. cbn [app].
  assert (Forall (fun ab => fst ab < List.length D /\ snd ab < List.length D)
                 (iter_set edges)) as R.
  { apply Forall_forall. intros [i j] Hab.
    apply (Permutation_in _ (P _)) in Hab.
    destruct (E1 i j Hab) as (a & b & Ha & Hb & _).
    cbn [fst snd]. split; apply nth_error_Some; congruence. }
  rewrite (draw_links_NStr fuel D _ R). cbn [and_then Network.G].
  eexists. split; [reflexivity|].
  unfold nodes_of, edges_of. cbn [Network.body]. rewrite !flat_map_app.
  assert (forall l : list string,
            flat_map (fun st => match st with Network.node_stmt a => [a] | _ => [] end)
                     (map Network.node_stmt l) = l) as Nn
    by (induction l as [|a l IHl]; cbn [flat_map map app];
        [reflexivity|now rewrite IHl]).
  assert (forall l : list string,
            flat_map (fun st => match st with
                                | Network.edge_stmt a b => [(a, b)] | _ => [] end)
                     (map Network.node_stmt l) = []) as Ne
    by (induction l as [|a l IHl]; cbn [flat_map map app]; auto).
  assert (forall es : list (nat * nat),
            flat_map (fun st => match st with Network.node_stmt a => [a] | _ => [] end)
              (map (fun ab => Network.edge_stmt (nth (fst ab) D "") (nth (snd ab) D ""))
                   es) = []) as En
    by (induction es as [|ab es IHes]; cbn [flat_map map app]; auto).
  assert (forall es : list (nat * nat),
            flat_map (fun st => match st with
                                | Network.edge_stmt a b => [(a, b)] | _ => [] end)
              (map (fun ab => Network.edge_stmt (nth (fst ab) D "") (nth (snd ab) D ""))
                   es)
            = map (fun ab : nat * nat => (nth (fst ab) D "", nth (snd ab) D "")) es)
    as Ee
    by (induction es as [|ab es IHes]; cbn [flat_map map app];
        [reflexivity|now rewrite IHes]).
  rewrite Nn, Ne, En, Ee, app_nil_r. cbn [app].
  split; [exact ND|]. split; [exact Mem|].
  intros a b. split.
  - intros H. apply in_map_iff in H as ([i j] & Eq & H).
    apply (Permutation_in _ (P _)) in H.
    destruct (E1 i j H) as (a0 & b0 & Ha & Hb & Hab).
    cbn [fst snd] in Eq.
    rewrite (nth_error_nth D i "" Ha), (nth_error_nth D j "" Hb) in Eq.
    now injection Eq as <- <-.
  - intros H. destruct (E2 a b H) as (i & j & Hij & Ha & Hb).
    apply in_map_iff. exists (i, j). cbn [fst snd].
    rewrite (nth_error_nth D i "" Ha), (nth_error_nth D j "" Hb).
    split; [reflexivity|].
    apply (Permutation_in _ (Permutation_sym (P _))). exact Hij.
Qed.

(** *** From steps to nodes *)

(** X22.  [networkify] never raises, however unions, pipelines and
    wrappers are nested in the step: every step has a node.  When [draw]
    fails, it fails while the graph is drawn, not while the network is
    built. *)
Theorem networkify_never_raises :
  forall step : Step, exists node, Pipeline.networkify step = Ok node.
Proof.
  fix IH 1. intros [e|e f|e transformers|o sub|e w l].
  - eexists. reflexivity.
  - eexists. reflexivity.
  - cbn [Pipeline.networkify].
    match goal with
    | |- exists node, (nodes <~ ?each transformers ;; _) = _ =>
        assert (exists ns, each transformers = Ok ns) as [ns ->]
    end.
    { induction transformers as [|[k t] r IHr]; [eexists; reflexivity|].
      destruct (IH t) as [n ->]. destruct IHr as [ns ->].
      eexists. reflexivity. }
    cbn [and_then].
    destruct (network_init_ok ns [] false None None) as [net ->].
    eexists. reflexivity.
  - cbn [Pipeline.networkify].
    match goal with
    | |- exists node, (nodes <~ ?each sub ;; _) = _ =>
        assert (exists ns, each sub = Ok ns) as [ns ->]
    end.
    { induction sub as [|[k t] r IHr]; [eexists; reflexivity|].
      destruct (IH t) as [n ->]. destruct IHr as [ns ->].
      eexists. reflexivity. }
    cbn [and_then].
    destruct (network_init_ok [] (combine (removelast ns) (tl ns)) true None None)
      as [net ->].
    eexists. reflexivity.
  - cbn [Pipeline.networkify]. destruct (IH w) as [n ->]. cbn [and_then].
    destruct (network_init_ok [n] [] true (Some (type_name e)) (Some l))
      as [net ->].
    eexists. reflexivity.
Qed.

(** *** A union, and a pipeline within a pipeline *)

Lemma links_of_fan2 (self : Pipeline.Pipeline) nU nM k1 k2 e t1 t2 M :
  Pipeline.steps self =
    [(nU, TransformerUnion e [(k1, t1); (k2, t2)]); (nM, M)] ->
  is_leaf t1 = true -> is_leaf t2 = true -> is_leaf M = true ->
  NoDup ["x"; str (est t1); str (est t2); str (est M); "y"] ->
  forall fuel,
    Pipeline.draw fuel self =
    Network.draw fuel (fan2 (str (est t1)) (str (est t2)) (str (est M))).
Proof.
  intros E L1 L2 LM N fuel.
  pose proof (eqb_false_of_NoDup _ N) as D.
  assert (forall i j a b,
            nth_error ["x"; str (est t1); str (est t2); str (est M); "y"] i = Some a ->
            nth_error ["x"; str (est t1); str (est t2); str (est M); "y"] j = Some b ->
            Nat.eqb i j = false -> String.eqb a b = false) as D'.
  { intros i j a b Hi Hj Hij. apply (D i j); auto. now apply Nat.eqb_neq. }
  pose proof (D' 0 3 _ _ eq_refl eq_refl eq_refl) as X3.
  pose proof (D' 0 4 _ _ eq_refl eq_refl eq_refl) as X4.
  pose proof (D' 1 2 _ _ eq_refl eq_refl eq_refl) as A2.
  pose proof (D' 3 4 _ _ eq_refl eq_refl eq_refl) as C4.
  clear D D'.
  unfold Pipeline.draw, Pipeline.draw_step. rewrite E.
  cbn [values map snd for_fold Pipeline.networkify].
  rewrite !networkify_leaf by assumption.
  unfold Network.__init__, Network.link, Network.append, Network.index,
    Network.contains_node, Network.set_add, Network.pair_eqb,
    Network.as_node.
  repeat (progress (cbn; rewrite ?String.eqb_refl, ?X3, ?X4, ?A2, ?C4)).
  reflexivity.
Qed.

Lemma draw_fan2_links (fuel : nat) (s1 s2 m : string) (l : list (nat * nat)) :
  Forall (fun ab => In ab [(0, 1); (1, 2); (2, 3)]) l ->
  forall st,
    for_fold (fun ab st =>
                match nth_error (Network.data (fan2 s1 s2 m)) (fst ab),
                      nth_error (Network.data (fan2 s1 s2 m)) (snd ab) with
                | Some a, Some b => Network.draw_link (S (S fuel)) a b st
                | _, _ => Raise IndexError
                end) l st =
    Ok {| Network.G := Network.G st ++ flat_map (fan2_stmts s1 s2 m) l;
          Network.drawn_subclusters := Network.drawn_subclusters st |}.
Proof.
  induction 1 as [|ab l Hab Hl IH]; intros st.
  - simpl. rewrite app_nil_r. now destruct st.
  - cbn [for_fold flat_map].
    assert (match nth_error (Network.data (fan2 s1 s2 m)) (fst ab),
                  nth_error (Network.data (fan2 s1 s2 m)) (snd ab) with
            | Some a, Some b => Network.draw_link (S (S fuel)) a b st
            | _, _ => Raise IndexError
            end =
            Ok {| Network.G := Network.G st ++ fan2_stmts s1 s2 m ab;
                  Network.drawn_subclusters := Network.drawn_subclusters st |})
      as ->.
    { simpl in Hab.
      destruct Hab as [<-|[<-|[<-|[]]]]; cbn; rewrite <- ?app_assoc;
        reflexivity. }
    cbn [and_then]. rewrite IH. cbn [Network.G Network.drawn_subclusters].
    now rewrite <- app_assoc.
Qed.

(** X18.  A union is drawn as a fan.  For a union of two leaf steps
    followed by a leaf step, all labels differing from one another and
    from [x] and [y], [draw] returns a graph with the nodes [x], the two
    branches, the last step and [y]; its edges go from [x] to each branch,
    from each branch to the last step, and from there to [y], whatever the
    order in which the set of edges is read.  The union itself is no
    node. *)
Theorem draw_union_is_a_fan (self : Pipeline.Pipeline)
    (nU nM k1 k2 : string) (e : Estimator) (t1 t2 M : Step) (fuel : nat) :
  Pipeline.steps self =
    [(nU, TransformerUnion e [(k1, t1); (k2, t2)]); (nM, M)] ->
  is_leaf t1 = true -> is_leaf t2 = true -> is_leaf M = true ->
  NoDup ["x"; str (est t1); str (est t2); str (est M); "y"] ->
  (forall l, Permutation (iter_set l) l) ->
  exists g,
    Pipeline.draw (S (S (S fuel))) self = Ok g /\
    nodes_of g = ["x"; str (est t1); str (est t2); str (est M); "y"] /\
    Permutation (edges_of g)
      [("x", str (est t1)); ("x", str (est t2));
       (str (est t1), str (est M)); (str (est t2), str (est M));
       (str (est M), "y")].
Proof.
  intros E L1 L2 LM N P.
  rewrite (links_of_fan2 self nU nM k1 k2 e t1 t2 M E L1 L2 LM N).
  set (s1 := str (est t1)). set (s2 := str (est t2)). set (m := str (est M)).
  cbn [Network.draw].
  assert (Forall (fun ab => In ab [(0, 1); (1, 2); (2, 3)])
                 (iter_set (Network.edges (fan2 s1 s2 m)))) as F.
  { apply Forall_forall. intros ab Hab.
    eapply Permutation_in; [apply P|exact Hab]. }
  rewrite (draw_fan2_links fuel s1 s2 m _ F). cbn [and_then Network.G].
  eexists. split; [reflexivity|].
  unfold nodes_of, edges_of. cbn [Network.body]. rewrite !flat_map_app.
  assert (forall l : list (nat * nat),
            flat_map (fun st => match st with Network.node_stmt a => [a] | _ => [] end)
                     (flat_map (fan2_stmts s1 s2 m) l) = []) as NoNodes.
  { induction l as [|[i j] l IHl]; [reflexivity|].
    cbn [flat_map]. rewrite flat_map_app, IHl, app_nil_r.
    destruct i as [|[|[|i]]]; destruct j as [|[|[|[|j]]]]; reflexivity. }
  rewrite NoNodes, app_nil_r.
  split; [reflexivity|].
  cbn [fan2 Network.data fold_left Network.draw_node flat_map app].
  eapply Permutation_trans;
    [apply Permutation_flat_map, Permutation_flat_map, P|].
  reflexivity.
Qed.

Lemma links_of_lone_subpipeline (self : Pipeline.Pipeline) nP o k t :
  Pipeline.steps self = [(nP, SubPipeline o [(k, t)])] ->
  is_leaf t = true ->
  forall fuel, Pipeline.draw fuel self = Network.draw fuel lone_subpipeline.
Proof.
  intros E L fuel.
  unfold Pipeline.draw, Pipeline.draw_step. rewrite E.
  cbn [values map snd for_fold Pipeline.networkify].
  rewrite !networkify_leaf by assumption. reflexivity.
Qed.

(** X19.  A pipeline whose only step is itself a pipeline of one leaf step
    cannot be drawn.  [networkify] gives the inner pipeline no nodes, only
    the links between its successive steps, and one step has none; the
    network of the inner pipeline is then empty, and drawing either link
    to it reads its first or its last node: [draw] raises IndexError,
    whatever the order in which the set of edges is read. *)
Theorem draw_lone_subpipeline_raises (self : Pipeline.Pipeline)
    (nP k : string) (o : nat) (t : Step) (fuel : nat) :
  Pipeline.steps self = [(nP, SubPipeline o [(k, t)])] ->
  is_leaf t = true ->
  (forall l, Permutation (iter_set l) l) ->
  Pipeline.draw (S (S (S fuel))) self = Raise IndexError.
Proof.
  intros E L P.
  rewrite (links_of_lone_subpipeline self nP o k t E L).
  cbn [Network.draw lone_subpipeline Network.data Network.edges].
  pose proof (P [(0, 1); (1, 2)]) as Pe.
  destruct (iter_set [(0, 1); (1, 2)]) as [|ab l] eqn:I.
  { apply Permutation_length in Pe. discriminate Pe. }
  assert (In ab [(0, 1); (1, 2)]) as Hab
    by (eapply Permutation_in; [exact Pe|now left]).
  assert (iter_set [] = []) as Inil
    by (apply Permutation_nil, Permutation_sym, P).
  cbn [for_fold].
  destruct Hab as [<-|[<-|[]]]; [|reflexivity].
  cbn [nth_error fst snd Network.draw_link Network.draw existsb negb
       Network.drawn_subclusters Network.data Network.edges].
  rewrite Inil. reflexivity.
Qed.

End Chains.

(** ** The report of [debug_one] *)

Section Report.
Context {T : Types}.
Variable nested : Pipeline.Nested.
Local Open Scope py_scope.

Lemma starts_with_refl (s : string) : starts_with s s.
Proof.
  exists ""%string. induction s as [|c s IH]; simpl; [reflexivity|].
  now rewrite <- IH.
Qed.

Lemma starts_with_trans (p q s : string) :
  starts_with p q -> starts_with q s -> starts_with p s.
Proof.
  intros [r1 ->] [r2 ->]. exists (r1 ++ r2)%string. apply append_assoc.
Qed.

Lemma starts_with_print (buffer s : string) :
  starts_with buffer (Pipeline._print buffer s).
Proof. now exists (s ++ newline)%string. Qed.

Lemma starts_with_print_dict n_decimals buffer x show_types indent space_after :
  starts_with buffer
    (Pipeline.print_dict n_decimals buffer x show_types indent space_after).
Proof.
  unfold Pipeline.print_dict.
  assert (starts_with buffer
            match x with
            | FStr s => Pipeline._print buffer s
            | FDict items =>
                fold_left (fun buffer kv =>
                  Pipeline._print buffer
                    ((if indent then Pipeline.tab else "") ++ key_str (fst kv) ++ ": "
                     ++ Pipeline.format_value n_decimals (snd kv)
                     ++ (if show_types
                         then (" (" ++ Pipeline.type_of_val (snd kv) ++ ")")%string
                         else ""))%string)
                  (Pipeline.sorted items) buffer
            end) as H.
  { destruct x as [s|items]; [apply starts_with_print|].
    generalize (Pipeline.sorted items). intros l.
    assert (forall b, starts_with buffer b ->
              starts_with buffer
                (fold_left (fun buffer kv =>
                  Pipeline._print buffer
                    ((if indent then Pipeline.tab else "") ++ key_str (fst kv) ++ ": "
                     ++ Pipeline.format_value n_decimals (snd kv)
                     ++ (if show_types
                         then (" (" ++ Pipeline.type_of_val (snd kv) ++ ")")%string
                         else ""))%string) l b)) as G.
    { induction l as [|kv l IH]; intros b Hb; [exact Hb|].
      cbn [fold_left]. apply IH.
      eapply starts_with_trans; [exact Hb|apply starts_with_print]. }
    apply G, starts_with_refl. }
  destruct space_after; [|exact H].
  eapply starts_with_trans; [exact H|apply starts_with_print].
Qed.

Lemma starts_with_print_title buffer title indent :
  starts_with buffer (Pipeline.print_title buffer title indent).
Proof.
  unfold Pipeline.print_title.
  eapply starts_with_trans; apply starts_with_print.
Qed.

Lemma extends_ret A p (text : A -> string) a :
  starts_with p (text a) -> extends p text (ret a).
Proof. intros H s b s' [= <- _]. exact H. Qed.

Lemma extends_bind A B p (text : B -> string) (m : M A) (k : A -> M B) :
  (forall a, extends p text (k a)) -> extends p text (bind m k).
Proof.
  intros H s b s'. unfold bind. destruct (m s) as [[a|e] s1]; [|discriminate].
  apply H.
Qed.

Lemma debug_union_loop_extends p show_types n_decimals i branches x :
  forall j buffer,
    starts_with p buffer ->
    extends p (fun b => b)
      (Pipeline.debug_union_loop nested show_types n_decimals i j branches x buffer).
Proof.
  induction branches as [|[name sub_t] branches IH]; intros j buffer H.
  - now apply extends_ret.
  - cbn [Pipeline.debug_union_loop]. apply extends_bind. intros out.
    apply IH.
    eapply starts_with_trans; [|apply starts_with_print_dict].
    eapply starts_with_trans; [exact H|apply starts_with_print_title].
Qed.

Lemma debug_one_loop_extends p show_types n_decimals ts :
  forall i x buffer,
    starts_with p buffer ->
    extends p snd
      (Pipeline.debug_one_loop nested show_types n_decimals i ts x buffer).
Proof.
  induction ts as [|t ts IH]; intros i x buffer H.
  - now apply extends_ret.
  - cbn [Pipeline.debug_one_loop].
    intros s r s'. unfold bind at 1.
    match goal with
    | |- (let (r0, s0) := ?m s in _) = _ -> _ =>
        assert (extends p snd m) as Hm; [|destruct (m s) as [[r1|e] s1] eqn:Em]
    end.
    + destruct t as [e|e f|e transformers|o sub|e w l];
        try (apply extends_bind; intros x'; apply extends_ret; cbn [snd];
             eapply starts_with_trans; [|apply starts_with_print_dict];
             eapply starts_with_trans; [exact H|apply starts_with_print_title]).
      intros s0 r0 s0'. unfold bind at 1.
      destruct (Pipeline.debug_union_loop nested show_types n_decimals i 0
                  transformers x _ s0) as [[b|e0] s2] eqn:Eu; [|discriminate].
      apply (debug_union_loop_extends p show_types n_decimals i transformers x 0 _
               (starts_with_trans _ _ _ H (starts_with_print_title _ _ _)))
        in Eu.
      apply extends_bind. intros x'. apply extends_ret. cbn [snd].
      eapply starts_with_trans; [exact Eu|apply starts_with_print_dict].
    + apply IH. exact (Hm s r1 s1 Em).
    + discriminate.
Qed.

Lemma debug_final_extends p self n_decimals final x buffer :
  starts_with p buffer ->
  extends p (fun b => b) (Pipeline.debug_final nested self n_decimals final x buffer).
Proof.
  intros H. unfold Pipeline.debug_final.
  destruct (negb (isTransformer (est final))); [|now apply extends_ret].
  assert (starts_with p
            (Pipeline.print_title buffer
               (str_of_nat (Pipeline.__len__ self) ++ ". " ++ str_of final) false))
    as H1 by (eapply starts_with_trans; [exact H|apply starts_with_print_title]).
  intros s b s'. unfold bind at 1.
  match goal with
  | |- (let (r0, s0) := ?m s in _) = _ -> _ =>
      assert (extends p (fun b => b) m) as Hm;
        [|destruct (m s) as [[b1|e] s1] eqn:Em; [|discriminate]]
  end.
  - destruct (Pipeline.has_debug_one final); [|now apply extends_ret].
    apply extends_bind. intros txt. apply extends_ret.
    eapply starts_with_trans; [exact H1|apply starts_with_print].
  - pose proof (Hm s b1 s1 Em) as H2. cbn beta in H2.
    assert (starts_with p (Pipeline._print b1 "")) as H3
      by (eapply starts_with_trans; [exact H2|apply starts_with_print]).
    match goal with
    | |- ?m s1 = _ -> _ =>
        assert (extends p (fun b => b) m) as Hk; [|exact (Hk s1 b s')]
    end.
    destruct (isClassifier (est final)); apply extends_bind; intros v;
      apply extends_ret.
    + eapply starts_with_trans; [exact H3|apply starts_with_print_dict].
    + eapply starts_with_trans; [exact H3|apply starts_with_print].
Qed.

(** [rstrip] leaves a text untouched up to its last character that is no
    white space. *)
Lemma rstrip_keeps (p : string) (c : ascii) (rest : string) :
  is_space c = false ->
  exists rest', rstrip (p ++ String c rest) = (p ++ String c rest')%string.
Proof.
  intros Hc. induction p as [|a p [rest' IH]].
  - cbn [String.append rstrip]. destruct (rstrip rest) as [|b r].
    + rewrite Hc. now exists ""%string.
    + now exists (String b r).
  - exists rest'. cbn [String.append rstrip]. rewrite IH.
    destruct p; reflexivity.
Qed.

(** X20.  Whenever [debug_one] returns, its report begins with the title
    of the input section, [0. Input] underlined by eight dashes: nothing
    that is printed later, and not the final [rstrip], removes it. *)
Theorem debug_one_begins_with_input (self : Pipeline.Pipeline) (x : Features)
    (show_types : bool) (n_decimals : nat) (s s' : State) (report : string) :
  Pipeline.debug_one nested self x show_types n_decimals s = (Ok report, s') ->
  starts_with input_header report.
Proof.
  unfold Pipeline.debug_one.
  destruct (Pipeline.islice_and_next self) as [[ts final]|e]; [|discriminate].
  set (buffer := Pipeline.print_dict n_decimals
                   (Pipeline.print_title "" "0. Input" false) x show_types false true).
  assert (starts_with (input_header ++ newline) buffer) as H0.
  { eapply starts_with_trans; [|apply starts_with_print_dict].
    apply starts_with_refl. }
  unfold bind, ret.
  destruct (Pipeline.debug_one_loop nested show_types n_decimals 0 ts x buffer s)
    as [[r|e] s1] eqn:E1; [|discriminate].
  apply (debug_one_loop_extends (input_header ++ newline) show_types n_decimals
           ts 0 x buffer H0) in E1.
  destruct (Pipeline.debug_final nested self n_decimals final (fst r) (snd r) s1)
    as [[b|e] s2] eqn:E2; [|discriminate].
  apply (debug_final_extends (input_header ++ newline) self n_decimals final
           (fst r) (snd r) E1) in E2.
  intros [= <- _]. destruct E2 as [rest ->].
  change (input_header ++ newline)%string
    with ("0. Input" ++ newline ++ "-------" ++ String "-" newline)%string.
  rewrite !append_assoc.
  destruct (rstrip_keeps ("0. Input" ++ newline ++ "-------") "-"
              (newline ++ rest) eq_refl) as [rest' R].
  exists rest'. exact R.
Qed.

(** *** What the report shows of a union *)









(** X21.  [debug_one] says nothing of a final step that is a transformer:
    the report ends with what is known before that step, and the step is
    not called.  The call is the loop over the earlier steps, and the
    report the text that loop printed. *)
Theorem debug_one_skips_final_transformer (self : Pipeline.Pipeline)
    (ts : list Step) (final : Step) (x : Features) (show_types : bool)
    (n_decimals : nat) (s : State) :
  values (Pipeline.steps self) = ts ++ [final] ->
  isTransformer (est final) = true ->
  Pipeline.debug_one nested self x show_types n_decimals s =
  (r <- Pipeline.debug_one_loop nested show_types n_decimals 0 ts x
          (Pipeline.print_dict n_decimals
             (Pipeline.print_title "" "0. Input" false) x show_types false true) ;;
   ret (rstrip (snd r))) s.
Proof.
  intros E Tr. unfold Pipeline.debug_one, Pipeline.debug_final.
  rewrite (islice_and_next_values self ts final E), Tr.
  reflexivity.
Qed.

End Report.

(** ** The theorems above at work *)

(** A supervised adder, a step without [transform_one], a scaler and a
    model: the second step stops [fit_one] after the first has been
    fitted on the target 5. *)
Lemma fit_one_stops_witness :
  let A := Leaf (Fixtures.adder 1 "A" true) in
  let B := Leaf (Fixtures.bare 2 "B") in
  let C := Leaf (Fixtures.adder 3 "C" false) in
  let M := Leaf (Fixtures.model 4 "M" true false) in
  let self := Fixtures.pipe [("A", A); ("B", B); ("C", C); ("M", M)] in
  Pipeline.fit_one (Pipeline.nested_of 2) self Fixtures.x1 5%Z [] Fixtures.start =
  (Raise (AttributeError "transform_one"),
   Fixtures.state [(1, 5%Z)]
     [transform_one_ev 1 Fixtures.x1;
      fit_one_ev 1 Fixtures.x1 (Some 5%Z) []]).
Proof.
  intros A B C M self.
  exact (@fit_one_stops_at_failing_step Fixtures.test_types (Pipeline.nested_of 2)
           self [A] [C] B M Fixtures.x1 Fixtures.x1 5%Z [] Fixtures.start
           (Fixtures.state [(1, 5%Z)]
              [transform_one_ev 1 Fixtures.x1;
               fit_one_ev 1 Fixtures.x1 (Some 5%Z) []])
           _ _ eq_refl eq_refl eq_refl).
Defined.

(** A scaler before a step that cannot predict: the scaler has been
    fitted when the AttributeError comes. *)
Lemma predict_without_method_witness :
  let C := Leaf (Fixtures.adder 3 "C" false) in
  let B := Leaf (Fixtures.bare 2 "B") in
  let self := Fixtures.pipe [("C", C); ("B", B)] in
  is_pipeline B = false /\
  Pipeline.predict_one (Pipeline.nested_of 2) self Fixtures.x1 Fixtures.start =
  (Raise (AttributeError "predict_one"),
   Fixtures.state [(3, 1%Z)]
     [fit_one_ev 3 Fixtures.x1 None []; transform_one_ev 3 Fixtures.x1]).
Proof.
  intros C B self. split; [reflexivity|].
  destruct (@predict_without_method_fails_late Fixtures.test_types
              (Pipeline.nested_of 2) self [C] B Fixtures.x1
              (Fixtures.shift 1 Fixtures.x1) Fixtures.start
              (Fixtures.state [(3, 1%Z)]
                 [fit_one_ev 3 Fixtures.x1 None [];
                  transform_one_ev 3 Fixtures.x1])
              eq_refl eq_refl eq_refl) as [H _].
  exact (H eq_refl).
Defined.

(** A supervised adder, a union with a supervised and a plain branch, and
    a model. *)
Lemma fit_one_fits_supervised_witness :
  let A := Leaf (Fixtures.adder 1 "A" true) in
  let U := Fixtures.union_of 9 [("B", Leaf (Fixtures.adder 3 "B" true));
                                ("S", Leaf (Fixtures.adder 5 "S" false))] in
  let M := Leaf (Fixtures.model 4 "M" true false) in
  let self := Fixtures.pipe [("A", A); ("U", U); ("M", M)] in
  Forall (fun t => is_pipeline t = false) ([A; U] ++ [M]) /\
  exists evs,
    trace (snd (Pipeline.fit_one (Pipeline.nested_of 2) self Fixtures.x1 5%Z
                  ["w"] Fixtures.start))
      = trace Fixtures.start ++ evs /\
    Forall (fit_one_event [A; U] M 5%Z ["w"]) evs.
Proof.
  intros A U M self.
  assert (Forall (fun t => is_pipeline t = false) ([A; U] ++ [M])) as F
    by (repeat constructor).
  split; [exact F|].
  exact (@fit_one_fits_supervised_only Fixtures.test_types (Pipeline.nested_of 2)
           self [A; U] M Fixtures.x1 5%Z ["w"] eq_refl F Fixtures.start).
Defined.

(** The same steps on a batch. *)
Lemma fit_many_targets_witness :
  let A := Leaf (Fixtures.adder 1 "A" true) in
  let U := Fixtures.union_of 9 [("B", Leaf (Fixtures.adder 3 "B" true));
                                ("S", Leaf (Fixtures.adder 5 "S" false))] in
  let M := Leaf (Fixtures.model 4 "M" true false) in
  let self := Fixtures.pipe [("A", A); ("U", U); ("M", M)] in
  Forall (fun t => is_pipeline t = false) ([A; U] ++ [M]) /\
  exists evs,
    trace (snd (Pipeline.fit_many (Pipeline.nested_of 2) self [Fixtures.x1] [5%Z]
                  ["w"] Fixtures.start))
      = trace Fixtures.start ++ evs /\
    Forall (fit_many_event M [5%Z] ["w"]) evs.
Proof.
  intros A U M self.
  assert (Forall (fun t => is_pipeline t = false) ([A; U] ++ [M])) as F
    by (repeat constructor).
  split; [exact F|].
  exact (@fit_many_gives_targets_to_final_only Fixtures.test_types
           (Pipeline.nested_of 2) self [A; U] M [Fixtures.x1] [5%Z] ["w"]
           eq_refl F Fixtures.start).
Defined.

(** A scaler before a model: one prediction either way. *)
Lemma predict_one_row_witness :
  let C := Leaf (Fixtures.adder 3 "C" false) in
  let M := Leaf (Fixtures.model 4 "M" true false) in
  let self := Fixtures.pipe [("C", C); ("M", M)] in
  flat self = true /\
  Forall rowwise_step [C] /\
  rowwise_predict (est M) /\
  fst (Pipeline.predict_one (Pipeline.nested_of 2) self Fixtures.x1 Fixtures.start)
    = Ok (Fixtures.num 0) /\
  fst (Pipeline.predict_many (Pipeline.nested_of 2) self [Fixtures.x1] Fixtures.start)
    = map_result (fun r => [r])
        (fst (Pipeline.predict_one (Pipeline.nested_of 2) self Fixtures.x1 Fixtures.start)) /\
  heap (snd (Pipeline.predict_many (Pipeline.nested_of 2) self [Fixtures.x1] Fixtures.start))
    = heap (snd (Pipeline.predict_one (Pipeline.nested_of 2) self Fixtures.x1 Fixtures.start)).
Proof.
  intros C M self.
  assert (Forall rowwise_step [C]) as Rw.
  { constructor; [|constructor]. split; [apply rowwise_adder|exact I]. }
  assert (rowwise_predict (est M)) as Rp.
  { do 2 eexists. split; [reflexivity|]. split; [reflexivity|].
    intros x h. reflexivity. }
  split; [reflexivity|].
  split; [exact Rw|]. split; [exact Rp|]. split; [reflexivity|].
  exact (@predict_one_is_predict_many_row Fixtures.test_types (Pipeline.nested_of 2)
           self [C] M Fixtures.x1 Fixtures.start eq_refl eq_refl Rw Rp).
Defined.

(** Outside that condition the two paths part: with the pipeline [A | B]
    of two adders as first step, [predict_one] returns and [predict_many]
    raises TypeError, [Pipeline.fit_many] having no default for [y]. *)
Lemma predict_many_raises_on_pipeline_step :
  let A := Leaf (Fixtures.adder 1 "A" false) in
  let B := Leaf (Fixtures.adder 2 "B" false) in
  let M := Leaf (Fixtures.model 4 "M" true false) in
  let self := Fixtures.pipe [("P", SubPipeline 7 [("A", A); ("B", B)]); ("M", M)] in
  flat self = false /\
  is_ok (fst (Pipeline.predict_one (Pipeline.nested_of 2) self Fixtures.x1
                Fixtures.start)) = true /\
  Pipeline.predict_many (Pipeline.nested_of 2) self [Fixtures.x1] Fixtures.start
    = (Raise TypeError, Fixtures.start).
Proof. repeat split. Qed.

(** The scaler holds 10 when the call starts; the record it transforms is
    shifted by 11, the fit having come first. *)
Lemma predict_one_fits_before_witness :
  let A := Leaf (Fixtures.adder 3 "A" false) in
  let B := Leaf (Fixtures.model 4 "B" true false) in
  let s := Fixtures.state [(3, 10%Z)] [] in
  is_union A = false /\
  isSupervisedTransformer (est A) = false /\
  Pipeline.predict_one (Pipeline.nested_of 2) (Fixtures.pipe [("A", A); ("B", B)])
    Fixtures.x1 s =
  (Ok (Fixtures.num 0),
   Fixtures.state [(3, 11%Z); (3, 10%Z)]
     [fit_one_ev 3 Fixtures.x1 None [];
      transform_one_ev 3 Fixtures.x1;
      predict_one_ev 4 (Fixtures.shift 11 Fixtures.x1)]).
Proof.
  intros A B s. split; [reflexivity|]. split; [reflexivity|].
  exact (@predict_one_fits_before_transforming Fixtures.test_types
           (Pipeline.nested_of 2) "A" "B" A B Fixtures.x1 _ s _ _ _ _ _
           eq_refl eq_refl eq_refl eq_refl eq_refl eq_refl eq_refl).
Defined.

(** A scaler and a model inside a pipeline that is the first step of
    another: the prediction of the outer pipeline fits the inner model
    (object 4) on the target 0 that stands for [None]. *)
Lemma predict_one_fits_nested_witness :
  let A := Leaf (Fixtures.adder 3 "A" false) in
  let M := Leaf (Fixtures.model 4 "M" true false) in
  let B := Leaf (Fixtures.model 5 "B" true false) in
  let P := SubPipeline 7 [("A", A); ("M", M)] in
  is_union A = false /\
  isSupervisedTransformer (est A) = false /\
  is_pipeline B = false /\
  exists rest,
    trace (snd (Pipeline.predict_one (Pipeline.nested_of 2)
                  (Fixtures.pipe [("P", P); ("B", B)]) Fixtures.x1 Fixtures.start)) =
    trace Fixtures.start ++
    [fit_one_ev 7 Fixtures.x1 None [];
     transform_one_ev 3 Fixtures.x1;
     fit_one_ev 4 Fixtures.x1 (Some 0%Z) []] ++ rest.
Proof.
  intros A M B P. split; [reflexivity|]. split; [reflexivity|].
  split; [reflexivity|].
  exact (@predict_one_fits_nested_pipeline Fixtures.test_types 1 7 "P" "B" "A" "M"
           A M B Fixtures.x1 Fixtures.x1 Fixtures.start _ _ _
           eq_refl eq_refl eq_refl eq_refl eq_refl eq_refl).
Defined.

(** A named step, an estimator and a function: three names, none changed. *)
Lemma init_keeps_names_witness :
  let wrap := fun _ : @PyFunction Fixtures.test_types => Fixtures.bare 0 "FuncTransformer" in
  let parse := {| fn_name := "parse"; fn_call := fun x h => (Ok x, h) |} in
  let l :=
    [(Some "scale", Pipeline.AEstimator (Leaf (Fixtures.adder 1 "StandardScaler" false)));
     (None, Pipeline.AEstimator (Leaf (Fixtures.model 2 "LinearRegression" true false)));
     (None, Pipeline.AFunction parse)] in
  NoDup (map (asked_name wrap) l) /\
  exists self,
    Pipeline.__init__ wrap l = Some self /\
    keys (Pipeline.steps self) = ["scale"; "LinearRegression"; "parse"].
Proof.
  intros wrap parse l.
  assert (NoDup (map (asked_name wrap) l)) as N
    by (repeat constructor; simpl; intuition discriminate).
  split; [exact N|].
  exact (@init_keeps_distinct_names Fixtures.test_types wrap l N).
Defined.

(** The model of a two-step pipeline is replaced, the scaler is handed
    to its own [_set_params]. *)
Lemma set_params_witness :
  let wrap := fun _ : @PyFunction Fixtures.test_types => Fixtures.bare 0 "FuncTransformer" in
  let keep := fun (step : @Step Fixtures.test_types) (_ : list string) => step in
  let A := Leaf (Fixtures.adder 1 "A" false) in
  let M := Leaf (Fixtures.model 2 "M" true false) in
  let M' := Leaf (Fixtures.model 3 "M" true true) in
  let self := Fixtures.pipe [("A", A); ("M", M)] in
  NoDup (keys (Pipeline.steps self)) /\
  exists self',
    Pipeline._set_params wrap keep self (Some [("M", Pipeline.PEstimator M')])
      = Some self' /\
    Pipeline.steps self' = [("A", A); ("M", M')].
Proof.
  intros wrap keep A M M' self.
  assert (NoDup (keys (Pipeline.steps self))) as N
    by (repeat constructor; simpl; intuition discriminate).
  split; [exact N|].
  exact (@set_params_keeps_names Fixtures.test_types wrap keep self
           (Some [("M", Pipeline.PEstimator M')]) N).
Defined.

(** Four leaves; and no step at all. *)
Lemma draw_leaves_witness :
  let t1 := Leaf (Fixtures.adder 1 "A" false) in
  let t2 := Leaf (Fixtures.adder 2 "B" false) in
  let t3 := Leaf (Fixtures.adder 3 "C" false) in
  let t4 := Leaf (Fixtures.model 4 "M" true false) in
  let self := Fixtures.pipe [("A", t1); ("B", t2); ("C", t3); ("M", t4)] in
  Forall (fun t => is_leaf t = true) (values (Pipeline.steps self)) /\
  NoDup ["x"; "A"; "B"; "C"; "M"; "y"] /\
  (forall l, Permutation (@iter_set Fixtures.test_types l) l) /\
  (exists g,
     Pipeline.draw 2 self = Ok g /\
     nodes_of g = ["x"; "A"; "B"; "C"; "M"; "y"] /\
     Permutation (edges_of g)
       [("x", "A"); ("A", "B"); ("B", "C"); ("C", "M"); ("M", "y")]) /\
  (exists g,
     Pipeline.draw 2 (Fixtures.pipe []) = Ok g /\
     nodes_of g = ["x"; "y"] /\
     Permutation (edges_of g) [("x", "y")]).
Proof.
  intros t1 t2 t3 t4 self.
  assert (Forall (fun t => is_leaf t = true) (values (Pipeline.steps self))) as L
    by (repeat constructor).
  assert (NoDup ["x"; "A"; "B"; "C"; "M"; "y"]) as N
    by (repeat constructor; simpl; intuition discriminate).
  assert (NoDup ["x"; "y"]) as N0
    by (repeat constructor; simpl; intuition discriminate).
  assert (forall l, Permutation (@iter_set Fixtures.test_types l) l) as P
    by (intros l; apply Permutation_refl).
  split; [exact L|]. split; [exact N|]. split; [exact P|]. split.
  - exact (@draw_leaves_is_a_chain Fixtures.test_types self 0 L N P).
  - exact (@draw_leaves_is_a_chain Fixtures.test_types (Fixtures.pipe []) 0
             (Forall_nil _) N0 P).
Defined.

(** Two scalers of one class, one after the other, and a model: three
    steps, two nodes, and an edge from the scaler to itself. *)
Lemma draw_merges_witness :
  let t1 := Leaf (Fixtures.adder 1 "StandardScaler" false) in
  let t2 := Leaf (Fixtures.adder 2 "StandardScaler" false) in
  let t3 := Leaf (Fixtures.model 3 "M" true false) in
  let self :=
    Fixtures.pipe [("StandardScaler", t1); ("StandardScaler1", t2); ("M", t3)] in
  let L := ["x"; "StandardScaler"; "StandardScaler"; "M"; "y"] in
  Forall (fun t => is_leaf t = true) (values (Pipeline.steps self)) /\
  (forall l, Permutation (@iter_set Fixtures.test_types l) l) /\
  map_result nodes_of (Pipeline.draw 2 self) = Ok ["x"; "StandardScaler"; "M"; "y"] /\
  map_result edges_of (Pipeline.draw 2 self)
    = Ok [("x", "StandardScaler"); ("StandardScaler", "StandardScaler");
          ("StandardScaler", "M"); ("M", "y")] /\
  exists g,
    Pipeline.draw 2 self = Ok g /\
    NoDup (nodes_of g) /\
    (forall a, In a (nodes_of g) <-> In a L) /\
    (forall a b, In (a, b) (edges_of g) <-> In (a, b) (combine L (tl L))).
Proof.
  intros t1 t2 t3 self L.
  assert (Forall (fun t => is_leaf t = true) (values (Pipeline.steps self))) as Lf
    by (repeat constructor).
  assert (forall l, Permutation (@iter_set Fixtures.test_types l) l) as P
    by (intros l; apply Permutation_refl).
  split; [exact Lf|]. split; [exact P|]. split; [reflexivity|].
  split; [reflexivity|].
  exact (@draw_merges_equal_labels Fixtures.test_types self 0 Lf P).
Defined.

(** A union of two adders before a model. *)
Lemma draw_union_witness :
  let t1 := Leaf (Fixtures.adder 1 "A" false) in
  let t2 := Leaf (Fixtures.adder 2 "B" true) in
  let M := Leaf (Fixtures.model 3 "M" true false) in
  let self := Fixtures.pipe [("U", Fixtures.union_of 9 [("A", t1); ("B", t2)]); ("M", M)] in
  NoDup ["x"; str (est t1); str (est t2); str (est M); "y"] /\
  (forall l, Permutation (@iter_set Fixtures.test_types l) l) /\
  exists g,
    Pipeline.draw 3 self = Ok g /\
    nodes_of g = ["x"; "A"; "B"; "M"; "y"] /\
    Permutation (edges_of g)
      [("x", "A"); ("x", "B"); ("A", "M"); ("B", "M"); ("M", "y")].
Proof.
  intros t1 t2 M self.
  assert (NoDup ["x"; str (est t1); str (est t2); str (est M); "y"]) as N
    by (repeat constructor; simpl; intuition discriminate).
  assert (forall l, Permutation (@iter_set Fixtures.test_types l) l) as P
    by (intros l; apply Permutation_refl).
  split; [exact N|]. split; [exact P|].
  exact (@draw_union_is_a_fan Fixtures.test_types self "U" "M" "A" "B" _ t1 t2 M 0
           eq_refl eq_refl eq_refl eq_refl N P).
Defined.

(** A pipeline that holds nothing but a pipeline of one model. *)
Lemma draw_lone_subpipeline_witness :
  let M := Leaf (Fixtures.model 3 "M" true false) in
  let self := Fixtures.pipe [("P", SubPipeline 7 [("M", M)])] in
  is_leaf M = true /\
  (forall l, Permutation (@iter_set Fixtures.test_types l) l) /\
  Pipeline.draw 3 self = Raise IndexError.
Proof.
  intros M self.
  assert (forall l, Permutation (@iter_set Fixtures.test_types l) l) as P
    by (intros l; apply Permutation_refl).
  split; [reflexivity|]. split; [exact P|].
  exact (@draw_lone_subpipeline_raises Fixtures.test_types self "P" "M" 7 M 0
           eq_refl eq_refl P).
Defined.

(** A scaler before a model that explains itself. *)
Lemma debug_one_header_witness :
  let self :=
    Fixtures.pipe [("A", Leaf (Fixtures.adder 1 "A" false));
                   ("M", Leaf (Fixtures.model 2 "M" true true))] in
  exists report s',
    Pipeline.debug_one (Pipeline.nested_of 2) self Fixtures.x1 true 5 Fixtures.start
      = (Ok report, s') /\
    starts_with input_header report.
Proof.
  intros self. do 2 eexists. split; [vm_compute; reflexivity|].
  exact (@debug_one_begins_with_input Fixtures.test_types (Pipeline.nested_of 2)
           self Fixtures.x1 true 5 Fixtures.start _ _ eq_refl).
Defined.

(** Two scalers: the second one, the final step, is never called. *)
Lemma debug_one_skips_witness :
  let A := Leaf (Fixtures.adder 1 "A" false) in
  let B := Leaf (Fixtures.adder 2 "B" false) in
  let self := Fixtures.pipe [("A", A); ("B", B)] in
  isTransformer (est B) = true /\
  trace (snd (Pipeline.debug_one (Pipeline.nested_of 2) self Fixtures.x1 true 5
                Fixtures.start))
    = [transform_one_ev 1 Fixtures.x1] /\
  Pipeline.debug_one (Pipeline.nested_of 2) self Fixtures.x1 true 5 Fixtures.start =
  bind (Pipeline.debug_one_loop (Pipeline.nested_of 2) true 5 0 [A] Fixtures.x1
          (Pipeline.print_dict 5 (Pipeline.print_title "" "0. Input" false)
             Fixtures.x1 true false true))
       (fun r => ret (rstrip (snd r))) Fixtures.start.
Proof.
  intros A B self. split; [reflexivity|]. split; [reflexivity|].
  exact (@debug_one_skips_final_transformer Fixtures.test_types
           (Pipeline.nested_of 2) self [A] B Fixtures.x1 true 5 Fixtures.start
           eq_refl eq_refl).
Defined.


(** A second step of the class of the first, put in front: it is stored
    under [A1]. *)
Lemma add_step_getitem_witness :
  let wrap := fun _ : @PyFunction Fixtures.test_types => Fixtures.bare 0 "FuncTransformer" in
  let self := Fixtures.pipe [("A", Leaf (Fixtures.adder 1 "A" false))] in
  let other := (@None string, Pipeline.AEstimator (Leaf (Fixtures.adder 2 "A" true))) in
  is_class (snd other) = false /\
  Pipeline._add_step wrap self other true
    = Some (Fixtures.pipe [("A1", Leaf (Fixtures.adder 2 "A" true));
                           ("A", Leaf (Fixtures.adder 1 "A" false))]) /\
  exists key self',
    Pipeline._add_step wrap self other true = Some self' /\
    Pipeline.__getitem__ self key = Raise KeyError /\
    Pipeline.__getitem__ self' key = Ok (stored_step wrap other) /\
    (forall k, k <> key ->
       Pipeline.__getitem__ self' k = Pipeline.__getitem__ self k) /\
    Pipeline.__len__ self' = S (Pipeline.__len__ self).
Proof.
  intros wrap self other. split; [reflexivity|]. split; [reflexivity|].
  exact (@add_step_then_getitem Fixtures.test_types wrap self other true eq_refl).
Defined.

(** A named scaler, a model and a function. *)
Lemma init_registers_witness :
  let wrap := fun _ : @PyFunction Fixtures.test_types => Fixtures.bare 0 "FuncTransformer" in
  let parse := {| fn_name := "parse"; fn_call := fun x h => (Ok x, h) |} in
  let l :=
    [(Some "scale", Pipeline.AEstimator (Leaf (Fixtures.adder 1 "StandardScaler" false)));
     (None, Pipeline.AEstimator (Leaf (Fixtures.model 2 "LinearRegression" true false)));
     (None, Pipeline.AFunction parse);
     (None, Pipeline.AFunction parse)] in
  Forall (fun a => is_class (snd a) = false) l /\
  option_map (fun self => keys (Pipeline.steps self)) (Pipeline.__init__ wrap l)
    = Some ["scale"; "LinearRegression"; "parse"; "parse1"] /\
  exists self,
    Pipeline.__init__ wrap l = Some self /\
    values (Pipeline.steps self) = map (stored_step wrap) l /\
    NoDup (keys (Pipeline.steps self)) /\
    Pipeline.__len__ self = List.length l.
Proof.
  intros wrap parse l.
  assert (Forall (fun a => is_class (snd a) = false) l) as F
    by (repeat constructor).
  split; [exact F|]. split; [reflexivity|].
  exact (@init_registers_every_step Fixtures.test_types wrap l F).
Defined.
